(** * autodoc: the definition-matching and documentation-splicing engine

    A shallow embedding of [autodocumentation_python/insert_docstrings.py],
    of [autodocumentation_python/create_docstrings.py] and of the counts of
    [code/cost_estimator.py], with the properties of the design document
    stated and settled against it, and further properties of the code.

    Conventions.
    - Python [str] values are [string]s; the text is taken to be ASCII, so
      that [str.isspace] and the regular-expression class [\s] coincide
      with [is_space] below.
    - Python [int] values (line numbers, column offsets, list indices) are
      [Z]; list indexing, slicing, [del] and [list.insert] follow Python's
      rules for negative and out-of-range indices.
    - A Python exception is the [Raise] case of [result].
    - The file on disk, and the calls that leave the process (the
      reconciliation collaborator), live in a [world] that is threaded
      through the stateful functions.  The world holds the content of the
      file as it is stored; the file is opened in text mode, so what is
      read from it has every [\r\n] and [\r] turned into [\n].  The
      platform is taken to be POSIX ([os.linesep] is [\n]), so that what
      is written is stored as it is.
    - The file is taken to be there and to open, for reading and for
      writing.  Opening it for writing empties it; [file.write] may then
      raise, and the file stays empty.
    - The functions that [create_docstrings] imports from other modules of
      the repository ([gptapi], [code_info], [make_snippets]) are the
      fields of the class [Generation]; the file it writes lives in a
      [gen_world]. *)

From Stdlib Require Import String Ascii List ZArith Bool Arith Lia Permutation.
From Equations Require Import Equations.
Import ListNotations.

Local Open Scope string_scope.
Local Open Scope list_scope.
Local Open Scope Z_scope.

(* ===================================================================== *)
(** ** Exceptions and fallible results *)
(* ===================================================================== *)

Inductive exn : Type :=
| AttributeError
| UnboundLocalError
| IndexError
| SyntaxError
| OtherError (msg : string).

Inductive result (A : Type) : Type :=
| Ok (a : A)
| Raise (e : exn).

Arguments Ok {A} a.
Arguments Raise {A} e.

Definition rbind {A B} (r : result A) (k : A -> result B) : result B :=
  match r with
  | Ok a => k a
  | Raise e => Raise e
  end.

Definition is_some {A} (o : option A) : bool :=
  match o with
  | Some _ => true
  | None => false
  end.

(** [try: body / except AttributeError: handler] on a pure computation. *)
Definition try_except_AttributeError {A} (body handler : result A) : result A :=
  match body with
  | Raise AttributeError => handler
  | r => r
  end.

Fixpoint rmap {A B} (f : A -> result B) (l : list A) : result (list B) :=
  match l with
  | [] => Ok []
  | x :: l' => rbind (f x) (fun y => rbind (rmap f l') (fun ys => Ok (y :: ys)))
  end.

(* ===================================================================== *)
(** ** Python strings *)
(* ===================================================================== *)

Module PyStr.

Definition nl : ascii := "010"%char.

Definition newline : string := String nl "".

(** [str.isspace] and [\s] on ASCII: TAB, LF, VT, FF, CR, the four
    separators FS GS RS US, and the space. *)
Definition is_space (c : ascii) : bool :=
  let n := nat_of_ascii c in
  (((9 <=? n) && (n <=? 13)) || ((28 <=? n) && (n <=? 32)))%nat.

Fixpoint lstrip (s : string) : string :=
  match s with
  | "" => ""
  | String c s' => if is_space c then lstrip s' else s
  end.

Fixpoint rstrip (s : string) : string :=
  match s with
  | "" => ""
  | String c s' =>
      match rstrip s' with
      | "" => if is_space c then "" else String c ""
      | r => String c r
      end
  end.

(** [s.strip()] *)
Definition strip (s : string) : string := rstrip (lstrip s).

(** [s.split("\n")] *)
Fixpoint split_nl (s : string) : list string :=
  match s with
  | "" => [""]
  | String c s' =>
      if Ascii.eqb c nl then "" :: split_nl s'
      else match split_nl s' with
           | [] => [String c ""]
           | h :: t => String c h :: t
           end
  end.

(** [sep.join(l)] *)
Definition join (sep : string) (l : list string) : string := String.concat sep l.

(** [" " * n] *)
Fixpoint spaces (n : nat) : string :=
  match n with
  | O => ""
  | S k => String " "%char (spaces k)
  end.

(** The carriage return. *)
Definition cr : ascii := "013"%char.

(** Whether [s] holds a carriage return. *)
Fixpoint has_cr (s : string) : bool :=
  match s with
  | "" => false
  | String c s' => Ascii.eqb c cr || has_cr s'
  end.

(** What reading in text mode makes of the content of a file (the default
    [newline=None] of [open]): [\r\n] and a [\r] alone become [\n].
    [after_cr] tells that the character before was a [\r], which has given
    its [\n] already. *)
Fixpoint universal_newlines_from (after_cr : bool) (s : string) : string :=
  match s with
  | "" => ""
  | String c s' =>
      if Ascii.eqb c cr then String nl (universal_newlines_from true s')
      else if Ascii.eqb c nl && after_cr then universal_newlines_from false s'
      else String c (universal_newlines_from false s')
  end.

Definition universal_newlines (s : string) : string :=
  universal_newlines_from false s.

(** [os.linesep]: the platform is taken to be POSIX. *)
Definition linesep : string := newline.

(** What writing in text mode stores of a text: every [\n] becomes
    [os.linesep]. *)
Fixpoint encode_newlines (s : string) : string :=
  match s with
  | "" => ""
  | String c s' =>
      if Ascii.eqb c nl then (linesep ++ encode_newlines s')%string
      else String c (encode_newlines s')
  end.

(** The lines of a text in which every line end is [\n], each with its
    line end. *)
Fixpoint cut_lines (s : string) : list string :=
  match s with
  | "" => []
  | String c s' =>
      if Ascii.eqb c nl then String c "" :: cut_lines s'
      else match cut_lines s' with
           | [] => [String c ""]
           | h :: t => String c h :: t
           end
  end.

(** [file.readlines()] of a file opened in text mode whose content, from
    the position read, is [s]: the line ends are translated, then the lines
    are cut.  On the text that [file.read()] has returned, which holds no
    [\r], it is [cut_lines]. *)
Definition readlines (s : string) : list string :=
  cut_lines (universal_newlines s).

(** [s] ends with a line end and the character before it, if any, is not
    one. *)
Fixpoint ends_with_one_newline (s : string) : bool :=
  match s with
  | "" => false
  | String c "" => Ascii.eqb c nl
  | String c (String d "") => negb (Ascii.eqb c nl) && Ascii.eqb d nl
  | String _ s' => ends_with_one_newline s'
  end.

End PyStr.

(* ===================================================================== *)
(** ** Python lists indexed by [int] *)
(* ===================================================================== *)

Module PyList.

Definition len {A} (l : list A) : Z := Z.of_nat (length l).

(** The clamping of a slice bound (and of the index of [list.insert]). *)
Definition clamp (n i : Z) : Z :=
  if i <? 0 then Z.max 0 (i + n) else Z.min i n.

(** [l[a:b]] *)
Definition slice {A} (l : list A) (a b : Z) : list A :=
  let a' := clamp (len l) a in
  let b' := clamp (len l) b in
  firstn (Z.to_nat (b' - a')) (skipn (Z.to_nat a') l).

(** [del l[i]] *)
Definition del {A} (l : list A) (i : Z) : result (list A) :=
  let i' := if i <? 0 then i + len l else i in
  if (0 <=? i') && (i' <? len l)
  then Ok (firstn (Z.to_nat i') l ++ skipn (S (Z.to_nat i')) l)
  else Raise IndexError.

(** [l.insert(i, x)] *)
Definition insert {A} (l : list A) (i : Z) (x : A) : list A :=
  let i' := Z.to_nat (clamp (len l) i) in
  firstn i' l ++ x :: skipn i' l.

(** [for _ in range(n): del l[i]] *)
Fixpoint del_times {A} (n : nat) (l : list A) (i : Z) : result (list A) :=
  match n with
  | O => Ok l
  | S k => rbind (del l i) (fun l' => del_times k l' i)
  end.

End PyList.

(* ===================================================================== *)
(** ** The syntax tree of Python's [ast] module *)
(* ===================================================================== *)

(** Only what the engine reads is kept: names, parameter lists, base
    expressions, bodies and positions.  Decorators and class keywords are
    never read by it and are left out. *)

Inductive constant : Type :=
| CStr (s : string)            (* a string literal *)
| COther (repr : string).      (* a number, bytes, None, True, ... *)

Inductive expr : Type :=
| Name (id : string)
| Attribute (value : expr) (attr : string)
| Constant (value : constant)
| ValueExpr (kind : string) (value : expr)
    (* Subscript, Starred, Await, ...: a node with a [value] field that is
       an expression and with no [id] field *)
| OtherExpr (src : string).
    (* Call, BinOp, Lambda, ...: a node with neither field *)

(** [ast.arg] *)
Record arg : Type := mk_arg {
  arg_name : string;
  annotation : option expr
}.

(** [ast.arguments] *)
Record arguments : Type := mk_arguments {
  posonlyargs : list arg;
  args : list arg;
  vararg : option arg;
  kwonlyargs : list arg;
  kw_defaults : list (option expr);
  kwarg : option arg;
  defaults : list expr
}.

Record position : Type := mk_pos {
  lineno : Z;
  col_offset : Z;
  end_lineno : Z
}.

#[warnings="-register-all"]
Inductive stmt : Type :=
| FunctionDef (name : string) (a : arguments) (body : list stmt)
              (returns : option expr) (p : position)
| AsyncFunctionDef (name : string) (a : arguments) (body : list stmt)
                   (returns : option expr) (p : position)
| ClassDef (name : string) (bases : list expr) (body : list stmt) (p : position)
| Expr (value : expr) (p : position)
| OtherNode (children : list stmt) (p : position).
    (* any other node below which statements may sit: if, for, while, with,
       try, an except handler, ...; [children] are its child statements in
       field order *)

(** [ast.Module] *)
Record module_ : Type := Module { mod_body : list stmt }.

Definition pos_of (s : stmt) : position :=
  match s with
  | FunctionDef _ _ _ _ p | AsyncFunctionDef _ _ _ _ p
  | ClassDef _ _ _ p | Expr _ p | OtherNode _ p => p
  end.

(** The child statements of a node, in the order of [ast.iter_child_nodes]. *)
Definition child_stmts (s : stmt) : list stmt :=
  match s with
  | FunctionDef _ _ body _ _ | AsyncFunctionDef _ _ body _ _
  | ClassDef _ _ body _ => body
  | Expr _ _ => []
  | OtherNode children _ => children
  end.

(** [isinstance(node, (ast.ClassDef, ast.FunctionDef))].  [AsyncFunctionDef]
    is a class of its own in [ast], not a subclass of [FunctionDef]. *)
Definition is_class_or_func (s : stmt) : bool :=
  match s with
  | FunctionDef _ _ _ _ _ | ClassDef _ _ _ _ => true
  | _ => false
  end.

Definition is_async (s : stmt) : bool :=
  match s with
  | AsyncFunctionDef _ _ _ _ _ => true
  | _ => false
  end.

(** [node.name]; only definitions have the attribute. *)
Definition node_name (s : stmt) : result string :=
  match s with
  | FunctionDef n _ _ _ _ | AsyncFunctionDef n _ _ _ _ | ClassDef n _ _ _ => Ok n
  | _ => Raise AttributeError
  end.

Fixpoint stmt_size (s : stmt) : nat :=
  match s with
  | FunctionDef _ _ body _ _ | AsyncFunctionDef _ _ body _ _
  | ClassDef _ _ body _ => S (list_sum (map stmt_size body))
  | Expr _ _ => 1%nat
  | OtherNode children _ => S (list_sum (map stmt_size children))
  end.

(* ===================================================================== *)
(** ** What the engine takes from outside the repository *)
(* ===================================================================== *)

(** An event that leaves the process: a parse of the text just read from
    the code file, a write of the file (it is emptied and the text is
    written), a call of the reconciliation collaborator, and a write that
    raised after the file was emptied. *)
Inductive event : Type :=
| EvParse (text : string)
| EvWrite (text : string)
| EvGpt (command : string)
| EvTruncate.

(** The library functions and the collaborator the engine calls.
    - [ast_parse] is [ast.parse]; it raises [SyntaxError] on invalid text.
    - [cleandoc] is [inspect.cleandoc], applied by [ast.get_docstring].
    - [unparse_expr] is astunparse's printer for an expression (an
      annotation or a default value).
    - [gpt_compare] is the reconciliation collaborator [gptapi.gpt_compare];
      its answer may depend on what happened before the call.
    - [file_write] is [file.write(text)] on the code file, which
      [open(file_path, "w")] has emptied already: it returns, or it raises
      (an [OSError] of the device, say) and leaves the file empty. *)
Class Externals : Type := {
  ast_parse : string -> result module_;
  cleandoc : string -> string;
  unparse_expr : expr -> string;
  gpt_compare : list event -> string -> result string;
  file_write : list event -> string -> result unit
}.

(* ===================================================================== *)
(** ** Library functions: [astunparse.unparse] on a parameter list,
       [ast.get_docstring], [ast.walk] *)
(* ===================================================================== *)

Section Library.

Context {ext : Externals}.

(** astunparse, [Unparser._arg]: the name, then the annotation if there
    is one. *)
Definition unparse_arg (a : arg) : string :=
  (arg_name a ++
   match annotation a with
   | Some e => ": " ++ unparse_expr e
   | None => ""
   end)%string.

Definition unparse_default (d : option expr) : string :=
  match d with
  | Some e => ("=" ++ unparse_expr e)%string
  | None => ""
  end.

(** The separator written before every item but the first. *)
Definition comma (first : bool) : string := if first then "" else ", ".

(** The loop over the positional parameters, each paired with its default
    if it has one; [index] counts from 1 and [npos] is the number of
    positional-only parameters, after the last of which [", /"] is
    written. *)
Fixpoint unparse_positional (npos index : nat) (first : bool)
         (l : list (arg * option expr)) : bool * string :=
  match l with
  | [] => (first, "")
  | (a, d) :: l' =>
      let here := (comma first ++ unparse_arg a ++ unparse_default d ++
                   (if Nat.eqb index npos then ", /" else ""))%string in
      let '(first', rest) := unparse_positional npos (S index) false l' in
      (first', (here ++ rest)%string)
  end.

Fixpoint unparse_kwonly (first : bool) (l : list (arg * option expr)) : bool * string :=
  match l with
  | [] => (first, "")
  | (a, d) :: l' =>
      let here := (comma first ++ unparse_arg a ++ unparse_default d)%string in
      let '(first', rest) := unparse_kwonly false l' in
      (first', (here ++ rest)%string)
  end.

(** astunparse, [Unparser._arguments]. *)
Definition unparse_arguments (t : arguments) : string :=
  let all_args := posonlyargs t ++ args t in
  let dflts := repeat None (length all_args - length (defaults t))
               ++ map Some (defaults t) in
  let '(first1, s1) :=
    unparse_positional (length (posonlyargs t)) 1 true (combine all_args dflts) in
  let '(first2, s2) :=
    match vararg t, kwonlyargs t with
    | None, [] => (first1, "")
    | Some v, _ => (false, (comma first1 ++ "*" ++ unparse_arg v)%string)
    | None, _ :: _ => (false, (comma first1 ++ "*")%string)
    end in
  let '(first3, s3) :=
    unparse_kwonly first2 (combine (kwonlyargs t) (kw_defaults t)) in
  let s4 :=
    match kwarg t with
    | Some k => (comma first3 ++ "**" ++ unparse_arg k)%string
    | None => ""
    end in
  (s1 ++ s2 ++ s3 ++ s4)%string.

(** [astunparse.unparse(node.args)]: the printed text and a line end. *)
Definition unparse (t : arguments) : string :=
  (unparse_arguments t ++ PyStr.newline)%string.

(** [ast.get_docstring(node)] on a definition: the cleaned text of the
    string literal that is the first statement of the body, if any. *)
Definition get_docstring (s : stmt) : option string :=
  match child_stmts s with
  | Expr (Constant (CStr text)) _ :: _ => Some (cleandoc text)
  | _ => None
  end.

End Library.

(** A node together with the names of the definitions that enclose it,
    outermost first: what the [parent] attributes set by
    [assign_parent_to_nodes] and the walk of [find_parent_nodes] give. *)
Definition located : Type := (list string * stmt)%type.

(** The ancestry of the children of a node: [find_parent_nodes] collects
    the names of the enclosing [ClassDef] and [FunctionDef] nodes only. *)
Definition child_ancestry (n : located) : list string :=
  let '(anc, s) := n in
  match s with
  | FunctionDef name _ _ _ _ | ClassDef name _ _ _ => anc ++ [name]
  | _ => anc
  end.

Definition located_children (n : located) : list located :=
  map (pair (child_ancestry n)) (child_stmts (snd n)).

Definition queue_size (q : list located) : nat :=
  list_sum (map (fun n => stmt_size (snd n)) q).

(** [ast.walk]: [todo] is the deque; the leftmost node is popped, its
    children are appended on the right, and the node is yielded. *)
Equations? walk_queue (todo : list located) : list located
  by wf (queue_size todo) lt :=
  walk_queue [] := [];
  walk_queue (n :: rest) := n :: walk_queue (rest ++ located_children n).
Proof.
  assert (E : forall s, stmt_size s = S (list_sum (map stmt_size (child_stmts s))))
    by (intros []; reflexivity).
  unfold queue_size, located_children.
  rewrite map_app, list_sum_app, map_map. cbn [map list_sum snd].
  rewrite (E (snd n)).
  change (fun x : stmt => stmt_size x) with stmt_size.
  unfold located in *.
  set (A := list_sum (map _ rest)).
  set (B := list_sum (map stmt_size _)).
  change (A + B < S B + A)%nat. lia.
Qed.

(** [ast.walk(tree)] for a module: the [Module] node itself comes first
    and is no statement; the statements follow, breadth first. *)
Definition walk (tree : module_) : list located :=
  walk_queue (map (pair []) (mod_body tree)).

(* ===================================================================== *)
(** ** The two regular expressions of the engine *)
(* ===================================================================== *)

Module Regex.

Import PyStr.

(** [$] under [re.MULTILINE]: the end of the text or of a line. *)
Definition at_eol (s : string) : bool :=
  match s with
  | "" => true
  | String c _ => Ascii.eqb c nl
  end.

(** [\s*$] matched at the head of [r]. *)
Fixpoint ws_then_eol (r : string) : bool :=
  match r with
  | "" => true
  | String c r' => Ascii.eqb c nl || (is_space c && ws_then_eol r')
  end.

(** [\s*#.*$] matched at the head of [r]: once the [#] is found, [.*]
    runs to the end of the line, where [$] holds. *)
Fixpoint ws_then_comment (r : string) : bool :=
  match r with
  | "" => false
  | String c r' => Ascii.eqb c "#"%char || (is_space c && ws_then_comment r')
  end.

(** [re.search(pattern, line, re.M)] as a truth value, for the pattern of
    [find_end_of_definition]: a colon, then white space up to the end of
    a line, or a colon, then white space and a comment. *)
Fixpoint search_colon (line : string) : bool :=
  match line with
  | "" => false
  | String c r =>
      (Ascii.eqb c ":"%char && (ws_then_eol r || ws_then_comment r))
      || search_colon r
  end.

(** The rest of [s] after the literal [p], if [s] starts with it. *)
Fixpoint after_prefix (p s : string) : option string :=
  match p, s with
  | "", _ => Some s
  | String a p', String b s' => if Ascii.eqb a b then after_prefix p' s' else None
  | String _ _, "" => None
  end.

Definition in_range (lo hi c : ascii) : bool :=
  ((nat_of_ascii lo <=? nat_of_ascii c) && (nat_of_ascii c <=? nat_of_ascii hi))%nat.

(** [[a-zA-Z_]] and [\w] on ASCII. *)
Definition is_ident_start (c : ascii) : bool :=
  in_range "a"%char "z"%char c || in_range "A"%char "Z"%char c
  || Ascii.eqb c "_"%char.

Definition is_word (c : ascii) : bool :=
  is_ident_start c || in_range "0"%char "9"%char c.

(** A greedy run [X*]: how many characters it takes and what is left. *)
Fixpoint run (p : ascii -> bool) (s : string) : nat * string :=
  match s with
  | "" => (O, "")
  | String c s' =>
      if p c then let '(n, r) := run p s' in (S n, r) else (O, s)
  end.

Definition dquote : ascii := "034"%char.
Definition squote : ascii := "039"%char.

Definition triple (q : ascii) : string := String q (String q (String q "")).

(** Three quotes [q], characters other than [q], three quotes [q], at
    the head of [s]: the length of the match. *)
Definition quoted_block (q : ascii) (s : string) : option nat :=
  match after_prefix (triple q) s with
  | None => None
  | Some s1 =>
      let '(n, s2) := run (fun c => negb (Ascii.eqb c q)) s1 in
      match after_prefix (triple q) s2 with
      | Some _ => Some (3 + n + 3)%nat
      | None => None
      end
  end.

(** The last alternative: not before [def] or [class], an identifier,
    white space, a parenthesis closed by the first closing parenthesis, a
    colon, white space, and a block between triple single quotes or
    triple double quotes that holds no quote of its kind.  Every starred
    class of the pattern is followed by a character outside it, so the
    greedy runs are the only way to match. *)
Definition call_with_block (s : string) : option nat :=
  match after_prefix "def" s, after_prefix "class" s with
  | None, None =>
      match s with
      | String c s0 =>
          if is_ident_start c then
            let '(n1, s1) := run is_word s0 in
            let '(n2, s2) := run is_space s1 in
            match after_prefix "(" s2 with
            | None => None
            | Some s3 =>
                let '(n3, s4) := run (fun c => negb (Ascii.eqb c ")"%char)) s3 in
                match after_prefix "):" s4 with
                | None => None
                | Some s5 =>
                    let '(n4, s6) := run is_space s5 in
                    let block :=
                      match quoted_block squote s6 with
                      | Some b => Some b
                      | None => quoted_block dquote s6
                      end in
                    match block with
                    | Some b => Some (1 + n1 + n2 + 1 + n3 + 2 + n4 + b)%nat
                    | None => None
                    end
                end
            end
          else None
      | "" => None
      end
  | _, _ => None
  end.

(** A literal line: [^lit$]. *)
Definition literal_line (lit s : string) : option nat :=
  match after_prefix lit s with
  | Some r => if at_eol r then Some (String.length lit) else None
  | None => None
  end.

Definition backticks : string := "```".

(** The pattern of [remove_start_end_lines] tried at the start of a
    line; the alternatives are tried in the order they are written. *)
Definition framing_match (s : string) : option nat :=
  match literal_line "start" s with
  | Some n => Some n
  | None =>
  match literal_line "end" s with
  | Some n => Some n
  | None =>
  match literal_line (backticks ++ "python")%string s with
  | Some n => Some n
  | None =>
  match literal_line backticks s with
  | Some n => Some n
  | None => call_with_block s
  end end end end.

(** [re.sub(pattern, "", s)]: [skip] characters of a match are still to
    be dropped; [bol] tells whether the position is the start of a
    line. *)
Fixpoint sub_framing (skip : nat) (bol : bool) (s : string) : string :=
  match s with
  | "" => ""
  | String c s' =>
      match skip with
      | S k => sub_framing k (Ascii.eqb c nl) s'
      | O =>
          match (if bol then framing_match s else None) with
          | Some (S k) => sub_framing k (Ascii.eqb c nl) s'
          | _ => String c (sub_framing O (Ascii.eqb c nl) s')
          end
      end
  end.

End Regex.

(* ===================================================================== *)
(** ** insert_docstrings.py: the pure functions *)
(* ===================================================================== *)

Definition triple_quote : string := Regex.triple Regex.dquote.

(** [shift_docstring(docstring, indent)] *)
Definition shift_docstring (docstring : option string) (indent : Z) : string :=
  match docstring with
  | None => ""
  | Some doc =>
      let docstring := PyStr.join PyStr.newline [triple_quote; doc; triple_quote] in
      let lines := PyStr.split_nl (PyStr.strip docstring) in
      let shifted_lines :=
        map (fun line => (PyStr.spaces (Z.to_nat indent) ++ line)%string) lines in
      (PyStr.join PyStr.newline shifted_lines ++ PyStr.newline)%string
  end.

(** [remove_start_end_lines(docstrings)] *)
Definition remove_start_end_lines (docstrings : string) : string :=
  Regex.sub_framing O true docstrings.

(** [node.body[0]] *)
Definition body0 (node : stmt) : result stmt :=
  match child_stmts node with
  | s :: _ => Ok s
  | [] => Raise IndexError
  end.

(** The loop of [find_end_of_definition]: the value of [i] when the loop
    is left, [None] if the loop body never ran and [i] was never bound. *)
Fixpoint header_scan (i : Z) (starting_text : list string) : option Z :=
  match starting_text with
  | [] => None
  | line :: rest =>
      if Regex.search_colon line then Some i
      else match header_scan (i + 1) rest with
           | Some j => Some j
           | None => Some i
           end
  end.

(** [find_end_of_definition(code_lines, node)] *)
Definition find_end_of_definition (code_lines : list string) (node : stmt) : result Z :=
  let start_lno := lineno (pos_of node) in
  rbind (body0 node) (fun b =>
  let end_lno := lineno (pos_of b) in
  let starting_text := PyList.slice code_lines (start_lno - 1) (end_lno - 1) in
  match header_scan 1 starting_text with
  | Some i => Ok (start_lno + i)
  | None => Raise UnboundLocalError
  end).

Section Keys.

Context {ext : Externals}.

(** [base.id] *)
Definition attr_id (e : expr) : result string :=
  match e with
  | Name id => Ok id
  | _ => Raise AttributeError
  end.

(** [base.value.id]; the [value] of a [Constant] is a Python value, which
    has no [id]. *)
Definition attr_value_id (e : expr) : result string :=
  match e with
  | Attribute v _ | ValueExpr _ v => attr_id v
  | _ => Raise AttributeError
  end.

Definition join_bases (f : expr -> result string) (bases : list expr) : result string :=
  match bases with
  | [] => Ok ""
  | _ => rbind (rmap f bases) (fun ids => Ok (PyStr.join ", " ids))
  end.

(** [get_name_args(node)]: the name and the signature text. *)
Definition get_name_args (node : stmt) : result (string * string) :=
  match node with
  | FunctionDef name a _ _ _ => Ok (name, PyStr.strip (unparse a))
  | ClassDef name bases _ _ =>
      rbind
        (try_except_AttributeError (join_bases attr_id bases)
           (try_except_AttributeError (join_bases attr_value_id bases)
              (Ok "")))
        (fun args => Ok (name, args))
  | _ => Raise UnboundLocalError
  end.

End Keys.

(* ===================================================================== *)
(** ** The world: the code file and the trace of events *)
(* ===================================================================== *)

Record world : Type := mk_world {
  stored_text : string;     (* the content of the file at [file_path] *)
  trace : list event        (* what has happened so far, oldest first *)
}.

(** The text that reading the file gives: its content with the line ends
    translated. *)
Definition file_text (w : world) : string :=
  PyStr.universal_newlines (stored_text w).

(** A computation that may change the world and may raise. *)
Definition M (A : Type) : Type := world -> result A * world.

Definition ret {A} (a : A) : M A := fun w => (Ok a, w).

Definition bind {A B} (m : M A) (k : A -> M B) : M B :=
  fun w =>
    match m w with
    | (Ok a, w') => k a w'
    | (Raise e, w') => (Raise e, w')
    end.

Definition lift {A} (r : result A) : M A := fun w => (r, w).

Declare Scope py_scope.
Delimit Scope py_scope with py.
Notation "x <- m ;; k" := (bind m (fun x => k))
  (at level 61, m at next level, right associativity) : py_scope.
Notation "m ;;; k" := (bind m (fun _ => k))
  (at level 61, right associativity) : py_scope.

Definition log (e : event) (w : world) : world :=
  mk_world (stored_text w) (trace w ++ [e]).

(** [open(file_path, "r")] and [file.read()]; the file is taken to be
    there and to open. *)
Definition read_file : M string := fun w => (Ok (file_text w), w).

Section Engine.

Context {ext : Externals}.

Local Open Scope py_scope.

(** [open(file_path, "w")], [file.truncate()], [file.write(text)]: the
    file is emptied when it is opened, before [write] is called; when
    [write] raises, the exception leaves with the file empty. *)
Definition write_file (text : string) : M unit :=
  fun w =>
    match file_write (trace w) text with
    | Ok _ => (Ok tt, mk_world (PyStr.encode_newlines text)
                               (trace w ++ [EvWrite text]))
    | Raise e => (Raise e, mk_world "" (trace w ++ [EvTruncate]))
    end.

(** [ast.parse(code)] on the text read from the code file. *)
Definition parse_code (code : string) : M module_ :=
  fun w => (ast_parse code, log (EvParse code) w).

(** The call of the collaborator. *)
Definition call_gpt_compare (command : string) : M string :=
  fun w => (gpt_compare (trace w) command, log (EvGpt command) w).

(** The prompt built by [compare_docstrings]. *)
Definition compare_command (old_docstring new_docstring : string) : string :=
  let q := String Regex.dquote "" in
  PyStr.join PyStr.newline
    [ "";
      "I want to update an old docstring to a new one generated by GPT. Compare these two and if there is any";
      "information in the old one that is not in the new one, add it to the new one. If there is no difference,";
      "just return the new docstring - no further notification. Maximal 90 characters per line. ";
      ("Your output whould start with " ++ q ++ "start" ++ q ++ " and end with "
         ++ q ++ "end" ++ q ++ ".")%string;
      "old docstring:";
      old_docstring;
      "new docstring:";
      new_docstring;
      "" ].

(** [compare_docstrings(old_docstring, new_docstring)].  The new text is
    [None] when the documentation node has no documentation; [None] has
    no [strip]. *)
Definition compare_docstrings (old_docstring : string)
           (new_docstring : option string) : M string :=
  match new_docstring with
  | None => lift (Raise AttributeError)
  | Some new =>
      if String.eqb (PyStr.strip old_docstring) (PyStr.strip new)
      then ret new
      else call_gpt_compare (compare_command old_docstring new)
  end.

(** The branch of [insert_1_docstring] taken when the code node has a
    documentation block already (the [if]). *)
Definition replace_block (node_code : stmt) (old : string)
           (docstring : option string) (lines_code : list string)
  : M (list string) :=
  merged <- compare_docstrings old docstring ;;
  let docstring := PyStr.strip (remove_start_end_lines merged) in
  b <- lift (body0 node_code) ;;
  let start := lineno (pos_of b) in
  let end_ := end_lineno (pos_of b) in
  lines_code <- lift (PyList.del_times (Z.to_nat (end_ - start + 1))
                        lines_code (start - 1)) ;;
  let indent := col_offset (pos_of b) in
  let shifted_docstring := shift_docstring (Some docstring) indent in
  ret (PyList.insert lines_code (start - 1) shifted_docstring).

(** The branch taken when it has none (the [elif]). *)
Definition insert_block (node_code : stmt) (docstring : option string)
           (lines_code : list string) : M (list string) :=
  e <- lift (find_end_of_definition lines_code node_code) ;;
  let start := e - 1 in
  b <- lift (body0 node_code) ;;
  let indent := col_offset (pos_of b) in
  let shifted_docstring := shift_docstring docstring indent in
  ret (PyList.insert lines_code start shifted_docstring).

(** The condition of the match: name, signature and ancestry are equal. *)
Definition same_key (node_doc node_code : located) : result bool :=
  rbind (get_name_args (snd node_doc)) (fun '(name_doc, args_doc) =>
  rbind (get_name_args (snd node_code)) (fun '(name_code, args_code) =>
  Ok (String.eqb name_code name_doc && String.eqb args_code args_doc
      && if list_eq_dec string_dec (fst node_doc) (fst node_code)
         then true else false))).

(** The body of the loop of [insert_1_docstring] once a code node
    matches: splice, persist, and return the documentation node. *)
Definition splice_and_write (node_doc node_code : located)
           (lines_code : list string) : M (option located) :=
  let docstring := get_docstring (snd node_doc) in
  lines_code <-
    match get_docstring (snd node_code) with
    | Some old => replace_block (snd node_code) old docstring lines_code
    | None => insert_block (snd node_code) docstring lines_code
    end ;;
  write_file (PyStr.join "" lines_code) ;;;
  ret (Some node_doc).

(** [for node_code in ast.walk(tree_code): ...] with its [return]s. *)
Fixpoint match_loop (node_doc : located) (nodes : list located)
         (lines_code : list string) : M (option located) :=
  match nodes with
  | [] => ret None
  | node_code :: rest =>
      if is_class_or_func (snd node_code) then
        same <- lift (same_key node_doc node_code) ;;
        if (same : bool) then splice_and_write node_doc node_code lines_code
        else match_loop node_doc rest lines_code
      else match_loop node_doc rest lines_code
  end.

(** [insert_1_docstring(node_doc, tree_doc, file_path)] *)
Definition insert_1_docstring (node_doc : located) : M (option located) :=
  code <- read_file ;;
  let lines_code := PyStr.readlines code in
  tree_code <- parse_code code ;;
  match_loop node_doc (walk tree_code) lines_code.

(** The definitions of a tree in the order of [ast.walk]. *)
Definition definitions (tree : module_) : list located :=
  filter (fun n => is_class_or_func (snd n)) (walk tree).

(** The loop of [insert_docstrings] over the documentation nodes: for
    each, whether it was appended to [numb_inserted_nodes].  A node of
    [ast] is equal to itself only, so a node is in that list exactly when
    its own call of [insert_1_docstring] returned it.  An [AttributeError]
    is caught and the loop goes on; any other exception leaves the loop. *)
Fixpoint insert_loop (docs : list located) : M (list bool) :=
  match docs with
  | [] => ret []
  | node_doc :: rest =>
      fun w =>
        match insert_1_docstring node_doc w with
        | (Ok inserted_node, w') =>
            match insert_loop rest w' with
            | (Ok flags, w'') =>
                (Ok (is_some inserted_node :: flags), w'')
            | (Raise e, w'') => (Raise e, w'')
            end
        | (Raise AttributeError, w') =>
            match insert_loop rest w' with
            | (Ok flags, w'') => (Ok (false :: flags), w'')
            | (Raise e, w'') => (Raise e, w'')
            end
        | (Raise e, w') => (Raise e, w')
        end
  end.

(** [[node.name for node in l]] *)
Definition names (l : list located) : list string :=
  flat_map (fun n => match node_name (snd n) with Ok s => [s] | Raise _ => [] end) l.

(** What [insert_docstrings] prints. *)
Record report : Type := mk_report {
  numb_nodes_code : list string;          (* names of the definitions of the code *)
  numb_node_doc : list located;           (* the documentation nodes *)
  numb_inserted_nodes : list located;     (* those for which a splice was written *)
  not_inserted : list string;
  not_generated : list string
}.

Definition mem_string (s : string) (l : list string) : bool :=
  existsb (String.eqb s) l.

(** [insert_docstrings(file_path, docstrings)] *)
Definition insert_docstrings (docstrings : string) : M report :=
  let docstrings := remove_start_end_lines docstrings in
  code <- read_file ;;
  tree_code <- parse_code code ;;
  let numb_nodes_code := names (definitions tree_code) in
  tree_doc <- lift (ast_parse docstrings) ;;
  let numb_node_doc := definitions tree_doc in
  flags <- insert_loop numb_node_doc ;;
  let marked := combine numb_node_doc flags in
  let inserted := map fst (filter snd marked) in
  let not_inserted := names (map fst (filter (fun m => negb (snd m)) marked)) in
  let not_generated :=
    filter (fun n => negb (mem_string n (names numb_node_doc))) numb_nodes_code in
  ret (mk_report numb_nodes_code numb_node_doc inserted not_inserted not_generated).

(** [class_or_func_present(code)] of create_docstrings.py *)
Definition class_or_func_present (code : string) : result bool :=
  rbind (ast_parse code) (fun tree =>
    Ok (existsb (fun n => is_class_or_func (snd n)) (walk tree))).

End Engine.

(* ===================================================================== *)
(** ** Notions in which the properties are stated *)
(* ===================================================================== *)

Section Notions.

Context {ext : Externals}.

(** The identity key of a definition: name, signature, ancestry. *)
Definition compute_key (n : located) : result (string * string * list string) :=
  rbind (get_name_args (snd n)) (fun '(name, args) => Ok (name, args, fst n)).

(** The code node at which the loop of [insert_1_docstring] stops, with
    the splice left out. *)
Fixpoint first_match (node_doc : located) (nodes : list located)
  : result (option located) :=
  match nodes with
  | [] => Ok None
  | node_code :: rest =>
      if is_class_or_func (snd node_code) then
        rbind (same_key node_doc node_code) (fun same =>
          if (same : bool) then Ok (Some node_code)
          else first_match node_doc rest)
      else first_match node_doc rest
  end.


End Notions.

(** Document order: a node, then its children from first to last, each
    with all that is below it (the order of the lines of the text). *)
Fixpoint preorder (anc : list string) (s : stmt) {struct s} : list located :=
  (anc, s) ::
  match s with
  | FunctionDef name _ body _ _ | ClassDef name _ body _ =>
      flat_map (preorder (anc ++ [name])) body
  | AsyncFunctionDef _ _ body _ _ => flat_map (preorder anc) body
  | Expr _ _ => []
  | OtherNode children _ => flat_map (preorder anc) children
  end.

Definition document_order (tree : module_) : list located :=
  flat_map (preorder []) (mod_body tree).

(** A [ClassDef] or [FunctionDef] at the node or anywhere below it. *)
Fixpoint has_class_or_func (s : stmt) {struct s} : bool :=
  match s with
  | FunctionDef _ _ _ _ _ | ClassDef _ _ _ _ => true
  | AsyncFunctionDef _ _ body _ _ => existsb has_class_or_func body
  | Expr _ _ => false
  | OtherNode children _ => existsb has_class_or_func children
  end.

(** The documentation block of a code node lies on lines that exist:
    [ast.parse] numbers lines from 1 and a node ends no earlier than it
    starts. *)
Definition block_range_ok (node_code : stmt) : Prop :=
  forall b, body0 node_code = Ok b ->
            1 <= lineno (pos_of b) <= end_lineno (pos_of b).

(** The header span read by [find_end_of_definition]. *)
Definition header_span (code_lines : list string) (node b : stmt) : list string :=
  PyList.slice code_lines (lineno (pos_of node) - 1) (lineno (pos_of b) - 1).

(** The 1-based place, in a list of lines, of the first line on which
    the colon pattern is found. *)
Fixpoint first_colon_line (l : list string) : option Z :=
  match l with
  | [] => None
  | line :: rest =>
      if Regex.search_colon line then Some 1
      else option_map Z.succ (first_colon_line rest)
  end.

(** The discipline of the trace: a parse is of the text the file holds,
    and a write comes only after a parse of the text it replaces, be it a
    write that returns or one that raises and leaves the file empty.
    [cur] is the text of the file, as it is read, and [parsed] tells
    whether it was parsed since it was written. *)
Fixpoint reparsed (cur : string) (parsed : bool) (evs : list event) : Prop :=
  match evs with
  | [] => True
  | EvParse t :: evs' => t = cur /\ reparsed cur true evs'
  | EvWrite t :: evs' =>
      parsed = true /\ reparsed (PyStr.universal_newlines t) false evs'
  | EvGpt _ :: evs' => reparsed cur parsed evs'
  | EvTruncate :: evs' => parsed = true /\ reparsed "" false evs'
  end.

(** The text read from the file after the events. *)
Fixpoint text_after (cur : string) (evs : list event) : string :=
  match evs with
  | [] => cur
  | EvWrite t :: evs' => text_after (PyStr.universal_newlines t) evs'
  | EvTruncate :: evs' => text_after "" evs'
  | _ :: evs' => text_after cur evs'
  end.

(** What a computation adds to the trace, and the discipline it keeps
    when the text of the file was parsed ([parsed = true]) or not since the
    last write. *)
Definition keeps_discipline {A} (parsed : bool) (m : M A) : Prop :=
  forall w, exists evs,
    trace (snd (m w)) = trace w ++ evs
    /\ file_text (snd (m w)) = text_after (file_text w) evs
    /\ reparsed (file_text w) parsed evs.

Definition is_gpt (e : event) : Prop :=
  match e with
  | EvGpt _ => True
  | _ => False
  end.

(** A computation that leaves the file alone and adds only calls of the
    collaborator to the trace. *)
Definition quiet {A} (m : M A) : Prop :=
  forall w, exists evs,
    trace (snd (m w)) = trace w ++ evs
    /\ stored_text (snd (m w)) = stored_text w
    /\ Forall is_gpt evs.

(** A base that is a simple identifier. *)
Definition base_identifier (b : expr) (id : string) : Prop := b = Name id.

(** A base whose [value] is a simple identifier: [id.attr], [id[...]],
    [*id], ... *)
Definition base_value_identifier (b : expr) (id : string) : Prop :=
  (exists attr, b = Attribute (Name id) attr)
  \/ (exists kind, b = ValueExpr kind (Name id)).

(** A parameter list with its type annotations removed. *)
Definition erase_arg (a : arg) : arg := mk_arg (arg_name a) None.

Definition erase_annotations (t : arguments) : arguments :=
  mk_arguments (map erase_arg (posonlyargs t)) (map erase_arg (args t))
               (option_map erase_arg (vararg t)) (map erase_arg (kwonlyargs t))
               (kw_defaults t) (option_map erase_arg (kwarg t)) (defaults t).

(** Two function definitions that differ in type annotations only: of
    the parameters or of the result. *)
Definition differ_only_in_annotations (f g : stmt) : Prop :=
  match f, g with
  | FunctionDef n1 a1 b1 _ p1, FunctionDef n2 a2 b2 _ p2 =>
      n1 = n2 /\ erase_annotations a1 = erase_annotations a2 /\ b1 = b2 /\ p1 = p2
  | _, _ => False
  end.

(* ===================================================================== *)
(** ** The colon that ends a header, as Python's grammar has it *)
(* ===================================================================== *)

(** The colon that ends a [def] or [class] header is the first colon
    outside brackets, string literals and comments.  This is the notion of
    the design document; it is not part of the engine and serves only to
    compare the engine with it. *)
Module HeaderColon.

Record scan : Type := mk_scan {
  depth : nat;                (* open brackets *)
  quote : option ascii        (* inside a string literal opened by this quote *)
}.

Definition is_open (c : ascii) : bool :=
  Ascii.eqb c "("%char || Ascii.eqb c "["%char || Ascii.eqb c "{"%char.

Definition is_close (c : ascii) : bool :=
  Ascii.eqb c ")"%char || Ascii.eqb c "]"%char || Ascii.eqb c "}"%char.

(** Scan one line: [inl st] is the state at its end when no header colon
    is on it, [inr tt] tells that the colon was found. *)
Fixpoint scan_line (st : scan) (s : string) : scan + unit :=
  match s with
  | "" => inl st
  | String c s' =>
      match quote st with
      | Some q =>
          if Ascii.eqb c q then scan_line (mk_scan (depth st) None) s'
          else scan_line st s'
      | None =>
          if Ascii.eqb c "#"%char then inl st
          else if Ascii.eqb c Regex.dquote || Ascii.eqb c Regex.squote
               then scan_line (mk_scan (depth st) (Some c)) s'
          else if is_open c then scan_line (mk_scan (S (depth st)) None) s'
          else if is_close c then scan_line (mk_scan (pred (depth st)) None) s'
          else if Ascii.eqb c ":"%char && Nat.eqb (depth st) 0 then inr tt
          else scan_line st s'
      end
  end.

Fixpoint scan_lines (st : scan) (lno : Z) (l : list string) : option Z :=
  match l with
  | [] => None
  | line :: rest =>
      match scan_line st line with
      | inr _ => Some lno
      | inl st' => scan_lines st' (lno + 1) rest
      end
  end.

(** The number of the line that holds the colon ending the header of
    [node]. *)
Definition header_colon_line (code_lines : list string) (node : stmt) : option Z :=
  let start_lno := lineno (pos_of node) in
  scan_lines (mk_scan 0 None) start_lno
             (skipn (Z.to_nat (start_lno - 1)) code_lines).

End HeaderColon.

(* ===================================================================== *)
(** ** Concrete files, trees and collaborators *)
(* ===================================================================== *)

(** The trees are those [ast.parse] gives for the texts next to them; a
    statement without statements below it ([pass], [return ...]) is an
    [OtherNode] without children. *)
Module Examples.

Definition ln (s : string) : string := (s ++ PyStr.newline)%string.

Definition text (lines : list string) : string := PyStr.join "" (map ln lines).

Definition q3 : string := triple_quote.

Definition params (names : list string) : arguments :=
  mk_arguments [] (map (fun n => mk_arg n None) names) None [] [] None [].

Definition simple_stmt (line col : Z) : stmt := OtherNode [] (mk_pos line col line).

Definition doc_stmt (doc : string) (first col last : Z) : stmt :=
  Expr (Constant (CStr doc)) (mk_pos first col last).

(** A printer of expressions in the manner of astunparse. *)
Fixpoint print_expr (e : expr) : string :=
  match e with
  | Name id => id
  | Attribute v a => (print_expr v ++ "." ++ a)%string
  | Constant (CStr s) => ("'" ++ s ++ "'")%string
  | Constant (COther r) => r
  | ValueExpr kind v => (kind ++ print_expr v)%string
  | OtherExpr src => src
  end.

Definition table_parse (table : list (string * module_)) (code : string)
  : result module_ :=
  match find (fun entry => String.eqb (fst entry) code) table with
  | Some entry => Ok (snd entry)
  | None => Raise SyntaxError
  end.

(** [inspect.cleandoc] is [strip] on a text of one line, and on one line
    between two line ends.  Every write returns. *)
Definition table_ext (table : list (string * module_))
           (gpt : list event -> string -> result string) : Externals :=
  Build_Externals (table_parse table) PyStr.strip print_expr gpt
                  (fun _ _ => Ok tt).

Definition no_answer : list event -> string -> result string :=
  fun _ _ => Raise (OtherError "no answer").

(** - a function defined under an [if], and again at top level *)
Definition nested_text : string :=
  text [ "if x:";
         "    def f():";
         "        pass";
         "def f():";
         "    pass" ].

Definition f_nested : stmt :=
  FunctionDef "f" (params []) [simple_stmt 3 8] None (mk_pos 2 4 3).



(** - the documentation of [f] *)
Definition doc_text_f : string :=
  text [ "def f():";
         ("    " ++ q3 ++ "doc" ++ q3)%string ].

Definition doc_f : stmt :=
  FunctionDef "f" (params []) [doc_stmt "doc" 2 4 2] None (mk_pos 1 0 2).

Definition doc_tree_f : module_ := Module [doc_f].

(** - a function defined twice *)
Definition twice_text : string :=
  text [ "def f():";
         "    pass";
         "def f():";
         "    pass" ].

Definition f_first : stmt :=
  FunctionDef "f" (params []) [simple_stmt 2 4] None (mk_pos 1 0 2).

Definition f_second : stmt :=
  FunctionDef "f" (params []) [simple_stmt 4 4] None (mk_pos 3 0 4).

Definition twice_tree : module_ := Module [f_first; f_second].

Definition twice_ext : Externals :=
  table_ext [(twice_text, twice_tree); (doc_text_f, doc_tree_f)] no_answer.

Definition twice_world : world := mk_world twice_text [].

(** - a function with a documentation block, and new documentation *)
Definition old_text : string :=
  text [ "def f():";
         ("    " ++ q3 ++ "old" ++ q3)%string;
         "    pass" ].

Definition f_old : stmt :=
  FunctionDef "f" (params []) [doc_stmt "old" 2 4 2; simple_stmt 3 4] None
              (mk_pos 1 0 3).

Definition old_tree : module_ := Module [f_old].

Definition doc_new : stmt :=
  FunctionDef "f" (params []) [doc_stmt "new" 2 4 2] None (mk_pos 1 0 2).

Definition old_world : world := mk_world old_text [].

(** a collaborator that fails with the error named *)
Definition failing_ext (e : exn) : Externals :=
  table_ext [(old_text, old_tree)] (fun _ _ => Raise e).





(** - a header on three lines, the second of which ends in the colon of
      a lambda *)
Definition lambda_lines : list string :=
  [ ln "def f(a,";
    ln "      b=lambda:";
    ln "      0):";
    ln "    pass" ].

Definition f_lambda : stmt :=
  FunctionDef "f"
    (mk_arguments [] [mk_arg "a" None; mk_arg "b" None] None [] [] None
                  [OtherExpr "(lambda : 0)"])
    [simple_stmt 4 4] None (mk_pos 1 0 4).

(** - a function with no documentation, as in the scenario of the design
      document *)
Definition add_lines : list string :=
  [ ln "def add(a, b):";
    ln "    return a + b" ].

Definition f_add : stmt :=
  FunctionDef "add" (params ["a"; "b"]) [simple_stmt 2 4] None (mk_pos 1 0 2).

Definition doc_add : stmt :=
  FunctionDef "add" (params ["a"; "b"]) [doc_stmt "Adds two numbers." 2 4 2]
              None (mk_pos 1 0 2).

(** - a file whose only definition is asynchronous *)
Definition async_text : string :=
  text [ "async def f():";
         "    pass" ].

Definition async_tree : module_ :=
  Module [ AsyncFunctionDef "f" (params []) [simple_stmt 2 4] None (mk_pos 1 0 2) ].

Definition async_ext : Externals :=
  table_ext [(async_text, async_tree); (doc_text_f, doc_tree_f)] no_answer.

(** - [def f(a: int)] and [def f(a)] *)
Definition f_annotated : stmt :=
  FunctionDef "f"
    (mk_arguments [] [mk_arg "a" (Some (Name "int"))] None [] [] None [])
    [simple_stmt 2 4] None (mk_pos 1 0 2).

Definition f_plain : stmt :=
  FunctionDef "f" (params ["a"]) [simple_stmt 2 4] None (mk_pos 1 0 2).

End Examples.

(* ===================================================================== *)
(** ** Counting what a run does *)
(* ===================================================================== *)

(** The number of writes of the file among the events. *)
Fixpoint count_writes (evs : list event) : nat :=
  match evs with
  | [] => O
  | EvWrite _ :: evs' => S (count_writes evs')
  | _ :: evs' => count_writes evs'
  end.

(** The number of calls of the reconciliation collaborator among the
    events. *)
Fixpoint count_gpt (evs : list event) : nat :=
  match evs with
  | [] => O
  | EvGpt _ :: evs' => S (count_gpt evs')
  | _ :: evs' => count_gpt evs'
  end.

(** The number of nodes marked as inserted. *)
Definition count_inserted (flags : list bool) : nat :=
  length (filter (fun b => b) flags).

(* ===================================================================== *)
(** ** Texts that the cleaning of the generated text leaves alone *)
(* ===================================================================== *)

(** The text goes on with white space (an empty or an indented line), or
    with [def] or [class]. *)
Definition header_or_indented (s : string) : bool :=
  match s with
  | "" => true
  | String c _ =>
      PyStr.is_space c
      || is_some (Regex.after_prefix "def" s)
      || is_some (Regex.after_prefix "class" s)
  end.

(** At every start of a line the text is [header_or_indented]; [bol] tells
    whether the text itself starts a line. *)
Fixpoint lines_ok (bol : bool) (s : string) : bool :=
  match s with
  | "" => true
  | String c s' =>
      (if bol then header_or_indented s else true)
      && lines_ok (Ascii.eqb c PyStr.nl) s'
  end.

(** Whether a line starts after the text. *)
Fixpoint bol_after (bol : bool) (s : string) : bool :=
  match s with
  | "" => bol
  | String c s' => bol_after (Ascii.eqb c PyStr.nl) s'
  end.

(* ===================================================================== *)
(** ** create_docstrings.py: [create_docstrings] *)
(* ===================================================================== *)

(** One call of the generation collaborator [gptapi.gptapi]: the code, the
    command, the additional information and the model. *)
Record gpt_call : Type := mk_call {
  call_code : string;
  call_command : string;
  call_info : option string;
  call_model : string
}.

(** What [create_docstrings] does outside the process: a call of the
    collaborator, the file at [gpt_path] opened with mode [w] and written,
    the same file opened with mode [a] and written. *)
Inductive gen_event : Type :=
| GenCall (c : gpt_call)
| GenWrite (text : string)
| GenAppend (text : string).

(** The file at [gpt_path], if there is one, and the events so far.  The
    directory of [gpt_path] is taken to be one that [os.makedirs] can
    make. *)
Record gen_world : Type := mk_gen_world {
  gpt_output : option string;
  gen_trace : list gen_event
}.

(** An entry of the list returned by [make_snippets]. *)
Record snippet : Type := mk_snippet {
  snippet_code : string;
  snippet_lines : Z
}.

(** The functions [create_docstrings] imports from modules of the
    repository that are not at hand, each taken on the text of the file at
    [file_path]:
    - [gptapi] is [gptapi.gptapi]; its answer may depend on what happened
      before the call;
    - [code_info] is [summarize_file.code_info];
    - [make_snippets] is [make_snippets.make_snippets], with [max_lno]. *)
Class Generation : Type := {
  gptapi : list gen_event -> gpt_call -> result string;
  code_info : string -> result string;
  make_snippets : string -> Z -> result (list snippet)
}.

Definition G (A : Type) : Type := gen_world -> result A * gen_world.

Definition gret {A} (a : A) : G A := fun w => (Ok a, w).

Definition gbind {A B} (m : G A) (k : A -> G B) : G B :=
  fun w =>
    match m w with
    | (Ok a, w') => k a w'
    | (Raise e, w') => (Raise e, w')
    end.

Definition glift {A} (r : result A) : G A := fun w => (r, w).

Declare Scope gen_scope.
Delimit Scope gen_scope with gen.
Notation "x <- m ;; k" := (gbind m (fun x => k))
  (at level 61, m at next level, right associativity) : gen_scope.
Notation "m ;;; k" := (gbind m (fun _ => k))
  (at level 61, right associativity) : gen_scope.

(** [with open(gpt_path, "w") as file: file.write(text)] *)
Definition write_gpt_file (text : string) : G unit :=
  fun w => (Ok tt, mk_gen_world (Some text) (gen_trace w ++ [GenWrite text])).

(** [with open(gpt_path, "a") as file: file.write(text)] *)
Definition append_gpt_file (text : string) : G unit :=
  fun w =>
    let old := match gpt_output w with Some t => t | None => "" end in
    (Ok tt, mk_gen_world (Some (old ++ text)%string)
                         (gen_trace w ++ [GenAppend text])).

(** [l[i]] *)
Definition py_get {A} (l : list A) (i : Z) : result A :=
  let i' := if i <? 0 then i + PyList.len l else i in
  if (0 <=? i') && (i' <? PyList.len l)
  then match nth_error l (Z.to_nat i') with
       | Some x => Ok x
       | None => Raise IndexError
       end
  else Raise IndexError.

(** [s.startswith(p)] *)
Definition startswith (s p : string) : bool := is_some (Regex.after_prefix p s).

Definition fence_python : string := "'''python".

Definition fence : string := "'''".

(** [command]: the prompt of the branch that asks for the whole code (before it is put on one line). *)
Definition command_whole_code : string :=
  let q := String Regex.dquote "" in
  PyStr.join PyStr.newline
    [
      "";
      "Output this same code with DETAILED docstrings (or try to improve if one already exists)";
      "in google format for all ";
      "function and class. Never try to generate docstrings for the imports.";
      "Begin a new line if an individual line of the docstring is longer than 90 characters.";
      "Additional information is provided by the summary";
      "of the repository this code is embedded in.";
      "As an answer, only output the expanded code as a string, since your answer will be ";
      "directly inserted into a python file which must be executable.";
      "And keep any white spaces, indentation, and new lines in the code.";
      "Just print out the source code with the generated docstrings.";
      "" ].

(** [command]: the prompt of the branch that asks for the docstrings of a file. *)
Definition command_docstrings_only : string :=
  let q := String Regex.dquote "" in
  PyStr.join PyStr.newline
    [
      "";
      ("For the given python file below " ++ q ++ "code to be edited:" ++ q ++ " output ONLY the newly defined classes and functions")%string;
      "(keeping the structure/indention!!!) as they are in the original code but with detailed generated";
      "docstrings and without the code inside. The rules are:";
      "1. generate detailed docstrings in google format (max 90 characters per line)";
      ("2. just for EVERY newly defined functions and classes - if not existing: output the string: " ++ q ++ " " ++ q)%string;
      "3. dont write any imports, called functions or other code or comments";
      "4. if function/class already has a docstring, try to improve or if already very well written reuse it";
      "5. format: only output docstrings with corresponding name of function/class ";
      "    and its args in brackets: def/class name(args):";
      (q ++ q ++ q)%string;
      "docstring";
      (q ++ q ++ q ++ " . So dont print the code")%string;
      "6. your output must be readable to the ast module!";
      ("7. if no code provided, output an empty string " ++ q ++ q)%string;
      ("8. Start your output with " ++ q ++ "start" ++ q ++ " and end with " ++ q ++ "end" ++ q ++ ".")%string;
      "";
      "Maybe you be given additional information about the repository this code is embedded in";
      ("under " ++ q ++ "additional information:" ++ q ++ " to better construe the variables and context of the code.")%string;
      "";
      "In the end check if all rules are fulfilled and adjust if necessary.";
      "" ].

(** [command]: the prompt of the branch that asks for the docstrings of a snippet. *)
Definition command_snippet : string :=
  let q := String Regex.dquote "" in
  PyStr.join PyStr.newline
    [
      "";
      ("For the given python file below " ++ q ++ "code to be edited:" ++ q ++ " output ONLY the newly defined classes and functions")%string;
      "(keeping the structure/indention!!!) as they are in the original code but with detailed generated";
      "docstrings and without the code inside. The rules are:";
      "1. generate detailed docstrings in google format (max 90 characters per line)";
      ("2. for EVERY defined functions and classes - if not existing: output the string: " ++ q ++ " " ++ q)%string;
      "3. not for imports or called functions/classes";
      "4. if function/class already has a docstring, try to improve or if already very well written reuse it";
      "5. format: only output docstrings with corresponding name of function/class ";
      "    and empty brackets: def/class name(args):";
      (q ++ q ++ q)%string;
      "docstring";
      (q ++ q ++ q ++ " . So dont print the code")%string;
      "6. your output must be readable to the ast module!";
      ("7. if no code provided, output an empty string " ++ q ++ q)%string;
      ("8. Start your output with " ++ q ++ "start" ++ q ++ " and end with " ++ q ++ "end" ++ q ++ ".")%string;
      "";
      "Maybe you be given additional information about the repository this code is embedded in";
      ("under " ++ q ++ "additional information:" ++ q ++ " to better construe the variables and context of the code snippet.")%string;
      "Dont create docstrings for this part.";
      "";
      "In the end check if all rules are fulfilled and adjust if necessary.";
      "" ].

Section Generate.

Context {ext : Externals} {gen : Generation}.

Local Open Scope gen_scope.

(** The call of the collaborator. *)
Definition call_gptapi (code command : string) (info : option string)
           (model : string) : G string :=
  fun w =>
    let c := mk_call code command info model in
    (gptapi (gen_trace w) c, mk_gen_world (gpt_output w) (gen_trace w ++ [GenCall c])).

(** The first branch, once a class or a function is present: the whole
    code is asked for, and the first and the last line of the answer are
    dropped when they start with the fences looked for. *)
Definition generate_whole_code (code : string) (additional_info : option string)
           (write_gpt_output : bool) : G (option string) :=
  let Model := "gpt-3.5-turbo-16k" in
  let command :=
    PyStr.strip (PyStr.join " " (map PyStr.strip (PyStr.split_nl command_whole_code))) in
  edited_code <- call_gptapi code command additional_info Model ;;
  let code_lines := PyStr.split_nl edited_code in
  first <- glift (py_get code_lines 0) ;;
  code_lines <- glift (if startswith first fence_python
                       then PyList.del code_lines 0 else Ok code_lines) ;;
  last <- glift (py_get code_lines (-1)) ;;
  code_lines <- glift (if startswith last fence
                       then PyList.del code_lines (-1) else Ok code_lines) ;;
  let edited_code := PyStr.join PyStr.newline code_lines in
  (if write_gpt_output then write_gpt_file edited_code else gret tt) ;;;
  gret (Some edited_code).

(** The second branch, once a class or a function is present. *)
Definition generate_docstrings (code : string) (additional_info : option string)
           (Model : string) (write_gpt_output : bool) : G (option string) :=
  docstrings <- call_gptapi code command_docstrings_only additional_info Model ;;
  (if write_gpt_output then write_gpt_file docstrings else gret tt) ;;;
  gret (Some docstrings).

(** The loop of the third branch over the snippets; [docstrings] is the
    text gathered so far.  Any exception of the check of a snippet is
    passed over, and the snippet is sent to the collaborator. *)
Fixpoint snippet_loop (code_snippets : list snippet) (info : option string)
         (Model : string) (write_gpt_output : bool) (docstrings : string)
  : G string :=
  match code_snippets with
  | [] => gret docstrings
  | code_snippet :: rest =>
      match class_or_func_present (snippet_code code_snippet) with
      | Ok false => snippet_loop rest info Model write_gpt_output docstrings
      | _ =>
          answer <- call_gptapi (snippet_code code_snippet) command_snippet
                                info Model ;;
          let docstring := (answer ++ PyStr.newline)%string in
          (if write_gpt_output
           then append_gpt_file (docstring ++ PyStr.newline)%string
           else gret tt) ;;;
          snippet_loop rest info Model write_gpt_output
                       (docstrings ++ docstring)%string
      end
  end.

(** The third branch. *)
Definition generate_by_snippets (code : string) (additional_info : option string)
           (max_lno : Z) (Model : string) (write_gpt_output : bool)
  : G (option string) :=
  file_info <- glift (code_info code) ;;
  let info_file := ("info about file: " ++ PyStr.newline ++ file_info)%string in
  let info :=
    match additional_info with
    | Some a => if String.eqb a "" then info_file
                else (a ++ PyStr.newline ++ info_file)%string
    | None => info_file
    end in
  code_snippets <- glift (make_snippets code max_lno) ;;
  docstrings <- snippet_loop code_snippets (Some info) Model write_gpt_output "" ;;
  gret (Some docstrings).

(** [create_docstrings(file_path, gpt_path, additional_info, max_lno,
    Model, cost, write_gpt_output)] on the text [code] that [file.read()]
    returns for the file at [file_path]; [file.readlines()], after
    [file.seek(0)], gives the lines of the same file.  The result is
    [None] when the function ends without a [return]. *)
Definition create_docstrings (code : string) (additional_info : option string)
           (max_lno : Z) (Model cost : string) (write_gpt_output : bool)
  : G (option string) :=
  let no_lines := PyList.len (PyStr.readlines code) in
  if (no_lines <=? 300) && String.eqb cost "cheap" then
    present <- glift (class_or_func_present code) ;;
    if (present : bool)
    then generate_whole_code code additional_info write_gpt_output
    else gret (Some "")
  else if ((no_lines <=? max_lno) && String.eqb cost "expensive")
          || ((300 <? no_lines) && (no_lines <=? max_lno) && String.eqb cost "cheap")
  then
    present <- glift (class_or_func_present code) ;;
    if (present : bool)
    then generate_docstrings code additional_info Model write_gpt_output
    else gret (Some "")
  else if max_lno <? no_lines then
    generate_by_snippets code additional_info max_lno Model write_gpt_output
  else gret None.

End Generate.

(** The number of calls of the generation collaborator among the events. *)
Fixpoint count_calls (evs : list gen_event) : nat :=
  match evs with
  | [] => O
  | GenCall _ :: evs' => S (count_calls evs')
  | _ :: evs' => count_calls evs'
  end.

(** The snippets that are sent to the collaborator: all but those whose
    check answers that no class and no function is present. *)
Definition snippet_is_sent {ext : Externals} (s : snippet) : bool :=
  match class_or_func_present (snippet_code s) with
  | Ok false => false
  | _ => true
  end.

(** [no_lines]: the number of lines of the file, as [readlines] gives them. *)
Definition no_lines (code : string) : Z := PyList.len (PyStr.readlines code).

(** The call of the first branch: the command on one line and the model the
    branch sets. *)
Definition whole_code_call (code : string) (info : option string) : gpt_call :=
  mk_call code
          (PyStr.strip (PyStr.join " " (map PyStr.strip (PyStr.split_nl command_whole_code))))
          info "gpt-3.5-turbo-16k".

(** The text of the file at [gpt_path], empty when there is no file. *)
Definition gpt_text (w : gen_world) : string :=
  match gpt_output w with Some t => t | None => "" end.

(* ===================================================================== *)
(** ** cost_estimator.py: the counts *)
(* ===================================================================== *)

(** [s.endswith(p)] *)
Fixpoint endswith (s p : string) : bool :=
  String.eqb s p || match s with
                    | "" => false
                    | String _ s' => endswith s' p
                    end.

(** [count_lines(file_path)] on the content of the file: the iteration
    over the file gives the lines that [readlines] gives. *)
Definition count_lines (text : string) : Z :=
  PyList.len (filter (fun line => negb (String.eqb (PyStr.strip line) ""))
                     (PyStr.readlines text)).

(** The number of matches of [\w+] from a position of [s]; [in_word] tells
    whether the position is within a match. *)
Fixpoint count_runs (in_word : bool) (s : string) : Z :=
  match s with
  | "" => 0
  | String c s' =>
      if Regex.is_word c
      then (if in_word then 0 else 1) + count_runs true s'
      else count_runs false s'
  end.

(** [count_words(file_path)] on the content of the file:
    [len(re.findall(r'\w+', content))].  A carriage return and a line end
    are no word characters, so the words of the content are the words of
    the text read from it. *)
Definition count_words (content : string) : Z := count_runs false content.

(** A file met by [os.walk]: its name and its content. *)
Record walked_file : Type := mk_walked {
  walked_name : string;
  walked_text : string
}.

(** The four numbers [count_code_and_words] returns. *)
Record counts : Type := mk_counts {
  total_lines : Z;
  total_words : Z;
  num_files_above_max : Z;
  lines_above_max : Z
}.

(** The body of the loop over the files. *)
Definition count_file (max_lno : Z) (acc : counts) (file : walked_file) : counts :=
  if endswith (walked_name file) ".py" then
    let lines := count_lines (walked_text file) in
    let total := total_lines acc + lines in
    if max_lno <? lines
    then mk_counts total (total_words acc)
                   (num_files_above_max acc + 1) (lines_above_max acc + lines)
    else mk_counts total (total_words acc)
                   (num_files_above_max acc) (lines_above_max acc)
  else if endswith (walked_name file) ".rst" || endswith (walked_name file) ".md"
  then mk_counts (total_lines acc) (total_words acc + count_words (walked_text file))
                 (num_files_above_max acc) (lines_above_max acc)
  else acc.

(** [count_code_and_words(directory, max_lno)] on the files of the
    directory, in the order in which [os.walk] meets them. *)
Definition count_code_and_words (files : list walked_file) (max_lno : Z) : counts :=
  fold_left (count_file max_lno) files (mk_counts 0 0 0 0).

(** What the loop over the files keeps true of the four numbers. *)
Definition counts_bounded (max_lno : Z) (c : counts) : Prop :=
  0 <= lines_above_max c <= total_lines c
  /\ 0 <= num_files_above_max c
  /\ num_files_above_max c * (max_lno + 1) <= lines_above_max c
  /\ 0 <= total_words c.

(** The tests of an index against the bounds of a list. *)
Ltac z_tests :=
  repeat match goal with
         | |- context [Z.leb ?a ?b] => destruct (Z.leb_spec a b)
         | |- context [Z.ltb ?a ?b] => destruct (Z.ltb_spec a b)
         end;
  cbn [andb]; try lia.


(* ===================================================================== *)
(** ** Further texts and collaborators on which the properties are run *)
(* ===================================================================== *)

Module Cases.

Import Examples.

(** - a function that is defined under an [if] and nowhere else *)
Definition under_if_text : string :=
  text [ "if x:";
         "    def f():";
         "        pass" ].

Definition under_if_tree : module_ :=
  Module [ OtherNode [f_nested] (mk_pos 1 0 3) ].

Definition under_if_ext : Externals :=
  table_ext [(under_if_text, under_if_tree)] no_answer.

(** - a function whose body is on the line of its header *)
Definition one_line_text : string := text [ "def f(): pass" ].

Definition f_one_line : stmt :=
  FunctionDef "f" (params []) [simple_stmt 1 9] None (mk_pos 1 0 1).

Definition one_line_tree : module_ := Module [f_one_line].

Definition one_line_ext : Externals :=
  table_ext [(one_line_text, one_line_tree); (doc_text_f, doc_tree_f)] no_answer.

Definition one_line_world : world := mk_world one_line_text [].

(** - the file with an old documentation block, and no collaborator *)
Definition old_ext : Externals := table_ext [(old_text, old_tree)] no_answer.

(** - the same file with a collaborator that answers with a merged text
      between the words it was asked for, and the file after the
      replacement *)
Definition merged_answer : string :=
  PyStr.join PyStr.newline [ "start"; "merged"; "end" ].

Definition merging_ext : Externals :=
  table_ext [(old_text, old_tree)] (fun _ _ => Ok merged_answer).

(** - a file whose lines end with a carriage return and a line end, and
      the text read from it *)
Definition crlf_line (s : string) : string :=
  (s ++ String PyStr.cr PyStr.newline)%string.

Definition crlf_text : string :=
  PyStr.join "" [ crlf_line "def f():"; crlf_line "    pass" ].

Definition plain_text : string :=
  text [ "def f():";
         "    pass" ].

Definition plain_inserted_text : string :=
  text [ "def f():";
         ("    " ++ q3)%string;
         "    doc";
         ("    " ++ q3)%string;
         "    pass" ].

Definition plain_ext : Externals :=
  table_ext [(plain_text, Module [f_first]); (doc_text_f, doc_tree_f)] no_answer.

(** - a class with a simple base and a dotted base: [class K(B, m.C)] *)
Definition class_mixed_bases : stmt :=
  ClassDef "K" [Name "B"; Attribute (Name "m") "C"] [simple_stmt 2 4]
           (mk_pos 1 0 2).


Definition old_replaced_text : string :=
  text [ "def f():";
         ("    " ++ q3)%string;
         "    merged";
         ("    " ++ q3)%string;
         "    pass" ].

(** - the report and the file after the documentation of [f] is inserted
      into the file that defines [f] twice *)
Definition twice_inserted_text : string :=
  text [ "def f():";
         ("    " ++ q3)%string;
         "    doc";
         ("    " ++ q3)%string;
         "    pass";
         "def f():";
         "    pass" ].

Definition twice_report : report :=
  mk_report ["f"; "f"] [([], doc_f)] [([], doc_f)] [] [].

Definition twice_after : world :=
  mk_world twice_inserted_text
           [EvParse twice_text; EvParse twice_text; EvWrite twice_inserted_text].

(** - a generation collaborator with one answer, a summary and the
      snippets given *)
Definition fixed_gen (answer : string) (code_snippets : list snippet) : Generation :=
  Build_Generation (fun _ _ => Ok answer) (fun _ => Ok "summary")
                   (fun _ _ => Ok code_snippets).

Definition answer_lines : list string := [ "def f():"; "    pass" ].

(** - an answer between lines of three backquotes *)
Definition backquoted_answer : string :=
  PyStr.join PyStr.newline
    ((Regex.backticks ++ "python")%string :: answer_lines ++ [Regex.backticks]).

(** - an answer between lines of three single quotes *)
Definition quoted_answer : string :=
  PyStr.join PyStr.newline (fence_python :: answer_lines ++ [fence]).

Definition no_output : gen_world := mk_gen_world None [].

Definition old_output : gen_world := mk_gen_world (Some "old") [].

(** - three snippets: one with a function, one without a definition, one
      that cannot be parsed *)
Definition assign_text : string := text [ "x = 1" ].

Definition assign_tree : module_ := Module [ simple_stmt 1 0 ].

Definition snippets_ext : Externals :=
  table_ext [(twice_text, twice_tree); (assign_text, assign_tree)] no_answer.

Definition three_snippets : list snippet :=
  [ mk_snippet twice_text 4; mk_snippet assign_text 1; mk_snippet "def (" 1 ].

Definition snippet_call (code : string) : gpt_call :=
  mk_call code command_snippet
          (Some ("info about file: " ++ PyStr.newline ++ "summary")%string) "gpt-4".

(** - a file of 301 lines, none of them blank *)
Definition long_text : string := PyStr.join "" (repeat (ln "x = 1") 301).

(** - the files of a directory *)
Definition walked_code : walked_file := mk_walked "a.py" twice_text.

Definition walked_readme : walked_file := mk_walked "README.md" "two words".

End Cases.

(* ===================================================================== *)
(** * Properties *)
(* ===================================================================== *)

(** ** Strings *)

Section StringFacts.

Import PyStr.

Lemma rstrip_idempotent (s : string) : rstrip (rstrip s) = rstrip s.
Proof.
  induction s as [|c s IH]; simpl; [reflexivity|].
  destruct (rstrip s) as [|d r] eqn:E.
  - destruct (is_space c) eqn:Hc; simpl; [reflexivity|].
    rewrite Hc. reflexivity.
  - change (rstrip (String c (String d r))) with
      (match rstrip (String d r) with
       | "" => if is_space c then "" else String c ""
       | String _ _ as r' => String c r'
       end).
    rewrite IH. reflexivity.
Qed.

Lemma lstrip_head (s : string) :
  lstrip s = "" \/ exists c r, lstrip s = String c r /\ is_space c = false.
Proof.
  induction s as [|c s IH]; simpl; [left; reflexivity|].
  destruct (is_space c) eqn:Hc; [exact IH|].
  right. exists c, s. split; [reflexivity | exact Hc].
Qed.

Lemma rstrip_keeps_head (c : ascii) (r : string) :
  is_space c = false -> exists r', rstrip (String c r) = String c r'.
Proof.
  intros Hc. simpl. destruct (rstrip r) as [|d r'].
  - rewrite Hc. exists "". reflexivity.
  - exists (String d r'). reflexivity.
Qed.

Lemma strip_idempotent (s : string) : strip (strip s) = strip s.
Proof.
  unfold strip.
  destruct (lstrip_head s) as [E | (c & r & E & Hc)]; rewrite E.
  - reflexivity.
  - destruct (rstrip_keeps_head c r Hc) as [r' E'].
    assert (L : lstrip (rstrip (String c r)) = rstrip (String c r)).
    { rewrite E'. simpl. rewrite Hc. reflexivity. }
    rewrite L. apply rstrip_idempotent.
Qed.

Lemma rstrip_app_nonspace (s : string) (c : ascii) :
  is_space c = false ->
  rstrip (s ++ String c "") = (s ++ String c "")%string.
Proof.
  intros Hc. induction s as [|a s IH]; simpl.
  - rewrite Hc. reflexivity.
  - rewrite IH. destruct s; reflexivity.
Qed.

Lemma append_assoc (a b c : string) :
  ((a ++ b) ++ c = a ++ (b ++ c))%string.
Proof. induction a as [|x a IH]; simpl; [reflexivity | rewrite IH; reflexivity]. Qed.

Lemma append_empty_r (x : string) : (x ++ "")%string = x.
Proof.
  induction x as [|c x IH]; simpl; [reflexivity | rewrite IH; reflexivity].
Qed.

Lemma split_nl_nonempty (a : string) : split_nl a <> [].
Proof.
  destruct a as [|c a]; simpl; [discriminate|].
  destruct (Ascii.eqb c nl); [discriminate|].
  destruct (split_nl a); discriminate.
Qed.

Lemma split_nl_app (a b : string) :
  split_nl (a ++ String nl b) = (split_nl a ++ split_nl b)%list.
Proof.
  induction a as [|c a IH]; simpl; [reflexivity|].
  destruct (Ascii.eqb c nl); rewrite IH; [reflexivity|].
  pose proof (split_nl_nonempty a) as N.
  destruct (split_nl a); [contradiction | reflexivity].
Qed.

Lemma join_last (sep : string) (l : list string) (x : string) :
  exists y, join sep (l ++ [x]) = (y ++ x)%string.
Proof.
  unfold join. induction l as [|a l IH].
  - exists "". reflexivity.
  - destruct IH as [y Hy].
    change (String.concat sep ((a :: l) ++ [x]))
      with (String.concat sep (a :: (l ++ [x]))).
    destruct (l ++ [x])%list as [|b t] eqn:E.
    + destruct l; discriminate.
    + change (String.concat sep (a :: b :: t))
        with (a ++ sep ++ String.concat sep (b :: t))%string.
      rewrite Hy. exists (a ++ sep ++ y)%string.
      rewrite !append_assoc. reflexivity.
Qed.

Lemma ends_with_one_newline_app (y : string) (c : ascii) :
  Ascii.eqb c nl = false ->
  ends_with_one_newline (y ++ String c newline) = true.
Proof.
  intros Hc. induction y as [|a y IH]; simpl.
  - rewrite Hc. reflexivity.
  - destruct (y ++ String c newline)%string as [|b t] eqn:E.
    + destruct y; discriminate.
    + destruct t as [|b' t'].
      * destruct y as [|y0 y']; [discriminate|].
        destruct y'; discriminate.
      * exact IH.
Qed.

End StringFacts.

(** ** The written block *)

Section BlockFacts.

Import PyStr.

Lemma wrapped_docstring_shape (doc : string) :
  join newline [triple_quote; doc; triple_quote]
  = ((triple_quote ++ String nl doc) ++ String nl triple_quote)%string.
Proof.
  reflexivity.
Qed.

Lemma strip_wrapped_docstring (doc : string) :
  strip (join newline [triple_quote; doc; triple_quote])
  = join newline [triple_quote; doc; triple_quote].
Proof.
  rewrite wrapped_docstring_shape. unfold strip.
  assert (L : forall r, lstrip (triple_quote ++ r) = (triple_quote ++ r)%string)
    by (intro r; reflexivity).
  rewrite append_assoc, L, <- append_assoc.
  change (String nl triple_quote)
    with (String nl (String Regex.dquote (String Regex.dquote ""))
          ++ String Regex.dquote "")%string.
  rewrite <- append_assoc.
  apply rstrip_app_nonspace. reflexivity.
Qed.

(** A block written for a documentation text ends in the closing
    delimiter and one line end. *)
Lemma shift_docstring_one_newline (doc : string) (indent : Z) :
  ends_with_one_newline (shift_docstring (Some doc) indent) = true.
Proof.
  unfold shift_docstring.
  rewrite strip_wrapped_docstring, wrapped_docstring_shape, split_nl_app.
  change (split_nl triple_quote) with [triple_quote].
  rewrite map_app. cbn [map].
  destruct (join_last newline
              (map (fun line => (spaces (Z.to_nat indent) ++ line)%string)
                   (split_nl (triple_quote ++ String nl doc)))
              (spaces (Z.to_nat indent) ++ triple_quote)%string) as [y Hy].
  rewrite Hy.
  change triple_quote
with (String Regex.dquote (String Regex.dquote "") ++ String Regex.dquote "")%string.
  rewrite <- !append_assoc, append_assoc.
  apply ends_with_one_newline_app. reflexivity.
Qed.

(** Without a documentation text nothing is written. *)
Lemma shift_docstring_none (indent : Z) : shift_docstring None indent = "".
Proof. reflexivity. Qed.

End BlockFacts.

(** ** Reconciliation *)

Section Reconciliation.

Context {ext : Externals}.

Lemma compare_docstrings_same_after_strip (old new : string) (w : world) :
  PyStr.strip old = PyStr.strip new ->
  compare_docstrings old (Some new) w = (Ok new, w).
Proof.
  intros E. unfold compare_docstrings.
  rewrite E, String.eqb_refl. reflexivity.
Qed.

(** C5: when the old text, trimmed of the white space around it, is
    the new text, [compare_docstrings] returns the new text as it is and
    the world is as before: nothing is added to the trace, so the
    collaborator is not called. *)
Theorem compare_docstrings_equal_no_call (old new : string) (w : world) :
  PyStr.strip old = new ->
  compare_docstrings old (Some new) w = (Ok new, w).
Proof.
  intros E. apply compare_docstrings_same_after_strip.
  rewrite <- E. symmetry. apply strip_idempotent.
Qed.

End Reconciliation.

Lemma compare_docstrings_equal_no_call_witness :
  PyStr.strip "  Adds two numbers. " = "Adds two numbers."
  /\ @compare_docstrings Examples.twice_ext "  Adds two numbers. "
       (Some "Adds two numbers.") Examples.twice_world
     = (Ok "Adds two numbers.", Examples.twice_world).
Proof.
  split; [reflexivity|].
  apply (@compare_docstrings_equal_no_call Examples.twice_ext).
  reflexivity.
Defined.

(** ** Identity keys *)

Section KeyFacts.

Context {ext : Externals}.

(** What a comprehension over the bases gives when reading an attribute
    either gives the identifier in relation [R] or raises
    [AttributeError]. *)
Lemma rmap_attribute (f : expr -> result string) (R : expr -> string -> Prop) :
  (forall e, (exists id, f e = Ok id /\ forall id', R e id' <-> id' = id)
             \/ (f e = Raise AttributeError /\ forall id, ~ R e id)) ->
  forall l,
    (exists ids, rmap f l = Ok ids /\ forall ids', Forall2 R l ids' <-> ids' = ids)
    \/ (rmap f l = Raise AttributeError /\ forall ids, ~ Forall2 R l ids).
Proof.
  intros Hf. induction l as [|e l IH].
  - left. exists []. split; [reflexivity|].
    intros ids'. split; intros H.
    + inversion H. reflexivity.
    + subst. constructor.
  - simpl. destruct (Hf e) as [(id & Ef & Hid) | (Ef & Hno)]; rewrite Ef; simpl.
    + destruct IH as [(ids & El & Hids) | (El & Hnone)]; rewrite El; simpl.
      * left. exists (id :: ids). split; [reflexivity|].
        intros ids'. split; intros H.
        -- inversion H; subst. f_equal; [apply Hid | apply Hids]; assumption.
        -- subst. constructor; [apply Hid | apply Hids]; reflexivity.
      * right. split; [reflexivity|].
        intros ids H. inversion H; subst. eapply Hnone; eassumption.
    + right. split; [reflexivity|].
      intros ids H. inversion H; subst. eapply Hno; eassumption.
Qed.

Lemma attr_id_spec (e : expr) :
  (exists id, attr_id e = Ok id /\ forall id', base_identifier e id' <-> id' = id)
  \/ (attr_id e = Raise AttributeError /\ forall id, ~ base_identifier e id).
Proof.
  unfold base_identifier.
  destruct e; simpl;
    try (right; split; [reflexivity | intros ? ?; discriminate]).
  left. exists id. split; [reflexivity|].
  intros id'. split; intros H; [inversion H | subst]; reflexivity.
Qed.

Lemma attr_value_id_spec (e : expr) :
  (exists id, attr_value_id e = Ok id
              /\ forall id', base_value_identifier e id' <-> id' = id)
  \/ (attr_value_id e = Raise AttributeError
      /\ forall id, ~ base_value_identifier e id).
Proof.
  unfold base_value_identifier.
  destruct e as [id | v attr | c | kind v | src]; simpl;
    try (right; split; [reflexivity | intros ? [[? H] | [? H]]; discriminate]).
  - destruct v; simpl;
      try (right; split;
           [reflexivity | intros ? [[? H] | [? H]]; discriminate]).
    left. exists id. split; [reflexivity|].
    intros id'. split.
    + intros [[? H] | [? H]]; inversion H; reflexivity.
    + intros ->. left. exists attr. reflexivity.
  - destruct v; simpl;
      try (right; split;
           [reflexivity | intros ? [[? H] | [? H]]; discriminate]).
    left. exists id. split; [reflexivity|].
    intros id'. split.
    + intros [[? H] | [? H]]; inversion H; reflexivity.
    + intros ->. right. exists kind. reflexivity.
Qed.

Lemma join_bases_nil_ids (f : expr -> result string) (bases : list expr)
      (ids : list string) :
  rmap f bases = Ok ids -> join_bases f bases = Ok (PyStr.join ", " ids).
Proof.
  intros E. destruct bases as [|b bases].
  - simpl in E. inversion E. reflexivity.
  - unfold join_bases. rewrite E. reflexivity.
Qed.

Lemma join_bases_raise (f : expr -> result string) (bases : list expr) (e : exn) :
  rmap f bases = Raise e -> join_bases f bases = Raise e.
Proof.
  intros E. destruct bases as [|b bases].
  - discriminate.
  - unfold join_bases. rewrite E. reflexivity.
Qed.

(** The signature of a class is always computed. *)
Lemma class_signature_total (bases : list expr) :
  exists sig,
    try_except_AttributeError (join_bases attr_id bases)
      (try_except_AttributeError (join_bases attr_value_id bases) (Ok ""))
    = Ok sig.
Proof.
  destruct (rmap_attribute attr_id base_identifier attr_id_spec bases)
    as [(ids & E & _) | (E & _)].
  - rewrite (join_bases_nil_ids _ _ _ E). eexists. reflexivity.
  - rewrite (join_bases_raise _ _ _ E). cbn [try_except_AttributeError].
    destruct (rmap_attribute attr_value_id base_value_identifier
                             attr_value_id_spec bases)
      as [(ids & E' & _) | (E' & _)].
    + rewrite (join_bases_nil_ids _ _ _ E'). eexists. reflexivity.
    + rewrite (join_bases_raise _ _ _ E'). eexists. reflexivity.
Qed.

(** C7 (amended): the key of a class is always computed, with the name
    of the class and a signature that is the list of the base identifiers
    in order when every base is a simple identifier; failing that, the
    list of the identifiers found as the [value] of every base; and the
    empty signature when that fails too, also when an identifier could be
    taken from each base in one way or the other.  No case raises. *)
Theorem class_key_never_fails (anc : list string) (name : string)
        (bases : list expr) (body : list stmt) (p : position) :
  exists sig,
    compute_key (anc, ClassDef name bases body p) = Ok (name, sig, anc)
    /\ (forall ids, Forall2 base_identifier bases ids ->
                    sig = PyStr.join ", " ids)
    /\ (forall ids, ~ (exists ids', Forall2 base_identifier bases ids') ->
                    Forall2 base_value_identifier bases ids ->
                    sig = PyStr.join ", " ids)
    /\ (~ (exists ids, Forall2 base_identifier bases ids) ->
        ~ (exists ids, Forall2 base_value_identifier bases ids) ->
        sig = "").
Proof.
  unfold compute_key. cbn [snd fst get_name_args].
  destruct (rmap_attribute attr_id base_identifier attr_id_spec bases)
    as [(ids & E & Hids) | (E & Hnone)].
  - rewrite (join_bases_nil_ids _ _ _ E). cbn.
    exists (PyStr.join ", " ids). split; [reflexivity|]. repeat split.
    + intros ids' H. apply Hids in H. subst. reflexivity.
    + intros ids' H. exfalso. apply H. exists ids. apply Hids. reflexivity.
    + intros H. exfalso. apply H. exists ids. apply Hids. reflexivity.
  - rewrite (join_bases_raise _ _ _ E). cbn [try_except_AttributeError].
    destruct (rmap_attribute attr_value_id base_value_identifier
                             attr_value_id_spec bases)
      as [(ids & E' & Hids) | (E' & Hnone')].
    + rewrite (join_bases_nil_ids _ _ _ E'). cbn.
      exists (PyStr.join ", " ids). split; [reflexivity|]. repeat split.
      * intros ids' H. exfalso. eapply Hnone; eassumption.
      * intros ids' _ H. apply Hids in H. subst. reflexivity.
      * intros _ H. exfalso. apply H. exists ids. apply Hids. reflexivity.
    + rewrite (join_bases_raise _ _ _ E'). cbn.
      exists "". split; [reflexivity|]. repeat split.
      * intros ids' H. exfalso. eapply Hnone; eassumption.
      * intros ids' _ H. exfalso. eapply Hnone'; eassumption.
Qed.

End KeyFacts.

(** C7, as stated, fails: of the bases of [class K(B, m.C)] the first is
    a simple identifier and the second has an identifier as its [value],
    so that an identifier can be taken from each; the signature is empty
    all the same, because each of the two attempts is made on all the
    bases. *)
Lemma mixed_bases_give_empty_signature :
  base_identifier (Name "B") "B"
  /\ base_value_identifier (Attribute (Name "m") "C") "m"
  /\ @get_name_args Examples.twice_ext Cases.class_mixed_bases
     = Ok ("K", "")%string
  /\ @compute_key Examples.twice_ext ([], Cases.class_mixed_bases)
     = Ok ("K", "", [])%string
  /\ ~ (forall (ext : Externals) (bases : list expr) (ids : list string)
               (name sig : string) (body : list stmt) (p : position),
           Forall2 (fun b id => base_identifier b id \/ base_value_identifier b id)
                   bases ids ->
           @get_name_args ext (ClassDef name bases body p) = Ok (name, sig) ->
           sig = PyStr.join ", " ids).
Proof.
  split; [reflexivity|].
  split; [left; exists "C"%string; reflexivity|].
  split; [reflexivity|].
  split; [vm_compute; reflexivity|].
  intros H.
  specialize (H Examples.twice_ext
                [Name "B"; Attribute (Name "m") "C"] ["B"; "m"]%string
                "K"%string ""%string [Examples.simple_stmt 2 4] (mk_pos 1 0 2)).
  assert (F : Forall2 (fun b id => base_identifier b id \/ base_value_identifier b id)
                      [Name "B"; Attribute (Name "m") "C"] ["B"; "m"]%string).
  { constructor; [left; reflexivity|].
    constructor; [right; left; exists "C"%string; reflexivity | constructor]. }
  specialize (H F eq_refl). vm_compute in H. discriminate H.
Qed.

Section MatchFacts.

Context {ext : Externals}.

Lemma get_name_args_defined (s : stmt) :
  is_class_or_func s = true ->
  exists name sig, get_name_args s = Ok (name, sig).
Proof.
  destruct s as [name a body r p | | name bases body p | |]; try discriminate;
    intros _.
  - exists name, (PyStr.strip (unparse a)). reflexivity.
  - destruct (class_signature_total bases) as [sig E].
    exists name, sig. cbn [get_name_args]. rewrite E. reflexivity.
Qed.

(** The test of the loop is the equality of the keys. *)
Lemma same_key_spec (node_doc node_code : located) :
  is_class_or_func (snd node_doc) = true ->
  is_class_or_func (snd node_code) = true ->
  exists b, same_key node_doc node_code = Ok b
            /\ (b = true <-> compute_key node_code = compute_key node_doc).
Proof.
  intros Hd Hc.
  destruct (get_name_args_defined _ Hd) as (nd & ad & Ed).
  destruct (get_name_args_defined _ Hc) as (nc & ac & Ec).
  unfold same_key, compute_key. rewrite Ed, Ec. cbn [rbind].
  eexists. split; [reflexivity|].
  destruct (list_eq_dec string_dec (fst node_doc) (fst node_code)) as [Ea|Na].
  - rewrite andb_true_r, andb_true_iff, !String.eqb_eq. split.
    + intros [-> ->]. rewrite Ea. reflexivity.
    + intros H. inversion H. split; reflexivity.
  - rewrite andb_false_r. split; [discriminate|].
    intros H. inversion H. exfalso. apply Na. congruence.
Qed.

(** The loop of [insert_1_docstring] splices at the first match and
    nowhere else. *)
Lemma match_loop_first_match (node_doc : located) (nodes : list located)
      (lines_code : list string) (w : world) :
  match_loop node_doc nodes lines_code w =
  match first_match node_doc nodes with
  | Ok (Some node_code) => splice_and_write node_doc node_code lines_code w
  | Ok None => (Ok None, w)
  | Raise e => (Raise e, w)
  end.
Proof.
  induction nodes as [|c rest IH]; simpl; [reflexivity|].
  destruct (is_class_or_func (snd c)); [|exact IH].
  unfold bind, lift.
  destruct (same_key node_doc c) as [[|]|e]; simpl;
    [reflexivity | exact IH | reflexivity].
Qed.


(** A node for which the splice was written is marked as inserted, and
    the loop goes on with the nodes that follow. *)
Lemma insert_loop_inserted (node_doc r : located) (rest : list located)
      (w w1 : world) :
  insert_1_docstring node_doc w = (Ok (Some r), w1) ->
  insert_loop (node_doc :: rest) w =
  match insert_loop rest w1 with
  | (Ok flags, w2) => (Ok (true :: flags), w2)
  | (Raise e, w2) => (Raise e, w2)
  end.
Proof. intros E. simpl. rewrite E. reflexivity. Qed.

Lemma insert_loop_length (docs : list located) (flags : list bool)
      (w w' : world) :
  insert_loop docs w = (Ok flags, w') -> length flags = length docs.
Proof.
  revert flags w w'. induction docs as [|d rest IH]; intros flags w w'; simpl.
  - unfold ret. intros E. inversion E. reflexivity.
  - destruct (insert_1_docstring d w) as [[r|e] w1].
    + destruct (insert_loop rest w1) as [[flags'|e'] w2] eqn:El; [|discriminate].
      intros E. inversion E. simpl. f_equal. eapply IH. exact El.
    + destruct e; try discriminate.
      destruct (insert_loop rest w1) as [[flags'|e'] w2] eqn:El; [|discriminate].
      intros E. inversion E. simpl. f_equal. eapply IH. exact El.
Qed.





End MatchFacts.



(** ** The signature of a function *)

Section SignatureFacts.

Context {ext : Externals}.

(** The loop over positional parameters without defaults writes them
    one after the other, with a comma and a space between two of them. *)
Lemma unparse_positional_plain (l : list arg) (index : nat) (first : bool) :
  (0 < index)%nat ->
  snd (unparse_positional 0 index first (combine l (repeat None (length l))))
  = (if first then PyStr.join ", " (map unparse_arg l)
     else match l with
          | [] => ""
          | _ => (", " ++ PyStr.join ", " (map unparse_arg l))%string
          end).
Proof.
  revert index first. induction l as [|a l IH]; intros index first Hi.
  - simpl. destruct first; reflexivity.
  - cbn [length repeat combine unparse_positional].
    specialize (IH (S index) false (Nat.lt_0_succ index)).
    destruct (unparse_positional 0 (S index) false
                (combine l (repeat None (length l)))) as [f rest].
    cbn [snd] in IH |- *. rewrite IH.
    destruct index as [|index]; [lia|]. cbn [Nat.eqb unparse_default].
    rewrite !append_empty_r.
    unfold PyStr.join. cbn [map String.concat].
    destruct l as [|b l']; cbn [map].
    + rewrite append_empty_r. destruct first; reflexivity.
    + destruct first; cbn [comma].
      * reflexivity.
      * rewrite append_assoc. reflexivity.
Qed.

(** A parameter list of positional parameters without defaults is
    printed as the list of its parameters. *)
Lemma unparse_arguments_plain (l : list arg) :
  unparse_arguments (mk_arguments [] l None [] [] None [])
  = PyStr.join ", " (map unparse_arg l).
Proof.
  unfold unparse_arguments.
  cbn [posonlyargs args defaults vararg kwonlyargs kw_defaults kwarg
       app length map combine unparse_kwonly].
  rewrite Nat.sub_0_r, app_nil_r.
  pose proof (unparse_positional_plain l 1 true Nat.lt_0_1) as H.
  destruct (unparse_positional 0 1 true (combine l (repeat None (length l))))
    as [first1 s1].
  cbn [snd] in H. rewrite H. rewrite !append_empty_r. reflexivity.
Qed.

(** C6 (amended): the signature of a function is the text of its
    parameter list as astunparse prints it, trimmed: the names of the
    parameters, their type annotations and their default values.  A
    parameter is printed with its annotation after a colon, and a list
    of positional parameters without defaults as its parameters separated
    by commas.  The annotation of the result, the body and the position
    are no part of the key: two definitions with the same name, parameter
    list and ancestry have equal keys. *)
Theorem function_key_prints_annotations (anc : list string) (name : string)
        (a : arguments) (body : list stmt) (returns : option expr)
        (p : position) :
  compute_key (anc, FunctionDef name a body returns p)
  = Ok (name, PyStr.strip (unparse_arguments a ++ PyStr.newline), anc)
  /\ (forall x t, unparse_arg (mk_arg x (Some t))
                  = (x ++ ": " ++ unparse_expr t)%string)
  /\ (forall x, unparse_arg (mk_arg x None) = x)
  /\ (forall l, unparse_arguments (mk_arguments [] l None [] [] None [])
                = PyStr.join ", " (map unparse_arg l))
  /\ (forall body' returns' p',
         compute_key (anc, FunctionDef name a body' returns' p')
         = compute_key (anc, FunctionDef name a body returns p)).
Proof.
  split; [reflexivity|]. split; [reflexivity|].
  split; [intros x; apply append_empty_r|].
  split; [apply unparse_arguments_plain | reflexivity].
Qed.

End SignatureFacts.

(** C6, as stated, fails: [def f(a: int)] and [def f(a)] differ in a type
    annotation only and their signatures are ["a: int"] and ["a"]. *)
Lemma annotation_changes_key :
  differ_only_in_annotations Examples.f_annotated Examples.f_plain
  /\ @compute_key Examples.twice_ext ([], Examples.f_annotated)
     = Ok ("f", "a: int", [])%string
  /\ @compute_key Examples.twice_ext ([], Examples.f_plain)
     = Ok ("f", "a", [])%string
  /\ ~ (forall (ext : Externals) (anc : list string) (f g : stmt),
           differ_only_in_annotations f g ->
           @compute_key ext (anc, f) = @compute_key ext (anc, g)).
Proof.
  assert (D : differ_only_in_annotations Examples.f_annotated Examples.f_plain)
    by (repeat split).
  split; [exact D|].
  split; [vm_compute; reflexivity|].
  split; [vm_compute; reflexivity|].
  intros H.
  specialize (H Examples.twice_ext [] Examples.f_annotated Examples.f_plain D).
  vm_compute in H. discriminate H.
Qed.

(** ** Asynchronous definitions *)

Section AsyncFacts.

Context {ext : Externals}.

Lemma children_without_definitions (n : located) :
  has_class_or_func (snd n) = false ->
  Forall (fun c => has_class_or_func (snd c) = false) (located_children n).
Proof.
  destruct n as [anc s]. unfold located_children. cbn [snd].
  intros H. apply Forall_forall. intros c Hin.
  apply in_map_iff in Hin. destruct Hin as (s' & <- & Hin). cbn [snd].
  destruct s as [| name a body r p | | | children p]; simpl in *;
    try discriminate; try contradiction.
  - destruct (has_class_or_func s') eqn:E; [|reflexivity].
    rewrite <- H. symmetry. apply existsb_exists. exists s'. split; assumption.
  - destruct (has_class_or_func s') eqn:E; [|reflexivity].
    rewrite <- H. symmetry. apply existsb_exists. exists s'. split; assumption.
Qed.

Lemma has_class_or_func_self (s : stmt) :
  has_class_or_func s = false -> is_class_or_func s = false.
Proof. destruct s; simpl; congruence. Qed.

(** A walk that starts from nodes without a class or function below
    them yields none. *)
Lemma walk_queue_without_definitions (todo : list located) :
  Forall (fun c => has_class_or_func (snd c) = false) todo ->
  Forall (fun c => is_class_or_func (snd c) = false) (walk_queue todo).
Proof.
  funelim (walk_queue todo); intros Hq.
  - simp walk_queue. constructor.
  - simp walk_queue. inversion Hq as [|? ? Hn Hrest]; subst.
    constructor.
    + apply has_class_or_func_self. exact Hn.
    + match goal with IH : _ -> Forall _ (walk_queue _) |- _ => apply IH end.
      apply Forall_app. split; [exact Hrest|].
      apply children_without_definitions. exact Hn.
Qed.

Lemma walk_without_definitions (tree : module_) :
  existsb has_class_or_func (mod_body tree) = false ->
  Forall (fun c => is_class_or_func (snd c) = false) (walk tree).
Proof.
  intros H. apply walk_queue_without_definitions.
  apply Forall_forall. intros c Hin.
  apply in_map_iff in Hin. destruct Hin as (s & <- & Hin). cbn [snd].
  destruct (has_class_or_func s) eqn:E; [|reflexivity].
  rewrite <- H. symmetry. apply existsb_exists. exists s. split; assumption.
Qed.

Lemma class_or_func_not_async (s : stmt) :
  is_class_or_func s = true -> is_async s = false.
Proof. destruct s; simpl; congruence. Qed.

Lemma first_match_is_definition (node_doc c : located) (nodes : list located) :
  first_match node_doc nodes = Ok (Some c) -> is_class_or_func (snd c) = true.
Proof.
  induction nodes as [|n rest IH]; simpl; [discriminate|].
  destruct (is_class_or_func (snd n)) eqn:Hn; [|exact IH].
  destruct (same_key node_doc n) as [[|]|e]; simpl.
  - intros E. inversion E; subst. exact Hn.
  - exact IH.
  - discriminate.
Qed.

(** C10: an asynchronous function definition is no definition for the
    engine.  When the tree of a text has no class and no function other
    than asynchronous ones, [class_or_func_present] answers [False] and
    the list of the definitions of the file that the report counts is
    empty; no node counted by the report is asynchronous; and the node a
    documentation node is matched to is never asynchronous. *)
Theorem async_definitions_ignored :
  (forall code tree,
      ast_parse code = Ok tree ->
      existsb has_class_or_func (mod_body tree) = false ->
      class_or_func_present code = Ok false
      /\ names (definitions tree) = [])
  /\ (forall tree n, In n (definitions tree) -> is_async (snd n) = false)
  /\ (forall node_doc nodes c,
         first_match node_doc nodes = Ok (Some c) -> is_async (snd c) = false).
Proof.
  split; [|split].
  - intros code tree Hp Hnone.
    pose proof (walk_without_definitions tree Hnone) as Hw.
    assert (F : filter (fun n => is_class_or_func (snd n)) (walk tree) = []).
    { induction Hw as [|n l Hn _ IH]; simpl; [reflexivity|].
      rewrite Hn. exact IH. }
    split.
    + unfold class_or_func_present. rewrite Hp. cbn [rbind]. f_equal.
      induction Hw as [|n l Hn _ IH]; simpl; [reflexivity|].
      rewrite Hn. simpl. apply IH.
      simpl in F. rewrite Hn in F. exact F.
    + unfold definitions. rewrite F. reflexivity.
  - intros tree n Hin. unfold definitions in Hin.
    apply filter_In in Hin. apply class_or_func_not_async. apply Hin.
  - intros node_doc nodes c E. apply class_or_func_not_async.
    eapply first_match_is_definition. exact E.
Qed.

End AsyncFacts.

(** ** Line ends: what is read and what is stored *)

Lemma universal_newlines_from_no_cr (after_cr : bool) (s : string) :
  PyStr.has_cr (PyStr.universal_newlines_from after_cr s) = false.
Proof.
  revert after_cr. induction s as [|c s IH]; intros after_cr; [reflexivity|].
  cbn [PyStr.universal_newlines_from].
  destruct (Ascii.eqb c PyStr.cr) eqn:Ec.
  - cbn [PyStr.has_cr]. rewrite IH. reflexivity.
  - destruct (Ascii.eqb c PyStr.nl && after_cr); [apply IH|].
    cbn [PyStr.has_cr]. rewrite Ec, IH. reflexivity.
Qed.

(** A text without carriage return is read as it is. *)
Lemma universal_newlines_clean (s : string) :
  PyStr.has_cr s = false -> PyStr.universal_newlines s = s.
Proof.
  unfold PyStr.universal_newlines.
  induction s as [|c s IH]; [reflexivity|].
  cbn [PyStr.has_cr PyStr.universal_newlines_from]. intros H.
  apply orb_false_iff in H. destruct H as [Hc Hs].
  rewrite Hc, andb_false_r, (IH Hs). reflexivity.
Qed.

(** The text read holds no carriage return, and reading it again changes
    nothing. *)
Lemma universal_newlines_idempotent (s : string) :
  PyStr.universal_newlines (PyStr.universal_newlines s)
  = PyStr.universal_newlines s.
Proof.
  apply universal_newlines_clean. apply universal_newlines_from_no_cr.
Qed.

(** On a POSIX platform a text is stored as it is. *)
Lemma encode_newlines_posix (s : string) : PyStr.encode_newlines s = s.
Proof.
  induction s as [|c s IH]; [reflexivity|]. cbn [PyStr.encode_newlines].
  rewrite IH. destruct (Ascii.eqb c PyStr.nl) eqn:E; [|reflexivity].
  apply Ascii.eqb_eq in E. subst c. reflexivity.
Qed.

Lemma join_empty_cons (x : string) (l : list string) :
  PyStr.join "" (x :: l) = (x ++ PyStr.join "" l)%string.
Proof.
  unfold PyStr.join. destruct l as [|y l]; simpl; [symmetry; apply append_empty_r|].
  reflexivity.
Qed.

(** The lines of a text, put together, are the text. *)
Lemma join_cut_lines (s : string) : PyStr.join "" (PyStr.cut_lines s) = s.
Proof.
  induction s as [|c s IH]; [reflexivity|]. cbn [PyStr.cut_lines].
  destruct (Ascii.eqb c PyStr.nl).
  - rewrite join_empty_cons, IH. reflexivity.
  - destruct (PyStr.cut_lines s) as [|h t].
    + simpl in IH. subst s. reflexivity.
    + rewrite join_empty_cons in *. cbn [append]. rewrite IH. reflexivity.
Qed.

(** The lines read from a file, put together, are the text read from
    it. *)
Lemma join_readlines (s : string) :
  PyStr.join "" (PyStr.readlines s) = PyStr.universal_newlines s.
Proof. unfold PyStr.readlines. apply join_cut_lines. Qed.

Lemma readlines_read (s : string) :
  PyStr.readlines (PyStr.universal_newlines s) = PyStr.readlines s.
Proof.
  unfold PyStr.readlines. rewrite universal_newlines_idempotent. reflexivity.
Qed.

Lemma readlines_file_text (w : world) :
  PyStr.readlines (file_text w) = PyStr.readlines (stored_text w).
Proof. apply readlines_read. Qed.

(** The lines of a file without carriage return are its content. *)
Lemma readlines_clean (s : string) :
  PyStr.has_cr s = false -> PyStr.join "" (PyStr.readlines s) = s.
Proof.
  intros H. rewrite join_readlines. apply universal_newlines_clean. exact H.
Qed.

(** ** The trace: every splice is made on a fresh parse *)

Section TraceFacts.

Context {ext : Externals}.

Lemma reparsed_weaken (cur : string) (parsed : bool) (evs : list event) :
  reparsed cur false evs -> reparsed cur parsed evs.
Proof.
  revert cur parsed. induction evs as [|e evs IH]; intros cur parsed; simpl.
  - trivial.
  - destruct e; simpl.
    + tauto.
    + intros [H _]. discriminate H.
    + apply IH.
    + intros [H _]. discriminate H.
Qed.

Lemma reparsed_app (cur : string) (parsed : bool) (evs1 evs2 : list event) :
  reparsed cur parsed evs1 ->
  reparsed (text_after cur evs1) false evs2 ->
  reparsed cur parsed (evs1 ++ evs2).
Proof.
  revert cur parsed. induction evs1 as [|e evs1 IH]; intros cur parsed; simpl.
  - intros _. apply reparsed_weaken.
  - destruct e; simpl.
    + intros [E H1] H2. split; [exact E | apply IH; assumption].
    + intros [E H1] H2. split; [exact E | apply IH; assumption].
    + apply IH.
    + intros [E H1] H2. split; [exact E | apply IH; assumption].
Qed.

Lemma text_after_app (cur : string) (evs1 evs2 : list event) :
  text_after cur (evs1 ++ evs2) = text_after (text_after cur evs1) evs2.
Proof.
  revert cur. induction evs1 as [|e evs1 IH]; intros cur; simpl;
    [reflexivity|].
  destruct e; apply IH.
Qed.

Lemma gpt_only_text (cur : string) (evs : list event) :
  Forall is_gpt evs -> text_after cur evs = cur.
Proof.
  induction 1 as [|e evs He _ IH]; simpl; [reflexivity|].
  destruct e; simpl in He; try contradiction. exact IH.
Qed.

Lemma gpt_only_reparsed (cur : string) (parsed : bool) (evs : list event) :
  Forall is_gpt evs -> reparsed cur parsed evs.
Proof.
  induction 1 as [|e evs He _ IH]; simpl; [trivial|].
  destruct e; simpl in He; try contradiction. exact IH.
Qed.

Lemma gpt_only_then_write (cur text : string) (evs : list event) :
  Forall is_gpt evs -> reparsed cur true (evs ++ [EvWrite text]).
Proof.
  induction 1 as [|e evs He _ IH]; simpl; [auto|].
  destruct e; simpl in He; try contradiction. exact IH.
Qed.

Lemma gpt_only_then_truncate (cur : string) (evs : list event) :
  Forall is_gpt evs -> reparsed cur true (evs ++ [EvTruncate]).
Proof.
  induction 1 as [|e evs He _ IH]; simpl; [auto|].
  destruct e; simpl in He; try contradiction. exact IH.
Qed.

(** What a write does: the text is stored, or the exception of [write]
    leaves with the file empty. *)
Lemma write_file_effect (text : string) (w : world) :
  (file_write (trace w) text = Ok tt
   /\ write_file text w = (Ok tt, mk_world text (trace w ++ [EvWrite text])))
  \/ (exists e, file_write (trace w) text = Raise e
                /\ write_file text w
                   = (Raise e, mk_world "" (trace w ++ [EvTruncate]))).
Proof.
  unfold write_file. destruct (file_write (trace w) text) as [[]|e].
  - left. rewrite encode_newlines_posix. split; reflexivity.
  - right. exists e. split; reflexivity.
Qed.

Lemma quiet_ret {A} (a : A) : quiet (ret a).
Proof. intros w. exists []. rewrite app_nil_r. repeat split. constructor. Qed.

Lemma quiet_lift {A} (r : result A) : quiet (lift r).
Proof. intros w. exists []. rewrite app_nil_r. repeat split. constructor. Qed.

Lemma quiet_call (command : string) : quiet (call_gpt_compare command).
Proof.
  intros w. exists [EvGpt command]. repeat split.
  constructor; [exact I | constructor].
Qed.

Lemma quiet_bind {A B} (m : M A) (k : A -> M B) :
  quiet m -> (forall a, quiet (k a)) -> quiet (bind m k).
Proof.
  intros Hm Hk w. unfold bind.
  destruct (Hm w) as (evs1 & Et1 & Ef1 & Hg1).
  destruct (m w) as [[a|e] w1]; cbn [snd] in *.
  - destruct (Hk a w1) as (evs2 & Et2 & Ef2 & Hg2).
    exists (evs1 ++ evs2). rewrite Et2, Et1, Ef2, Ef1, app_assoc.
    repeat split. apply Forall_app. split; assumption.
  - exists evs1. repeat split; assumption.
Qed.

Lemma quiet_compare_docstrings (old : string) (new : option string) :
  quiet (compare_docstrings old new).
Proof.
  unfold compare_docstrings. destruct new as [new|]; [|apply quiet_lift].
  destruct (String.eqb _ _); [apply quiet_ret | apply quiet_call].
Qed.

Lemma quiet_replace_block (node_code : stmt) (old : string)
      (docstring : option string) (lines_code : list string) :
  quiet (replace_block node_code old docstring lines_code).
Proof.
  unfold replace_block.
  apply quiet_bind; [apply quiet_compare_docstrings | intros merged].
  apply quiet_bind; [apply quiet_lift | intros b].
  apply quiet_bind; [apply quiet_lift | intros lines1].
  apply quiet_ret.
Qed.

Lemma quiet_insert_block (node_code : stmt) (docstring : option string)
      (lines_code : list string) :
  quiet (insert_block node_code docstring lines_code).
Proof.
  unfold insert_block.
  apply quiet_bind; [apply quiet_lift | intros e].
  apply quiet_bind; [apply quiet_lift | intros b].
  apply quiet_ret.
Qed.

(** A pure step adds nothing. *)
Lemma silent_step (w : world) (parsed : bool) :
  exists evs,
    trace w = trace w ++ evs
    /\ file_text w = text_after (file_text w) evs
    /\ reparsed (file_text w) parsed evs.
Proof.
  exists []. rewrite app_nil_r. repeat split.
Qed.

(** Once the text is parsed, the splice adds at most a call of the
    collaborator and then at most one write. *)
Lemma splice_and_write_discipline (node_doc node_code : located)
      (lines_code : list string) :
  keeps_discipline true (splice_and_write node_doc node_code lines_code).
Proof.
  intros w. unfold splice_and_write.
  set (m := match get_docstring (snd node_code) with
            | Some old => replace_block (snd node_code) old
                                        (get_docstring (snd node_doc)) lines_code
            | None => insert_block (snd node_code)
                                   (get_docstring (snd node_doc)) lines_code
            end).
  assert (Hm : quiet m).
  { unfold m. destruct (get_docstring (snd node_code));
      [apply quiet_replace_block | apply quiet_insert_block]. }
  unfold bind. destruct (Hm w) as (evs & Et & Ef & Hg).
  destruct (m w) as [[lines1|e] w1]; cbn [snd] in *.
  - destruct (write_file_effect (PyStr.join "" lines1) w1)
      as [[_ Hw] | (e & _ & Hw)]; rewrite Hw; unfold ret; cbn [snd trace].
    + exists (evs ++ [EvWrite (PyStr.join "" lines1)]).
      rewrite Et, app_assoc, text_after_app, (gpt_only_text _ evs Hg).
      repeat split. apply gpt_only_then_write. exact Hg.
    + exists (evs ++ [EvTruncate]).
      rewrite Et, app_assoc, text_after_app, (gpt_only_text _ evs Hg).
      repeat split. apply gpt_only_then_truncate. exact Hg.
  - exists evs. rewrite (gpt_only_text _ evs Hg).
    repeat split; try assumption.
    + unfold file_text. rewrite Ef. reflexivity.
    + apply gpt_only_reparsed. exact Hg.
Qed.

Lemma match_loop_discipline (node_doc : located) (nodes : list located)
      (lines_code : list string) :
  keeps_discipline true (match_loop node_doc nodes lines_code).
Proof.
  intros w. rewrite match_loop_first_match.
  destruct (first_match node_doc nodes) as [[c|]|e].
  - apply splice_and_write_discipline.
  - apply silent_step.
  - apply silent_step.
Qed.

(** [insert_1_docstring] parses the text the file holds, and the match
    is looked for in the tree of that parse. *)
Lemma insert_1_docstring_unfold (node_doc : located) (w : world) :
  insert_1_docstring node_doc w =
  match ast_parse (file_text w) with
  | Ok tree_code =>
      match_loop node_doc (walk tree_code) (PyStr.readlines (file_text w))
                 (log (EvParse (file_text w)) w)
  | Raise e => (Raise e, log (EvParse (file_text w)) w)
  end.
Proof.
  unfold insert_1_docstring, bind, read_file, parse_code.
  destruct (ast_parse (file_text w)); reflexivity.
Qed.

Lemma insert_1_docstring_discipline (node_doc : located) :
  keeps_discipline false (insert_1_docstring node_doc).
Proof.
  intros w. rewrite insert_1_docstring_unfold.
  destruct (ast_parse (file_text w)) as [tree|e].
  - destruct (match_loop_discipline node_doc (walk tree)
                (PyStr.readlines (file_text w))
                (log (EvParse (file_text w)) w)) as (evs & Et & Ef & Hr).
    exists (EvParse (file_text w) :: evs).
    cbn [log trace file_text] in Et, Ef, Hr.
    rewrite Et, Ef, <- app_assoc. repeat split. exact Hr.
  - exists [EvParse (file_text w)]. repeat split.
Qed.

Lemma discipline_then {A B} (m : M A) (k : M B) (w : world) :
  keeps_discipline false m ->
  keeps_discipline false k ->
  exists evs,
    trace (snd (k (snd (m w)))) = trace w ++ evs
    /\ file_text (snd (k (snd (m w)))) = text_after (file_text w) evs
    /\ reparsed (file_text w) false evs.
Proof.
  intros Hm Hk.
  destruct (Hm w) as (evs1 & Et1 & Ef1 & Hr1).
  destruct (Hk (snd (m w))) as (evs2 & Et2 & Ef2 & Hr2).
  exists (evs1 ++ evs2).
  rewrite Et2, Et1, Ef2, Ef1, app_assoc, text_after_app.
  repeat split. apply reparsed_app; [exact Hr1|].
  rewrite <- Ef1. exact Hr2.
Qed.

Lemma insert_loop_discipline (docs : list located) :
  keeps_discipline false (insert_loop docs).
Proof.
  induction docs as [|d rest IH]; intros w.
  - apply silent_step.
  - pose proof (discipline_then (insert_1_docstring d) (insert_loop rest) w
                  (insert_1_docstring_discipline d) IH) as H.
    pose proof (insert_1_docstring_discipline d w) as H1.
    cbn [insert_loop].
    destruct (insert_1_docstring d w) as [[r|e] w1]; cbn [snd] in H, H1.
    + destruct (insert_loop rest w1) as [[flags|e'] w2]; exact H.
    + destruct e; try exact H1.
      destruct (insert_loop rest w1) as [[flags|e'] w2]; exact H.
Qed.

(** C3: in the loop over the documentation nodes, each node's match is
    looked for in the tree parsed from the text the file holds when the
    node is processed; in the trace of the loop every parse is of the
    text the file holds at that moment, and every write of the file comes
    after a parse of the text it replaces, made since the previous write:
    no splice uses a position computed before an earlier splice. *)
Theorem insert_loop_reparses_after_each_splice (docs : list located) (w : world) :
  (exists evs,
      trace (snd (insert_loop docs w)) = trace w ++ evs
      /\ file_text (snd (insert_loop docs w)) = text_after (file_text w) evs
      /\ reparsed (file_text w) false evs)
  /\ (forall node_doc w0,
         insert_1_docstring node_doc w0 =
         match ast_parse (file_text w0) with
         | Ok tree_code =>
             match_loop node_doc (walk tree_code)
                        (PyStr.readlines (file_text w0))
                        (log (EvParse (file_text w0)) w0)
         | Raise e => (Raise e, log (EvParse (file_text w0)) w0)
         end).
Proof.
  split.
  - apply insert_loop_discipline.
  - apply insert_1_docstring_unfold.
Qed.

End TraceFacts.

(** ** The splice leaves the other lines alone *)

Section ListFacts.

Import PyList.

Context {A : Type}.

Lemma del_at (l : list A) (i : Z) (l' : list A) :
  0 <= i -> del l i = Ok l' ->
  l' = firstn (Z.to_nat i) l ++ skipn (S (Z.to_nat i)) l
  /\ (Z.to_nat i < length l)%nat.
Proof.
  intros Hi. unfold del, len.
  destruct (i <? 0) eqn:Hneg; [apply Z.ltb_lt in Hneg; lia|].
  destruct ((0 <=? i) && (i <? Z.of_nat (length l))) eqn:Hin; [|discriminate].
  intros E. inversion E. split; [reflexivity|].
  apply andb_true_iff in Hin. destruct Hin as [_ Hlt].
  apply Z.ltb_lt in Hlt. lia.
Qed.

Lemma firstn_skipn_shift (l : list A) (a n : nat) :
  (a <= length l)%nat ->
  firstn a (firstn a l ++ skipn (a + n) l) = firstn a l
  /\ skipn a (firstn a l ++ skipn (a + n) l) = skipn (a + n) l.
Proof.
  intros Ha.
  assert (L : length (firstn a l) = a) by (apply firstn_length_le; exact Ha).
  split.
  - rewrite firstn_app, L, Nat.sub_diag, firstn_O, app_nil_r.
    apply firstn_all2. lia.
  - rewrite skipn_app, L, Nat.sub_diag.
    rewrite (skipn_all2 (firstn a l)) by lia. reflexivity.
Qed.

(** [n] deletions at the same index remove the [n] elements from that
    index on. *)
Lemma del_times_range (n : nat) (l : list A) (i : Z) (l' : list A) :
  0 <= i -> del_times n l i = Ok l' ->
  l' = firstn (Z.to_nat i) l ++ skipn (Z.to_nat i + n) l
  /\ (n = 0 \/ Z.to_nat i + n <= length l)%nat.
Proof.
  intros Hi. revert l l'. induction n as [|n IH]; intros l l'; simpl.
  - intros E. inversion E. rewrite Nat.add_0_r, firstn_skipn.
    split; [reflexivity | left; reflexivity].
  - destruct (del l i) as [l1|e] eqn:E1; [|discriminate]. cbn [rbind].
    intros E. destruct (del_at l i l1 Hi E1) as [-> Hlt].
    destruct (IH _ _ E) as [-> Hn].
    set (a := Z.to_nat i) in *.
    assert (La : (a <= length l)%nat) by lia.
    destruct (firstn_skipn_shift l a 1 La) as [F S1].
    replace (S a) with (a + 1)%nat by lia.
    rewrite F. split.
    + f_equal.
      assert (S2 : skipn a (firstn a l ++ skipn (a + 1) l) = skipn (a + 1) l)
        by exact S1.
      replace (a + n)%nat with (n + a)%nat by lia.
      rewrite <- skipn_skipn, S2, skipn_skipn. f_equal. lia.
    + right. destruct Hn as [-> | Hn]; [lia|].
      rewrite length_app, length_firstn, length_skipn in Hn. lia.
Qed.

(** [insert] at an index that is not negative. *)
Lemma insert_at (l : list A) (i : Z) (x : A) :
  0 <= i ->
  insert l i x = firstn (Z.to_nat i) l ++ x :: skipn (Z.to_nat i) l.
Proof.
  intros Hi. unfold insert, clamp, len.
  destruct (i <? 0) eqn:Hneg; [apply Z.ltb_lt in Hneg; lia|].
  destruct (Z.le_gt_cases i (Z.of_nat (length l))) as [Hle|Hgt].
  - rewrite Z.min_l by exact Hle. reflexivity.
  - rewrite Z.min_r by lia. rewrite Nat2Z.id.
    rewrite !firstn_all2, !skipn_all2 by lia. reflexivity.
Qed.

(** [insert] at any index puts the element between a prefix and the
    matching suffix. *)
Lemma insert_between (l : list A) (i : Z) (x : A) :
  exists a, insert l i x = firstn a l ++ x :: skipn a l.
Proof. eexists. reflexivity. Qed.

End ListFacts.

Section FrameFacts.

Context {ext : Externals}.

Lemma first_match_in (node_doc c : located) (nodes : list located) :
  first_match node_doc nodes = Ok (Some c) -> In c nodes.
Proof.
  induction nodes as [|n rest IH]; simpl; [discriminate|].
  destruct (is_class_or_func (snd n)).
  - destruct (same_key node_doc n) as [[|]|e]; simpl.
    + intros E. inversion E. left. reflexivity.
    + intros E. right. apply IH. exact E.
    + discriminate.
  - intros E. right. apply IH. exact E.
Qed.

(** The replacement of a block: the lines before it and the lines after
    it are kept, and the new block is a documentation block. *)
Lemma replace_block_frame (node_code : stmt) (old : string)
      (docstring : option string) (lines_code lines' : list string)
      (w w' : world) :
  block_range_ok node_code ->
  replace_block node_code old docstring lines_code w = (Ok lines', w') ->
  exists b0 block,
    body0 node_code = Ok b0
    /\ lines' = firstn (Z.to_nat (lineno (pos_of b0) - 1)) lines_code
                ++ block :: skipn (Z.to_nat (end_lineno (pos_of b0))) lines_code
    /\ PyStr.ends_with_one_newline block = true
    /\ stored_text w' = stored_text w
    /\ docstring <> None.
Proof.
  intros Hrange H.
  destruct (quiet_replace_block node_code old docstring lines_code w)
    as (evs & _ & Ef & _).
  rewrite H in Ef. cbn [snd] in Ef.
  unfold replace_block, bind, lift, ret in H.
  assert (Hdoc : docstring <> None).
  { intros ->. cbn [compare_docstrings] in H. unfold lift in H. discriminate. }
  destruct (compare_docstrings old docstring w) as [[merged|e] w1];
    [|discriminate].
  destruct (body0 node_code) as [b0|e] eqn:Eb; [|discriminate].
  destruct (Hrange b0 Eb) as [H1 H2].
  set (start := lineno (pos_of b0)) in *.
  set (end_ := end_lineno (pos_of b0)) in *.
  destruct (PyList.del_times (Z.to_nat (end_ - start + 1)) lines_code (start - 1))
    as [lines1|e] eqn:Ed; [|discriminate].
  inversion H; subst lines' w'. clear H.
  assert (Hi : 0 <= start - 1) by lia.
  destruct (del_times_range _ _ _ _ Hi Ed) as [-> Hn].
  rewrite (insert_at _ _ _ Hi).
  set (a := Z.to_nat (start - 1)) in *.
  set (n := Z.to_nat (end_ - start + 1)) in *.
  assert (La : (a <= length lines_code)%nat) by (unfold a, n in *; lia).
  destruct (firstn_skipn_shift lines_code a n La) as [F S1].
  rewrite F, S1.
  exists b0,
    (shift_docstring (Some (PyStr.strip (remove_start_end_lines merged)))
                     (col_offset (pos_of b0))).
  split; [reflexivity|].
  replace (Z.to_nat (end_lineno (pos_of b0))) with (a + n)%nat
    by (unfold a, n, start, end_ in *; lia).
  split; [reflexivity|].
  split; [apply shift_docstring_one_newline|].
  split; [exact Ef | exact Hdoc].
Qed.

(** A write that returns has stored its text. *)
Lemma write_file_returns (text : string) (w w' : world) (u : unit) :
  write_file text w = (Ok u, w') ->
  w' = mk_world text (trace w ++ [EvWrite text]).
Proof.
  destruct (write_file_effect text w) as [[_ Hw] | (e & _ & Hw)];
    rewrite Hw; intros H; [|discriminate].
  injection H as _ <-. reflexivity.
Qed.

(** C2 (amended): when [insert_1_docstring] has written a splice, the
    content of the new file is the lines read from the old one up to a
    first place, the block, and the lines read from the old one from a
    second place on.
    When the code node had a documentation block, the places are the first
    and the last line of that block, so that the lines outside it are
    kept; when it had none, the two places are one and every line is kept.
    The lines are kept as they are read, with every line end a [\n]: when
    the old file holds no carriage return they are its content to the
    byte.  The block written for a documentation text ends with exactly
    one line end; for a documentation node without a text the block is
    empty. *)
Theorem splice_keeps_other_lines (node_doc r : located) (w w' : world)
        (tree : module_) :
  insert_1_docstring node_doc w = (Ok (Some r), w') ->
  ast_parse (file_text w) = Ok tree ->
  (forall c, In c (walk tree) -> block_range_ok (snd c)) ->
  exists (c : located) (block : string) (a b : nat),
    first_match node_doc (walk tree) = Ok (Some c)
    /\ (a <= b)%nat
    /\ stored_text w' =
       PyStr.join "" (firstn a (PyStr.readlines (stored_text w))
                      ++ block :: skipn b (PyStr.readlines (stored_text w)))
    /\ (PyStr.has_cr (stored_text w) = false ->
        PyStr.join "" (PyStr.readlines (stored_text w)) = stored_text w)
    /\ (forall old, get_docstring (snd c) = Some old ->
          exists b0, body0 (snd c) = Ok b0
                     /\ Z.of_nat a = lineno (pos_of b0) - 1
                     /\ Z.of_nat b = end_lineno (pos_of b0))
    /\ (get_docstring (snd c) = None -> a = b)
    /\ (forall doc, get_docstring (snd node_doc) = Some doc ->
          PyStr.ends_with_one_newline block = true)
    /\ (get_docstring (snd node_doc) = None -> block = "").
Proof.
  intros H Hp Hrange.
  rewrite insert_1_docstring_unfold, Hp, match_loop_first_match in H.
  rewrite readlines_file_text in H.
  destruct (first_match node_doc (walk tree)) as [[c|]|e] eqn:Em;
    [|discriminate|discriminate].
  pose proof (Hrange c (first_match_in _ _ _ Em)) as Hc.
  exists c. unfold splice_and_write, bind in H.
  destruct (get_docstring (snd c)) as [old|] eqn:Eold.
  - destruct (replace_block (snd c) old (get_docstring (snd node_doc))
                (PyStr.readlines (stored_text w)) (log (EvParse (file_text w)) w))
      as [[lines'|e] w1] eqn:Er; [|discriminate].
    destruct (replace_block_frame _ _ _ _ _ _ _ Hc Er)
      as (b0 & block & Eb & -> & Hnl & _ & Hdoc).
    match type of H with
    | context [write_file ?t ?w0] =>
        destruct (write_file t w0) as [[u|e] w2] eqn:Hw; [|discriminate]
    end.
    apply write_file_returns in Hw. unfold ret in H.
    injection H as _ <-. rewrite Hw. cbn [stored_text].
    destruct (Hc b0 Eb) as [H1 H2].
    exists block, (Z.to_nat (lineno (pos_of b0) - 1)),
      (Z.to_nat (end_lineno (pos_of b0))).
    split; [reflexivity|]. split; [lia|]. split; [reflexivity|].
    split; [apply readlines_clean|].
    split; [|split; [|split]].
    + intros old' _. exists b0. split; [exact Eb|]. lia.
    + discriminate.
    + intros doc _. exact Hnl.
    + intros E. contradiction.
  - unfold insert_block, bind, lift, ret in H.
    destruct (find_end_of_definition (PyStr.readlines (stored_text w)) (snd c))
      as [e0|e]; [|discriminate].
    destruct (body0 (snd c)) as [b0|e]; [|discriminate].
    match type of H with
    | context [write_file ?t ?w0] =>
        destruct (write_file t w0) as [[u|e] w2] eqn:Hw; [|discriminate]
    end.
    apply write_file_returns in Hw.
    injection H as _ <-. rewrite Hw. cbn [stored_text].
    destruct (insert_between (PyStr.readlines (stored_text w)) (e0 - 1)
                (shift_docstring (get_docstring (snd node_doc))
                                 (col_offset (pos_of b0)))) as [a Ea].
    exists (shift_docstring (get_docstring (snd node_doc)) (col_offset (pos_of b0))),
      a, a.
    split; [reflexivity|]. split; [lia|].
    split; [rewrite Ea; reflexivity|].
    split; [apply readlines_clean|].
    split; [|split; [|split]].
    + discriminate.
    + reflexivity.
    + intros doc ->. apply shift_docstring_one_newline.
    + intros ->. reflexivity.
Qed.

End FrameFacts.

Lemma splice_keeps_other_lines_witness :
  (exists (c : located) (block : string) (a b : nat),
      @first_match Examples.twice_ext ([], Examples.doc_f)
                   (walk Examples.twice_tree) = Ok (Some c)
      /\ (a <= b)%nat
      /\ Cases.twice_inserted_text =
         PyStr.join "" (firstn a (PyStr.readlines Examples.twice_text)
                        ++ block :: skipn b (PyStr.readlines Examples.twice_text))
      /\ (PyStr.has_cr Examples.twice_text = false ->
          PyStr.join "" (PyStr.readlines Examples.twice_text)
          = Examples.twice_text)
      /\ (forall old, @get_docstring Examples.twice_ext (snd c) = Some old ->
            exists b0, body0 (snd c) = Ok b0
                       /\ Z.of_nat a = lineno (pos_of b0) - 1
                       /\ Z.of_nat b = end_lineno (pos_of b0))
      /\ (@get_docstring Examples.twice_ext (snd c) = None -> a = b)
      /\ (forall doc, @get_docstring Examples.twice_ext Examples.doc_f = Some doc ->
            PyStr.ends_with_one_newline block = true)
      /\ (@get_docstring Examples.twice_ext Examples.doc_f = None -> block = ""))
  /\ (exists (c : located) (block : string) (a b : nat),
         @first_match Cases.merging_ext ([], Examples.doc_new)
                      (walk Examples.old_tree) = Ok (Some c)
         /\ (a <= b)%nat
         /\ Cases.old_replaced_text =
            PyStr.join "" (firstn a (PyStr.readlines Examples.old_text)
                           ++ block :: skipn b (PyStr.readlines Examples.old_text))
         /\ (PyStr.has_cr Examples.old_text = false ->
             PyStr.join "" (PyStr.readlines Examples.old_text)
             = Examples.old_text)
         /\ (forall old, @get_docstring Cases.merging_ext (snd c) = Some old ->
               exists b0, body0 (snd c) = Ok b0
                          /\ Z.of_nat a = lineno (pos_of b0) - 1
                          /\ Z.of_nat b = end_lineno (pos_of b0))
         /\ (@get_docstring Cases.merging_ext (snd c) = None -> a = b)
         /\ (forall doc,
               @get_docstring Cases.merging_ext Examples.doc_new = Some doc ->
               PyStr.ends_with_one_newline block = true)
         /\ (@get_docstring Cases.merging_ext Examples.doc_new = None ->
             block = "")).
Proof.
  split.
  - apply (@splice_keeps_other_lines Examples.twice_ext ([], Examples.doc_f)
             ([], Examples.doc_f) Examples.twice_world
             (mk_world Cases.twice_inserted_text
                       [EvParse Examples.twice_text;
                        EvWrite Cases.twice_inserted_text])
             Examples.twice_tree).
    + vm_compute. reflexivity.
    + reflexivity.
    + intros c Hin b0 Hb.
      vm_compute in Hin.
      repeat (destruct Hin as [<- | Hin];
              [vm_compute in Hb; inversion Hb; subst; vm_compute;
               split; discriminate|]).
      contradiction.
  - apply (@splice_keeps_other_lines Cases.merging_ext ([], Examples.doc_new)
             ([], Examples.doc_new) Examples.old_world
             (mk_world Cases.old_replaced_text
                       [EvParse Examples.old_text;
                        EvGpt (@compare_command "old" "new");
                        EvWrite Cases.old_replaced_text])
             Examples.old_tree).
    + vm_compute. reflexivity.
    + reflexivity.
    + intros c Hin b0 Hb.
      vm_compute in Hin.
      repeat (destruct Hin as [<- | Hin];
              [vm_compute in Hb; inversion Hb; subst; vm_compute;
               split; discriminate|]).
      contradiction.
Defined.

(** C2, as stated, fails.  In a file whose lines end with a carriage
    return and a line end, the first line is outside the range of the
    splice (the block goes after it) and it is not the same before and
    after: the file is written with the lines as they were read.  And the
    block written for a documentation node without a text is empty: it
    does not end with a line end. *)
Lemma splice_rewrites_line_ends :
  @insert_1_docstring Cases.plain_ext ([], Examples.doc_f)
     (mk_world Cases.crlf_text [])
  = (Ok (Some ([], Examples.doc_f)),
     mk_world Cases.plain_inserted_text
              [EvParse Cases.plain_text; EvWrite Cases.plain_inserted_text])
  /\ nth_error (PyStr.cut_lines Cases.crlf_text) 0
     = Some (Cases.crlf_line "def f():")
  /\ nth_error (PyStr.cut_lines Cases.plain_inserted_text) 0
     = Some (Examples.ln "def f():")
  /\ Cases.crlf_line "def f():" <> Examples.ln "def f():"
  /\ @insert_1_docstring Cases.plain_ext ([], Examples.f_first)
        (mk_world Cases.plain_text [])
     = (Ok (Some ([], Examples.f_first)),
        mk_world Cases.plain_text
                 [EvParse Cases.plain_text; EvWrite Cases.plain_text])
  /\ shift_docstring (@get_docstring Cases.plain_ext Examples.f_first) 4 = ""
  /\ PyStr.ends_with_one_newline "" = false.
Proof.
  split; [vm_compute; reflexivity|].
  split; [vm_compute; reflexivity|].
  split; [vm_compute; reflexivity|].
  split; [vm_compute; discriminate|].
  split; [vm_compute; reflexivity|].
  split; reflexivity.
Qed.

(** ** Where the block is inserted *)

Section LocatorFacts.

Lemma first_colon_line_bounds (l : list string) (k : Z) :
  first_colon_line l = Some k -> 1 <= k <= PyList.len l.
Proof.
  unfold PyList.len. revert k.
  induction l as [|line rest IH]; intros k; simpl; [discriminate|].
  destruct (Regex.search_colon line).
  - intros E. inversion E. lia.
  - destruct (first_colon_line rest) as [k'|]; simpl; [|discriminate].
    intros E. inversion E. specialize (IH k' eq_refl). lia.
Qed.

(** The first line with the pattern has it, and no line before it has. *)
Lemma first_colon_line_found (l : list string) (k : Z) :
  first_colon_line l = Some k ->
  (exists line, nth_error l (Z.to_nat (k - 1)) = Some line
                /\ Regex.search_colon line = true)
  /\ (forall j line, (j < Z.to_nat (k - 1))%nat -> nth_error l j = Some line ->
                     Regex.search_colon line = false).
Proof.
  revert k. induction l as [|line rest IH]; intros k; simpl; [discriminate|].
  destruct (Regex.search_colon line) eqn:Es.
  - intros E. inversion E. subst. split.
    + exists line. split; [reflexivity | exact Es].
    + intros j line' Hj. simpl in Hj. lia.
  - destruct (first_colon_line rest) as [k'|] eqn:Ek; simpl; [|discriminate].
    intros E. inversion E. subst.
    destruct (first_colon_line_bounds rest k' Ek) as [Hk _].
    destruct (IH k' eq_refl) as [(line' & Hn & Hs) Hbefore].
    replace (Z.to_nat (Z.succ k' - 1)) with (S (Z.to_nat (k' - 1))) by lia.
    split.
    + exists line'. split; assumption.
    + intros j line'' Hj Hnth. destruct j as [|j]; simpl in Hnth.
      * inversion Hnth. subst. exact Es.
      * apply (Hbefore j); [lia | exact Hnth].
Qed.

(** The loop of [find_end_of_definition] stops at the first line with
    the pattern. *)
Lemma header_scan_first (l : list string) (i k : Z) :
  first_colon_line l = Some k -> header_scan i l = Some (i + k - 1).
Proof.
  revert i k. induction l as [|line rest IH]; intros i k; simpl; [discriminate|].
  destruct (Regex.search_colon line).
  - intros E. inversion E. f_equal. lia.
  - destruct (first_colon_line rest) as [k'|] eqn:Ek; simpl; [|discriminate].
    intros E. inversion E. rewrite (IH (i + 1) k' eq_refl). f_equal. lia.
Qed.


(** A line of the span is the line of the file at the same distance
    from the header line. *)
Lemma slice_nth (l : list string) (a b : Z) (j : nat) :
  0 <= a -> (j < length (PyList.slice l a b))%nat ->
  nth_error (PyList.slice l a b) j = nth_error l (Z.to_nat a + j).
Proof.
  intros Ha. unfold PyList.slice, PyList.clamp, PyList.len.
  destruct (a <? 0) eqn:Hneg; [apply Z.ltb_lt in Hneg; lia|].
  destruct (Z.le_gt_cases a (Z.of_nat (length l))) as [Hle|Hgt].
  - rewrite (Z.min_l a) by exact Hle.
    intros Hj. rewrite nth_error_firstn.
    rewrite length_firstn in Hj.
    destruct (Nat.ltb_spec j (Z.to_nat
      ((if b <? 0 then Z.max 0 (b + Z.of_nat (length l))
        else Z.min b (Z.of_nat (length l))) - a))) as [_|Hge]; [|lia].
    apply nth_error_skipn.
  - rewrite (Z.min_r a) by lia. rewrite Nat2Z.id.
    rewrite skipn_all2 by lia. rewrite firstn_nil. simpl. lia.
Qed.

Lemma find_end_of_definition_first (node b : stmt) (code_lines : list string)
      (k : Z) :
  body0 node = Ok b ->
  first_colon_line (header_span code_lines node b) = Some k ->
  find_end_of_definition code_lines node = Ok (lineno (pos_of node) + k).
Proof.
  intros Eb Ek. unfold find_end_of_definition. rewrite Eb. cbn [rbind].
  fold (header_span code_lines node b).
  rewrite (header_scan_first _ 1 k Ek). f_equal. lia.
Qed.

(** What the locator does: for a code node without a documentation
    block, the span from the header line to the line before the first
    statement of the body is scanned for the first line on which a colon
    is followed, up to the end of the line, by white space only or by
    white space and a comment, whichever colon that is.  When there is
    such a line, the block is inserted on the line immediately after it,
    shifted by the column of the first statement of the body. *)
Theorem block_inserted_after_first_colon_line (node b : stmt)
        (code_lines : list string) (docstring : option string) (k : Z)
        (w : world) :
  body0 node = Ok b ->
  1 <= lineno (pos_of node) ->
  first_colon_line (header_span code_lines node b) = Some k ->
  let h := lineno (pos_of node) + k - 1 in
  find_end_of_definition code_lines node = Ok (h + 1)
  /\ (exists line, nth_error code_lines (Z.to_nat (h - 1)) = Some line
                   /\ Regex.search_colon line = true)
  /\ (forall j line, lineno (pos_of node) <= j < h ->
                     nth_error code_lines (Z.to_nat (j - 1)) = Some line ->
                     Regex.search_colon line = false)
  /\ insert_block node docstring code_lines w
     = (Ok (firstn (Z.to_nat h) code_lines
            ++ shift_docstring docstring (col_offset (pos_of b))
            :: skipn (Z.to_nat h) code_lines), w).
Proof.
  intros Eb Hl Ek h.
  pose proof (find_end_of_definition_first node b code_lines k Eb Ek) as Ef.
  destruct (first_colon_line_bounds _ _ Ek) as [Hk1 Hk2].
  destruct (first_colon_line_found _ _ Ek) as [(line & Hn & Hs) Hbefore].
  unfold PyList.len in Hk2.
  assert (Ha : 0 <= lineno (pos_of node) - 1) by lia.
  split; [|split; [|split]].
  - rewrite Ef. f_equal. unfold h. lia.
  - exists line. split; [|exact Hs].
    unfold header_span in Hn, Hk2. rewrite slice_nth in Hn by lia.
    rewrite <- Hn. f_equal. unfold h. lia.
  - intros j line' Hj Hnth.
    apply (Hbefore (Z.to_nat (j - lineno (pos_of node))) line').
    + unfold h in Hj. lia.
    + unfold header_span in Hk2 |- *. rewrite slice_nth by lia.
      rewrite <- Hnth. f_equal. lia.
  - unfold insert_block, bind, lift, ret. rewrite Ef, Eb.
    rewrite insert_at by lia.
    replace (lineno (pos_of node) + k - 1) with h by reflexivity.
    reflexivity.
Qed.

End LocatorFacts.

Lemma block_inserted_after_first_colon_line_witness :
  body0 Examples.f_add = Ok (Examples.simple_stmt 2 4)
  /\ first_colon_line (header_span Examples.add_lines Examples.f_add
                                   (Examples.simple_stmt 2 4)) = Some 1
  /\ find_end_of_definition Examples.add_lines Examples.f_add = Ok (1 + 1 - 1 + 1)
  /\ insert_block Examples.f_add (Some "Adds two numbers."%string)
                  Examples.add_lines Examples.twice_world
     = (Ok (firstn (Z.to_nat (1 + 1 - 1)) Examples.add_lines
            ++ shift_docstring (Some "Adds two numbers."%string) 4
            :: skipn (Z.to_nat (1 + 1 - 1)) Examples.add_lines),
        Examples.twice_world).
Proof.
  assert (Eb : body0 Examples.f_add = Ok (Examples.simple_stmt 2 4))
    by reflexivity.
  assert (Hl : 1 <= lineno (pos_of Examples.f_add)) by (vm_compute; discriminate).
  assert (Ek : first_colon_line (header_span Examples.add_lines Examples.f_add
                                             (Examples.simple_stmt 2 4)) = Some 1)
    by reflexivity.
  split; [exact Eb|]. split; [exact Ek|].
  pose proof (block_inserted_after_first_colon_line
                Examples.f_add (Examples.simple_stmt 2 4) Examples.add_lines
                (Some "Adds two numbers."%string) 1 Examples.twice_world
                Eb Hl Ek) as H.
  split; [apply H | apply H].
Defined.

(** C4: the code misses what the claim says.  In a header of three lines
    whose second line ends in the colon of a lambda, the colon that ends
    the header is on line 3; the locator, which looks for the first line
    that ends in a colon, returns 3 and not 4, and the block is inserted
    after line 2, inside the header. *)
Lemma block_inserted_inside_header :
  HeaderColon.header_colon_line Examples.lambda_lines Examples.f_lambda = Some 3
  /\ find_end_of_definition Examples.lambda_lines Examples.f_lambda = Ok 3
  /\ insert_block Examples.f_lambda (Some "doc"%string)
                  Examples.lambda_lines Examples.twice_world
     = (Ok [ Examples.ln "def f(a,";
             Examples.ln "      b=lambda:";
             shift_docstring (Some "doc"%string) 4;
             Examples.ln "      0):";
             Examples.ln "    pass" ],
        Examples.twice_world)
  /\ ~ (forall code_lines node h,
           HeaderColon.header_colon_line code_lines node = Some h ->
           find_end_of_definition code_lines node = Ok (h + 1)).
Proof.
  split; [vm_compute; reflexivity|].
  split; [vm_compute; reflexivity|].
  split; [vm_compute; reflexivity|].
  intros H.
  specialize (H Examples.lambda_lines Examples.f_lambda 3 eq_refl).
  vm_compute in H. discriminate H.
Qed.

(** ** Errors of one node *)

Section NodeErrors.

Context {ext : Externals}.


(** The whole span is there when the lines of the node exist. *)
Lemma header_span_length (node b : stmt) (code_lines : list string) :
  1 <= lineno (pos_of node) <= lineno (pos_of b) ->
  lineno (pos_of b) - 1 <= PyList.len code_lines ->
  lineno (pos_of node) + PyList.len (header_span code_lines node b)
  = lineno (pos_of b).
Proof.
  intros H1 H2. unfold header_span, PyList.slice, PyList.clamp, PyList.len in *.
  destruct (lineno (pos_of node) - 1 <? 0) eqn:Ha;
    [apply Z.ltb_lt in Ha; lia|].
  destruct (lineno (pos_of b) - 1 <? 0) eqn:Hb;
    [apply Z.ltb_lt in Hb; lia|].
  rewrite length_firstn, length_skipn. lia.
Qed.


(** C9 (amended): when the call of the collaborator made for a node
    raises, nothing is written: the file holds the text it held, with the
    old documentation, and the new documentation of the node is dropped.
    When the error is an [AttributeError] the node is recorded as not
    inserted and the loop goes on with the nodes that follow; an error of
    any other kind leaves the loop, and the nodes that follow are not
    processed. *)
Theorem collaborator_error_skips_node (node_doc c : located)
        (rest : list located) (tree : module_) (old new : string) (e : exn)
        (w : world) :
  ast_parse (file_text w) = Ok tree ->
  first_match node_doc (walk tree) = Ok (Some c) ->
  get_docstring (snd c) = Some old ->
  get_docstring (snd node_doc) = Some new ->
  PyStr.strip old <> PyStr.strip new ->
  gpt_compare (trace w ++ [EvParse (file_text w)]) (compare_command old new)
  = Raise e ->
  let w1 := mk_world (stored_text w)
                     (trace w ++ [EvParse (file_text w);
                                  EvGpt (compare_command old new)]) in
  insert_1_docstring node_doc w = (Raise e, w1)
  /\ (e = AttributeError ->
      insert_loop (node_doc :: rest) w =
      match insert_loop rest w1 with
      | (Ok flags, w2) => (Ok (false :: flags), w2)
      | (Raise e', w2) => (Raise e', w2)
      end)
  /\ (e <> AttributeError ->
      insert_loop (node_doc :: rest) w = (Raise e, w1)).
Proof.
  intros Hp Hm Hold Hnew Hdiff Hgpt w1.
  assert (H1 : insert_1_docstring node_doc w = (Raise e, w1)).
  { rewrite insert_1_docstring_unfold, Hp, match_loop_first_match, Hm.
    unfold splice_and_write, bind. rewrite Hold, Hnew.
    unfold replace_block, bind, compare_docstrings.
    destruct (String.eqb (PyStr.strip old) (PyStr.strip new)) eqn:Eq;
      [apply String.eqb_eq in Eq; contradiction|].
    unfold call_gpt_compare. cbn [log trace stored_text].
    rewrite Hgpt. unfold w1, log. cbn [trace stored_text].
    rewrite <- app_assoc. reflexivity. }
  split; [exact H1|]. split.
  - intros ->. cbn [insert_loop]. rewrite H1. reflexivity.
  - intros Hne. cbn [insert_loop]. rewrite H1.
    destruct e; try reflexivity. contradiction.
Qed.

End NodeErrors.



Lemma collaborator_error_skips_node_witness :
  fst (@insert_1_docstring (Examples.failing_ext AttributeError)
         ([], Examples.doc_new) Examples.old_world)
  = Raise AttributeError
  /\ file_text
       (snd (@insert_loop (Examples.failing_ext AttributeError)
               [([], Examples.doc_new)] Examples.old_world))
     = Examples.old_text
  /\ fst (@insert_loop (Examples.failing_ext AttributeError)
            [([], Examples.doc_new)] Examples.old_world)
     = Ok [false].
Proof.
  pose proof (@collaborator_error_skips_node (Examples.failing_ext AttributeError)
                ([], Examples.doc_new) ([], Examples.f_old) []
                Examples.old_tree "old"%string "new"%string AttributeError
                Examples.old_world) as H.
  cbv zeta in H.
  destruct H as (H1 & H2 & _);
    try reflexivity; try (vm_compute; discriminate).
  specialize (H2 eq_refl).
  split; [exact (f_equal fst H1)|].
  split.
  - exact (f_equal (fun p => file_text (snd p)) H2).
  - exact (f_equal fst H2).
Defined.

(** C9, as stated, fails: when the collaborator raises an error that is
    not an [AttributeError], the loop over the nodes of the file is left
    with that error and the node that follows is not processed. *)
Lemma other_error_leaves_the_loop :
  fst (@insert_loop (Examples.failing_ext (OtherError "timeout"))
         [([], Examples.doc_new); ([], Examples.doc_new)] Examples.old_world)
  = Raise (OtherError "timeout")
  /\ trace
       (snd (@insert_loop (Examples.failing_ext (OtherError "timeout"))
               [([], Examples.doc_new); ([], Examples.doc_new)]
               Examples.old_world))
     = [EvParse Examples.old_text;
        EvGpt (@compare_command "old" "new")]
  /\ fst (@insert_loop (Examples.failing_ext AttributeError)
            [([], Examples.doc_new); ([], Examples.doc_new)] Examples.old_world)
     = Ok [false; false].
Proof.
  split; [vm_compute; reflexivity|].
  split; vm_compute; reflexivity.
Qed.

Lemma async_definitions_ignored_witness :
  @class_or_func_present Examples.async_ext Examples.async_text = Ok false
  /\ @names (@definitions Examples.async_tree) = [].
Proof.
  apply (proj1 (@async_definitions_ignored Examples.async_ext)
               Examples.async_text Examples.async_tree);
    reflexivity.
Defined.

(* ===================================================================== *)
(** * Further properties of the code *)
(* ===================================================================== *)

(** ** What one call of [insert_1_docstring] does to the world *)

Section Effects.

Context {ext : Externals}.

Lemma gpt_only_counts (evs : list event) :
  Forall is_gpt evs -> count_writes evs = O /\ count_gpt evs = length evs.
Proof.
  induction 1 as [|e evs He _ [IH1 IH2]]; simpl; [split; reflexivity|].
  destruct e; simpl in He; try contradiction. split; [exact IH1 | f_equal; exact IH2].
Qed.

Lemma count_writes_app (evs1 evs2 : list event) :
  count_writes (evs1 ++ evs2) = (count_writes evs1 + count_writes evs2)%nat.
Proof.
  induction evs1 as [|e evs1 IH]; simpl; [reflexivity|].
  destruct e; simpl; rewrite IH; reflexivity.
Qed.

Lemma count_gpt_app (evs1 evs2 : list event) :
  count_gpt (evs1 ++ evs2) = (count_gpt evs1 + count_gpt evs2)%nat.
Proof.
  induction evs1 as [|e evs1 IH]; simpl; [reflexivity|].
  destruct e; simpl; rewrite IH; reflexivity.
Qed.

(** [compare_docstrings] leaves the file alone and calls the collaborator
    at most once. *)
Lemma compare_docstrings_events (old : string) (new : option string) (w : world) :
  exists evs,
    snd (compare_docstrings old new w) = mk_world (stored_text w) (trace w ++ evs)
    /\ Forall is_gpt evs /\ (length evs <= 1)%nat.
Proof.
  destruct w as [text tr]. unfold compare_docstrings.
  destruct new as [new|].
  - destruct (String.eqb (PyStr.strip old) (PyStr.strip new)).
    + exists []. cbn. rewrite app_nil_r. repeat split; [constructor | lia].
    + exists [EvGpt (compare_command old new)]. cbn.
      repeat split; [constructor; [exact I | constructor] | lia].
  - exists []. cbn. rewrite app_nil_r. repeat split; [constructor | lia].
Qed.

Lemma replace_block_events (node_code : stmt) (old : string)
      (docstring : option string) (lines_code : list string) (w : world) :
  exists evs,
    snd (replace_block node_code old docstring lines_code w)
    = mk_world (stored_text w) (trace w ++ evs)
    /\ Forall is_gpt evs /\ (length evs <= 1)%nat.
Proof.
  destruct (compare_docstrings_events old docstring w) as (evs & E & Hg & Hl).
  exists evs. split; [|split; assumption].
  unfold replace_block, bind, lift, ret.
  destruct (compare_docstrings old docstring w) as [[merged|e] w1];
    cbn [snd] in E; [|exact E].
  destruct (body0 node_code) as [b|e]; [|exact E].
  destruct (PyList.del_times _ lines_code _) as [lines1|e]; exact E.
Qed.

Lemma insert_block_world (node_code : stmt) (docstring : option string)
      (lines_code : list string) (w : world) :
  snd (insert_block node_code docstring lines_code w) = w.
Proof.
  unfold insert_block, bind, lift, ret.
  destruct (find_end_of_definition lines_code node_code) as [e|e]; [|reflexivity].
  destruct (body0 node_code); reflexivity.
Qed.

(** The splice: at most one call of the collaborator, and then either the
    one write of the file, with the documentation node returned, or an
    exception before the write and the file as it was, or the exception of
    the write and the file empty. *)
Lemma splice_and_write_effects (node_doc node_code : located)
      (lines_code : list string) (w : world) :
  exists evs,
    Forall is_gpt evs /\ (length evs <= 1)%nat
    /\ (get_docstring (snd node_code) = None -> evs = [])
    /\ ((exists text,
            file_write (trace w ++ evs) text = Ok tt
            /\ splice_and_write node_doc node_code lines_code w
               = (Ok (Some node_doc),
                  mk_world text (trace w ++ evs ++ [EvWrite text])))
        \/ (exists e,
               splice_and_write node_doc node_code lines_code w
               = (Raise e, mk_world (stored_text w) (trace w ++ evs)))
        \/ (exists e text,
               file_write (trace w ++ evs) text = Raise e
               /\ splice_and_write node_doc node_code lines_code w
                  = (Raise e, mk_world "" (trace w ++ evs ++ [EvTruncate])))).
Proof.
  unfold splice_and_write, bind.
  destruct (get_docstring (snd node_code)) as [old|].
  - destruct (replace_block_events (snd node_code) old
                (get_docstring (snd node_doc)) lines_code w)
      as (evs & E & Hg & Hl).
    exists evs. split; [exact Hg|]. split; [exact Hl|].
    split; [discriminate|].
    destruct (replace_block (snd node_code) old (get_docstring (snd node_doc))
                lines_code w) as [[lines1|e] w1]; cbn [snd] in E; subst w1.
    + destruct (write_file_effect (PyStr.join "" lines1)
                  (mk_world (stored_text w) (trace w ++ evs)))
        as [[Ew Hw] | (e & Ew & Hw)]; rewrite Hw; cbn [trace] in *;
        rewrite <- app_assoc.
      * left. exists (PyStr.join "" lines1).
        split; [exact Ew | reflexivity].
      * right. right. exists e, (PyStr.join "" lines1).
        split; [exact Ew | reflexivity].
    + right. left. exists e. reflexivity.
  - pose proof (insert_block_world (snd node_code) (get_docstring (snd node_doc))
                  lines_code w) as E.
    exists []. split; [constructor|]. split; [simpl; lia|].
    split; [reflexivity|].
    destruct (insert_block (snd node_code) (get_docstring (snd node_doc))
                lines_code w) as [[lines1|e] w1]; cbn [snd] in E; subst w1.
    + rewrite app_nil_r.
      destruct (write_file_effect (PyStr.join "" lines1) w)
        as [[Ew Hw] | (e & Ew & Hw)]; rewrite Hw.
      * left. exists (PyStr.join "" lines1). split; [exact Ew | reflexivity].
      * right. right. exists e, (PyStr.join "" lines1).
        split; [exact Ew | reflexivity].
    + right. left. exists e. destruct w. cbn. rewrite app_nil_r. reflexivity.
Qed.

(** One call of [insert_1_docstring]: one parse of the text of the file,
    at most one call of the collaborator, and then either one write, with
    the documentation node returned, or no write and the file as it was,
    or the exception of the write and the file empty. *)
Lemma insert_1_docstring_effects (node_doc : located) (w : world) :
  exists evs,
    Forall is_gpt evs /\ (length evs <= 1)%nat
    /\ ((exists text,
            file_write (trace w ++ EvParse (file_text w) :: evs) text = Ok tt
            /\ insert_1_docstring node_doc w
               = (Ok (Some node_doc),
                  mk_world text
                    (trace w ++ EvParse (file_text w) :: evs ++ [EvWrite text])))
        \/ (exists r,
               (forall x, r <> Ok (Some x))
               /\ insert_1_docstring node_doc w
                  = (r, mk_world (stored_text w)
                          (trace w ++ EvParse (file_text w) :: evs)))
        \/ (exists e text,
               file_write (trace w ++ EvParse (file_text w) :: evs) text = Raise e
               /\ insert_1_docstring node_doc w
                  = (Raise e,
                     mk_world ""
                       (trace w ++ EvParse (file_text w) :: evs ++ [EvTruncate])))).
Proof.
  rewrite insert_1_docstring_unfold.
  destruct (ast_parse (file_text w)) as [tree|e].
  - rewrite match_loop_first_match.
    destruct (first_match node_doc (walk tree)) as [[c|]|e].
    + destruct (splice_and_write_effects node_doc c
                  (PyStr.readlines (file_text w))
                  (log (EvParse (file_text w)) w))
        as (evs & Hg & Hl & _ & [(text & Ew & E) | [[e E] | (e & text & Ew & E)]]);
        exists evs; (split; [exact Hg|]); (split; [exact Hl|]);
        cbn [log trace stored_text] in *; rewrite <- !app_assoc in *;
        cbn [app] in *.
      * left. exists text. split; [exact Ew | exact E].
      * right. left. exists (Raise e). split; [discriminate | exact E].
      * right. right. exists e, text. split; [exact Ew | exact E].
    + exists []. split; [constructor|]. split; [simpl; lia|].
      right. left. exists (Ok None). split; [discriminate|]. reflexivity.
    + exists []. split; [constructor|]. split; [simpl; lia|].
      right. left. exists (Raise e). split; [discriminate|]. reflexivity.
  - exists []. split; [constructor|]. split; [simpl; lia|].
    right. left. exists (Raise e). split; [discriminate|]. reflexivity.
Qed.



(** What one call adds to the trace, counted. *)
Lemma insert_1_docstring_step (node_doc : located) (w : world) :
  exists evs,
    trace (snd (insert_1_docstring node_doc w)) = trace w ++ evs
    /\ (count_gpt evs <= 1)%nat
    /\ count_writes evs
       = match fst (insert_1_docstring node_doc w) with
         | Ok (Some _) => 1%nat
         | _ => O
         end.
Proof.
  destruct (insert_1_docstring_effects node_doc w)
    as (evs & Hg & Hl & [(text & _ & E) | [(r & Hr & E) | (e & text & _ & E)]]);
    rewrite E; cbn [fst snd trace];
    destruct (gpt_only_counts evs Hg) as [Hw Hc].
  - exists (EvParse (file_text w) :: evs ++ [EvWrite text]).
    split; [reflexivity|].
    cbn [count_gpt count_writes]. rewrite count_gpt_app, count_writes_app.
    cbn [count_gpt count_writes]. split; lia.
  - exists (EvParse (file_text w) :: evs). split; [reflexivity|].
    cbn [count_gpt count_writes]. split; [lia|].
    destruct r as [[x|]|e]; [exfalso; apply (Hr x); reflexivity | |]; exact Hw.
  - exists (EvParse (file_text w) :: evs ++ [EvTruncate]).
    split; [reflexivity|].
    cbn [count_gpt count_writes]. rewrite count_gpt_app, count_writes_app.
    cbn [count_gpt count_writes]. split; lia.
Qed.

End Effects.

(** ** What a run of [insert_docstrings] does to the world *)

Section RunEffects.

Context {ext : Externals}.

(** In the loop over the documentation nodes there are as many writes as
    nodes marked inserted, and no more calls of the collaborator than
    nodes. *)
Lemma insert_loop_counts (docs : list located) (w : world) :
  exists evs,
    trace (snd (insert_loop docs w)) = trace w ++ evs
    /\ (count_gpt evs <= length docs)%nat
    /\ (forall flags, fst (insert_loop docs w) = Ok flags ->
                      count_writes evs = count_inserted flags).
Proof.
  revert w. induction docs as [|d rest IH]; intros w.
  - exists []. cbn. rewrite app_nil_r. repeat split; [lia|].
    intros flags E. inversion E. reflexivity.
  - cbn [insert_loop length].
    destruct (insert_1_docstring_step d w) as (evs1 & Et1 & Hc1 & Hw1).
    destruct (insert_1_docstring d w) as [r w1]. cbn [fst snd] in *.
    destruct (IH w1) as (evs2 & Et & Hc & Hf).
    assert (Go :
      forall b : bool,
        count_writes evs1 = (if b then 1 else 0)%nat ->
        exists evs,
          trace (snd (match insert_loop rest w1 with
                      | (Ok flags, w2) => (Ok (b :: flags), w2)
                      | (Raise e', w2) => (Raise e', w2)
                      end)) = trace w ++ evs
          /\ (count_gpt evs <= S (length rest))%nat
          /\ (forall flags,
                 fst (match insert_loop rest w1 with
                      | (Ok flags, w2) => (Ok (b :: flags), w2)
                      | (Raise e', w2) => (Raise e', w2)
                      end) = Ok flags ->
                 count_writes evs = count_inserted flags)).
    { intros b Hb. exists (evs1 ++ evs2).
      destruct (insert_loop rest w1) as [[flags|e'] w2]; cbn [fst snd] in *;
        rewrite Et, Et1, <- app_assoc; (split; [reflexivity|]);
        (split; [rewrite count_gpt_app; lia|]).
      - intros flags' Ef. inversion Ef. subst flags'.
        rewrite count_writes_app, Hb, (Hf flags eq_refl).
        unfold count_inserted. destruct b; reflexivity.
      - discriminate. }
    destruct r as [[x|]|e].
    + cbn [is_some]. apply Go. exact Hw1.
    + cbn [is_some]. apply Go. exact Hw1.
    + destruct e;
        try (exists evs1; cbn [fst snd]; split; [exact Et1|];
             split; [lia | discriminate]).
      apply Go. exact Hw1.
Qed.

Lemma inserted_nodes_counted (docs : list located) (flags : list bool) :
  length flags = length docs ->
  length (map fst (filter snd (combine docs flags))) = count_inserted flags.
Proof.
  revert flags. induction docs as [|d docs IH]; intros [|b flags] Hl;
    try discriminate; [reflexivity|].
  simpl in Hl. injection Hl as Hl. unfold count_inserted in *. simpl.
  destruct b; simpl; rewrite (IH flags Hl); reflexivity.
Qed.

(** The events of a run of [insert_docstrings] that ends with its
    report. *)
Lemma insert_docstrings_counts (docstrings : string) (rep : report)
      (w w' : world) :
  insert_docstrings docstrings w = (Ok rep, w') ->
  exists evs,
    trace w' = trace w ++ evs
    /\ count_writes evs = length (numb_inserted_nodes rep)
    /\ (count_gpt evs <= length (numb_node_doc rep))%nat.
Proof.
  unfold insert_docstrings, bind, read_file, parse_code, lift, ret.
  destruct (ast_parse (file_text w)) as [tree_code|e]; [|discriminate].
  destruct (ast_parse (remove_start_end_lines docstrings)) as [tree_doc|e];
    [|discriminate].
  set (w0 := log (EvParse (file_text w)) w).
  destruct (insert_loop_counts (definitions tree_doc) w0) as (evs & Et & Hc & Hf).
  destruct (insert_loop (definitions tree_doc) w0) as [[flags|e] w1] eqn:El;
    [|discriminate].
  cbn [fst snd] in *. intros E. inversion E. subst. clear E.
  cbn [numb_inserted_nodes numb_node_doc].
  exists (EvParse (file_text w) :: evs). rewrite Et. unfold w0.
  cbn [log trace]. rewrite <- app_assoc. split; [reflexivity|].
  cbn [count_writes count_gpt]. split; [|exact Hc].
  rewrite (Hf flags eq_refl). symmetry. apply inserted_nodes_counted.
  eapply insert_loop_length. exact El.
Qed.

(** X2: in a run of [insert_docstrings] that ends with its report, the
    file is written exactly as many times as there are documentation nodes
    reported as inserted. *)
Theorem insert_docstrings_one_write_per_inserted_node (docstrings : string)
        (rep : report) (w w' : world) :
  insert_docstrings docstrings w = (Ok rep, w') ->
  exists evs,
    trace w' = trace w ++ evs
    /\ count_writes evs = length (numb_inserted_nodes rep).
Proof.
  intros E. destruct (insert_docstrings_counts _ _ _ _ E) as (evs & Et & Hw & _).
  exists evs. split; assumption.
Qed.

(** X3: in a run of [insert_docstrings] that ends with its report, the
    reconciliation collaborator is called at most once for each
    documentation node. *)
Theorem insert_docstrings_one_call_per_node_at_most (docstrings : string)
        (rep : report) (w w' : world) :
  insert_docstrings docstrings w = (Ok rep, w') ->
  exists evs,
    trace w' = trace w ++ evs
    /\ (count_gpt evs <= length (numb_node_doc rep))%nat.
Proof.
  intros E. destruct (insert_docstrings_counts _ _ _ _ E) as (evs & Et & _ & Hc).
  exists evs. split; assumption.
Qed.

End RunEffects.

(** ** The walk of the tree and the nesting of the definitions *)

Section WalkFacts.

Context {ext : Externals}.

(** Document order from a list of located nodes. *)
Lemma preorder_children (n : located) :
  preorder (fst n) (snd n)
  = n :: flat_map (fun c => preorder (fst c) (snd c)) (located_children n).
Proof.
  destruct n as [anc s]. unfold located_children. cbn [fst snd].
  assert (F : forall anc' l,
             flat_map (fun c : located => preorder (fst c) (snd c))
                      (map (pair anc') l)
             = flat_map (preorder anc') l).
  { intros anc' l. induction l as [|x l IH]; simpl; [reflexivity|].
    rewrite IH. reflexivity. }
  rewrite F. destruct s; reflexivity.
Qed.

Lemma walk_queue_permutation (todo : list located) :
  Permutation (walk_queue todo)
              (flat_map (fun c => preorder (fst c) (snd c)) todo).
Proof.
  funelim (walk_queue todo); simp walk_queue.
  - constructor.
  - cbn [flat_map]. rewrite preorder_children. cbn [app].
    apply perm_skip.
    match goal with IH : Permutation (walk_queue _) _ |- _ =>
      eapply Permutation_trans; [exact IH|] end.
    rewrite flat_map_app. apply Permutation_app_comm.
Qed.

(** X4: the walk of a tree, with the parents assigned, yields every node
    of the tree exactly once, each with the names of the classes and
    functions that enclose it, outermost first: it is a rearrangement of
    the nodes in document order. *)
Theorem walk_yields_every_node_once (tree : module_) :
  Permutation (walk tree) (document_order tree).
Proof.
  unfold walk, document_order.
  eapply Permutation_trans; [apply walk_queue_permutation|].
  induction (mod_body tree) as [|s l IH]; simpl; [constructor|].
  apply Permutation_app_head. exact IH.
Qed.

Lemma walk_in_document_order (tree : module_) (c : located) :
  In c (walk tree) <-> In c (document_order tree).
Proof.
  assert (P : Permutation (walk tree) (document_order tree)).
  { unfold walk, document_order.
    eapply Permutation_trans; [apply walk_queue_permutation|].
    induction (mod_body tree) as [|s l IH]; simpl; [constructor|].
    apply Permutation_app_head. exact IH. }
  split; apply Permutation_in; [exact P | apply Permutation_sym; exact P].
Qed.

(** Without a match the loop runs to its end. *)
Lemma first_match_none (node_doc : located) (nodes : list located) :
  is_class_or_func (snd node_doc) = true ->
  (first_match node_doc nodes = Ok None <->
   forall c, In c nodes -> is_class_or_func (snd c) = true ->
             compute_key c <> compute_key node_doc).
Proof.
  intros Hd. induction nodes as [|n rest IH]; simpl.
  - split; [intros _ c [] | reflexivity].
  - destruct (is_class_or_func (snd n)) eqn:Hn.
    + destruct (same_key_spec node_doc n Hd Hn) as (b & Eb & Hb).
      rewrite Eb. cbn [rbind]. destruct b.
      * split; [discriminate|]. intros H. exfalso.
        apply (H n); [left; reflexivity | exact Hn | apply Hb; reflexivity].
      * rewrite IH. split.
        -- intros H c [<- | Hin] Hc.
           ++ intros K. apply Hb in K. discriminate.
           ++ apply H; assumption.
        -- intros H c Hin. apply H. right. exact Hin.
    + rewrite IH. split.
      * intros H c [<- | Hin] Hc.
        -- rewrite Hn in Hc. discriminate.
        -- apply H; assumption.
      * intros H c Hin. apply H. right. exact Hin.
Qed.

(** X5: [insert_1_docstring] returns nothing, having parsed the file and
    done nothing else, exactly when no class or function of the file, at
    whatever depth, has the name, signature and ancestry of the
    documentation node. *)
Theorem no_match_iff_no_definition_has_key (node_doc : located)
        (tree : module_) (w : world) :
  is_class_or_func (snd node_doc) = true ->
  ast_parse (file_text w) = Ok tree ->
  (insert_1_docstring node_doc w = (Ok None, log (EvParse (file_text w)) w)
   <-> forall c, In c (document_order tree) ->
                 is_class_or_func (snd c) = true ->
                 compute_key c <> compute_key node_doc).
Proof.
  intros Hd Hp.
  rewrite insert_1_docstring_unfold, Hp, match_loop_first_match.
  assert (N : first_match node_doc (walk tree) = Ok None <->
              forall c, In c (document_order tree) ->
                        is_class_or_func (snd c) = true ->
                        compute_key c <> compute_key node_doc).
  { rewrite (first_match_none node_doc (walk tree) Hd). split.
    - intros H c Hin. apply H. apply walk_in_document_order. exact Hin.
    - intros H c Hin. apply H. apply walk_in_document_order. exact Hin. }
  rewrite <- N.
  destruct (first_match node_doc (walk tree)) as [[c|]|e].
  - split; [|discriminate]. intros E. exfalso.
    destruct (splice_and_write_effects node_doc c (PyStr.readlines (file_text w))
                (log (EvParse (file_text w)) w))
      as (evs & _ & _ & _ & [(text & _ & E') | [[e E'] | (e & text & _ & E')]]);
      rewrite E' in E; discriminate.
  - split; reflexivity.
  - split; discriminate.
Qed.

(** A walk that starts from a queue with a class or a function at some
    depth yields one. *)
Lemma walk_queue_finds_definition (todo : list located) :
  Exists (fun c => has_class_or_func (snd c) = true) todo ->
  existsb (fun c => is_class_or_func (snd c)) (walk_queue todo) = true.
Proof.
  funelim (walk_queue todo); intros Hq.
  - inversion Hq.
  - simp walk_queue. cbn [existsb].
    destruct (is_class_or_func (snd n)) eqn:Hn; [reflexivity|].
    cbn [orb].
    match goal with IH : _ -> existsb _ (walk_queue _) = true |- _ => apply IH end.
    apply Exists_app. inversion Hq as [? ? Hhere | ? ? Hrest]; subst.
    + right. destruct n as [anc s]. unfold located_children. cbn [snd] in *.
      apply Exists_exists.
      destruct s as [| name a body r p | | | children p]; simpl in *;
        try discriminate.
      * apply existsb_exists in Hhere. destruct Hhere as (s' & Hin & Hs').
        exists (anc, s'). split; [apply in_map; exact Hin | exact Hs'].
      * apply existsb_exists in Hhere. destruct Hhere as (s' & Hin & Hs').
        exists (anc, s'). split; [apply in_map; exact Hin | exact Hs'].
    + left. exact Hrest.
Qed.

(** X6: [class_or_func_present] answers whether the tree of the text has a
    class or a function that is not asynchronous, at whatever depth: also
    under an [if], a [try], or within an asynchronous function. *)
Theorem class_or_func_present_at_any_depth (code : string) (tree : module_) :
  ast_parse code = Ok tree ->
  class_or_func_present code = Ok (existsb has_class_or_func (mod_body tree)).
Proof.
  intros Hp. unfold class_or_func_present. rewrite Hp. cbn [rbind]. f_equal.
  destruct (existsb has_class_or_func (mod_body tree)) eqn:E.
  - apply walk_queue_finds_definition. apply Exists_exists.
    apply existsb_exists in E. destruct E as (s & Hin & Hs).
    exists ([], s). split; [apply in_map; exact Hin | exact Hs].
  - pose proof (walk_without_definitions tree E) as Hw.
    induction Hw as [|n l Hn _ IH]; simpl; [reflexivity|].
    rewrite Hn. exact IH.
Qed.

End WalkFacts.

(** ** The line returned by [find_end_of_definition] *)

Section EndOfDefinition.

Context {ext : Externals}.

Lemma header_scan_bounds (l : list string) (i j : Z) :
  header_scan i l = Some j -> i <= j <= i + PyList.len l - 1.
Proof.
  unfold PyList.len. revert i j.
  induction l as [|line rest IH]; intros i j; simpl; [discriminate|].
  destruct (Regex.search_colon line).
  - intros E. inversion E. lia.
  - destruct (header_scan (i + 1) rest) as [k|] eqn:Ek.
    + intros E. inversion E. subst. specialize (IH _ _ Ek). lia.
    + intros E. inversion E. lia.
Qed.

Lemma slice_length (l : list string) (a b : Z) :
  0 <= a -> 0 <= b ->
  PyList.len (PyList.slice l a b)
  = Z.max 0 (Z.min b (PyList.len l) - Z.min a (PyList.len l)).
Proof.
  intros Ha Hb. unfold PyList.slice, PyList.clamp, PyList.len.
  destruct (a <? 0) eqn:Na; [apply Z.ltb_lt in Na; lia|].
  destruct (b <? 0) eqn:Nb; [apply Z.ltb_lt in Nb; lia|].
  rewrite length_firstn, length_skipn. lia.
Qed.

(** X7: when [find_end_of_definition] returns a line, it is a line after
    the header line and not after the line of the first statement of the
    body, and it is a line of the file or the one after the last: the
    block is inserted below the first line of the header and above the
    body. *)
Theorem find_end_of_definition_between (node b : stmt)
        (code_lines : list string) (e : Z) :
  body0 node = Ok b ->
  1 <= lineno (pos_of node) ->
  1 <= lineno (pos_of b) ->
  find_end_of_definition code_lines node = Ok e ->
  lineno (pos_of node) < e <= lineno (pos_of b)
  /\ e - 1 <= PyList.len code_lines.
Proof.
  intros Eb Hn Hb. unfold find_end_of_definition. rewrite Eb. cbn [rbind].
  destruct (header_scan 1 _) as [i|] eqn:Es; [|discriminate].
  intros E. inversion E. subst e. clear E.
  apply header_scan_bounds in Es.
  rewrite slice_length in Es by lia. lia.
Qed.

(** A definition whose body starts on the header line has an empty header
    span. *)
Lemma one_line_definition_unbound (node b : stmt) (code_lines : list string) :
  body0 node = Ok b ->
  1 <= lineno (pos_of b) <= lineno (pos_of node) ->
  find_end_of_definition code_lines node = Raise UnboundLocalError.
Proof.
  intros Eb H. unfold find_end_of_definition. rewrite Eb. cbn [rbind].
  assert (L : PyList.slice code_lines (lineno (pos_of node) - 1)
                           (lineno (pos_of b) - 1) = []).
  { pose proof (slice_length code_lines (lineno (pos_of node) - 1)
                             (lineno (pos_of b) - 1)) as Hl.
    unfold PyList.len in Hl.
    destruct (PyList.slice code_lines _ _); [reflexivity|].
    simpl length in Hl. lia. }
  rewrite L. reflexivity.
Qed.

(** X8: a definition written with its body on the header line, such as
    [def f(): pass], and without documentation: [find_end_of_definition]
    raises [UnboundLocalError]; the exception is not caught by the loop of
    [insert_docstrings], which is left with it; nothing is written and the
    documentation nodes that follow are not processed. *)
Theorem one_line_definition_stops_the_loop (node_doc c : located) (b : stmt)
        (rest : list located) (tree : module_) (w : world) :
  ast_parse (file_text w) = Ok tree ->
  first_match node_doc (walk tree) = Ok (Some c) ->
  get_docstring (snd c) = None ->
  body0 (snd c) = Ok b ->
  1 <= lineno (pos_of b) <= lineno (pos_of (snd c)) ->
  find_end_of_definition (PyStr.readlines (file_text w)) (snd c)
  = Raise UnboundLocalError
  /\ insert_loop (node_doc :: rest) w
     = (Raise UnboundLocalError, log (EvParse (file_text w)) w).
Proof.
  intros Hp Hm Hnone Eb Hl.
  pose proof (one_line_definition_unbound (snd c) b
                (PyStr.readlines (file_text w)) Eb Hl) as Ef.
  split; [exact Ef|].
  cbn [insert_loop].
  rewrite insert_1_docstring_unfold, Hp, match_loop_first_match, Hm.
  unfold splice_and_write, bind. rewrite Hnone.
  unfold insert_block, bind, lift. rewrite Ef. reflexivity.
Qed.

End EndOfDefinition.

(** ** The shape of the written block *)

Section BlockShape.

Import PyStr.

Lemma join_lines (f : string -> string) (l : list string) :
  l <> [] ->
  (join newline (map f l) ++ newline)%string
  = join "" (map (fun x => (f x ++ newline)%string) l).
Proof.
  unfold join. induction l as [|x l IH]; intros Hne; [contradiction|].
  destruct l as [|y l'].
  - reflexivity.
  - change (String.concat newline (map f (x :: y :: l')))
      with (f x ++ newline ++ String.concat newline (map f (y :: l')))%string.
    change (String.concat "" (map (fun x0 => (f x0 ++ newline)%string) (x :: y :: l')))
      with ((f x ++ newline) ++ "" ++
            String.concat "" (map (fun x0 => (f x0 ++ newline)%string) (y :: l')))%string.
    rewrite <- IH by discriminate.
    rewrite !append_assoc. reflexivity.
Qed.

(** X9: the block written for a documentation text is the opening
    delimiter, the lines of the text and the closing delimiter, each
    shifted by the indentation and ended by a line end; a negative
    indentation shifts by nothing. *)
Theorem shift_docstring_lines (doc : string) (indent : Z) :
  shift_docstring (Some doc) indent
  = join "" (map (fun line => (spaces (Z.to_nat indent) ++ line ++ newline)%string)
                 (triple_quote :: split_nl doc ++ [triple_quote]))
  /\ (indent <= 0 -> spaces (Z.to_nat indent) = "").
Proof.
  split.
  - unfold shift_docstring.
    rewrite strip_wrapped_docstring.
    assert (S : split_nl (join newline [triple_quote; doc; triple_quote])
                = triple_quote :: split_nl doc ++ [triple_quote]).
    { change (join newline [triple_quote; doc; triple_quote])
        with (triple_quote ++ String nl (doc ++ String nl triple_quote))%string.
      rewrite !split_nl_app. reflexivity. }
    rewrite S, join_lines by discriminate.
    f_equal. apply map_ext. intros line. rewrite append_assoc. reflexivity.
  - intros H. replace (Z.to_nat indent) with O by lia. reflexivity.
Qed.

End BlockShape.

(** ** A documentation node without a text *)

Section RoundTrip.

Import PyStr.

Lemma join_empty_app (l1 l2 : list string) :
  join "" (l1 ++ l2) = (join "" l1 ++ join "" l2)%string.
Proof.
  induction l1 as [|x l1 IH]; [reflexivity|].
  cbn [app]. rewrite !join_empty_cons, IH, append_assoc. reflexivity.
Qed.

(** To insert the empty text among the lines changes nothing of the text
    they make. *)
Lemma join_insert_empty (l : list string) (i : Z) :
  join "" (PyList.insert l i "") = join "" l.
Proof.
  destruct (insert_between l i "") as [a Ea]. rewrite Ea.
  rewrite join_empty_app, join_empty_cons. cbn [append].
  rewrite <- join_empty_app, firstn_skipn. reflexivity.
Qed.

End RoundTrip.

Section MissingText.

Context {ext : Externals}.

(** X10: a documentation node without a text, matched to a code node that
    has a documentation block: the comparison of the two raises an
    [AttributeError] before the collaborator is called; the error is
    caught, the old block stays in the file, nothing is written, the node
    is recorded as not inserted and the loop goes on. *)
Theorem missing_text_keeps_old_block (node_doc c : located)
        (rest : list located) (tree : module_) (old : string) (w : world) :
  ast_parse (file_text w) = Ok tree ->
  first_match node_doc (walk tree) = Ok (Some c) ->
  get_docstring (snd c) = Some old ->
  get_docstring (snd node_doc) = None ->
  insert_1_docstring node_doc w
  = (Raise AttributeError, log (EvParse (file_text w)) w)
  /\ insert_loop (node_doc :: rest) w =
     match insert_loop rest (log (EvParse (file_text w)) w) with
     | (Ok flags, w2) => (Ok (false :: flags), w2)
     | (Raise e, w2) => (Raise e, w2)
     end.
Proof.
  intros Hp Hm Hold Hnew.
  assert (H1 : insert_1_docstring node_doc w
               = (Raise AttributeError, log (EvParse (file_text w)) w)).
  { rewrite insert_1_docstring_unfold, Hp, match_loop_first_match, Hm.
    unfold splice_and_write, bind. rewrite Hold, Hnew. reflexivity. }
  split; [exact H1|]. cbn [insert_loop]. rewrite H1. reflexivity.
Qed.

(** X11: a documentation node without a text, matched to a code node that
    has no documentation block and for which [find_end_of_definition]
    returns a line: the empty text is inserted and, when the write
    returns, the file holds the text that was read from it, which is its
    very content when it held no carriage return; the node is recorded as
    inserted. *)
Theorem missing_text_rewrites_same_file (node_doc c : located)
        (tree : module_) (e : Z) (w : world) :
  ast_parse (file_text w) = Ok tree ->
  first_match node_doc (walk tree) = Ok (Some c) ->
  get_docstring (snd c) = None ->
  get_docstring (snd node_doc) = None ->
  find_end_of_definition (PyStr.readlines (file_text w)) (snd c) = Ok e ->
  file_write (trace w ++ [EvParse (file_text w)]) (file_text w) = Ok tt ->
  let w1 := mk_world (file_text w)
                     (trace w ++ [EvParse (file_text w); EvWrite (file_text w)]) in
  insert_1_docstring node_doc w = (Ok (Some node_doc), w1)
  /\ (PyStr.has_cr (stored_text w) = false -> stored_text w1 = stored_text w)
  /\ (forall rest,
         insert_loop (node_doc :: rest) w =
         match insert_loop rest w1 with
         | (Ok flags, w2) => (Ok (true :: flags), w2)
         | (Raise e', w2) => (Raise e', w2)
         end).
Proof.
  intros Hp Hm Hnone Hnew Ef Hw w1.
  assert (H1 : insert_1_docstring node_doc w = (Ok (Some node_doc), w1)).
  { rewrite insert_1_docstring_unfold, Hp, match_loop_first_match, Hm.
    unfold splice_and_write, bind. rewrite Hnone, Hnew.
    unfold insert_block, bind, lift, ret. rewrite Ef.
    assert (Eb : exists b, body0 (snd c) = Ok b).
    { unfold find_end_of_definition in Ef.
      destruct (body0 (snd c)) as [b|]; [exists b; reflexivity | discriminate]. }
    destruct Eb as [b Eb]. rewrite Eb.
    cbn [shift_docstring].
    rewrite join_insert_empty, join_readlines.
    unfold file_text at 1. rewrite universal_newlines_idempotent.
    fold (file_text w).
    destruct (write_file_effect (file_text w) (log (EvParse (file_text w)) w))
      as [[_ E] | (x & E & _)].
    - rewrite E. unfold w1. cbn [log trace]. rewrite <- app_assoc. reflexivity.
    - cbn [log trace] in E. rewrite Hw in E. discriminate. }
  split; [exact H1|]. split.
  - intros Hcr. unfold w1. cbn [stored_text]. unfold file_text.
    apply universal_newlines_clean. exact Hcr.
  - intros rest. apply insert_loop_inserted with (r := node_doc). exact H1.
Qed.

End MissingText.

(** ** The cleaning of the generated text *)

Section Cleaning.

Import Regex.

Lemma after_prefix_spec (p s r : string) :
  after_prefix p s = Some r <-> s = (p ++ r)%string.
Proof.
  revert s. induction p as [|a p IH]; intros s; simpl.
  - split; [intros E; inversion E; reflexivity | intros ->; reflexivity].
  - destruct s as [|b s]; [split; discriminate|].
    destruct (Ascii.eqb a b) eqn:E.
    + apply Ascii.eqb_eq in E. subst b. rewrite IH. split.
      * intros ->. reflexivity.
      * intros H. inversion H. reflexivity.
    + split; [discriminate|]. intros H. inversion H. subst.
      rewrite Ascii.eqb_refl in E. discriminate.
Qed.

Lemma is_some_after_prefix (p s : string) :
  is_some (after_prefix p s) = true -> exists r, s = (p ++ r)%string.
Proof.
  destruct (after_prefix p s) as [r|] eqn:E; [|discriminate].
  intros _. exists r. apply after_prefix_spec. exact E.
Qed.

(** Where the text goes on with white space, [def] or [class], the
    pattern does not match. *)
Lemma header_or_indented_no_match (s : string) :
  header_or_indented s = true -> framing_match s = None.
Proof.
  destruct s as [|c s]; [reflexivity|]. unfold header_or_indented.
  intros H. apply orb_true_iff in H. destruct H as [H | H].
  - apply orb_true_iff in H. destruct H as [H | H].
    + destruct c as [[] [] [] [] [] [] [] []];
        try discriminate H; reflexivity.
    + apply is_some_after_prefix in H. destruct H as [r ->]. reflexivity.
  - apply is_some_after_prefix in H. destruct H as [r ->]. reflexivity.
Qed.

Lemma header_or_indented_app (c : ascii) (a b : string) :
  header_or_indented (String c a) = true ->
  header_or_indented (String c a ++ b) = true.
Proof.
  unfold header_or_indented. cbn [append]. intros H.
  apply orb_true_iff in H. destruct H as [H | H].
  - apply orb_true_iff in H. destruct H as [H | H].
    + rewrite H. reflexivity.
    + apply is_some_after_prefix in H. destruct H as [r E].
      change (String c (a ++ b)) with (String c a ++ b)%string. rewrite E.
      destruct (PyStr.is_space c); reflexivity.
  - apply is_some_after_prefix in H. destruct H as [r E].
    change (String c (a ++ b)) with (String c a ++ b)%string. rewrite E.
    destruct (PyStr.is_space c); reflexivity.
Qed.

(** A text of lines that are empty, indented, or start with [def] or
    [class] is passed over as it is, whatever follows it. *)
Lemma sub_framing_keeps (a b : string) (bol : bool) :
  lines_ok bol a = true ->
  sub_framing O bol (a ++ b) = (a ++ sub_framing O (bol_after bol a) b)%string.
Proof.
  revert bol. induction a as [|c a IH]; intros bol H; [reflexivity|].
  cbn [lines_ok] in H. apply andb_true_iff in H. destruct H as [Hh Hl].
  cbn [append bol_after sub_framing].
  assert (N : (if bol then framing_match (String c (a ++ b)) else None) = None).
  { destruct bol; [|reflexivity].
    apply header_or_indented_no_match.
    apply (header_or_indented_app c a b). exact Hh. }
  rewrite N, (IH _ Hl). reflexivity.
Qed.

(** X12: a text in which every line is empty, starts with white space,
    or starts with [def] or [class] (the headers of definitions and their
    indented documentation) is returned as it is by
    [remove_start_end_lines]. *)
Theorem remove_start_end_lines_keeps_headers (docstrings : string) :
  lines_ok true docstrings = true ->
  remove_start_end_lines docstrings = docstrings.
Proof.
  intros H. unfold remove_start_end_lines.
  rewrite <- (append_empty_r docstrings) at 1.
  rewrite (sub_framing_keeps docstrings "" true H).
  destruct (bol_after true docstrings); apply append_empty_r.
Qed.

(** X13: for a generated text made of an opening line [start], or a
    fence, then lines that are empty, indented or start with [def] or
    [class], each with its line end, then a last line [end], or a fence,
    [remove_start_end_lines] returns the lines in between as they are,
    after the line end of the opening line: the two framing lines are
    emptied and nothing else changes. *)
Theorem remove_start_end_lines_strips_framing (opening closing body : string) :
  In opening ["start"; backticks ++ "python"; backticks; "end"]%string ->
  In closing ["end"; backticks; "start"; backticks ++ "python"]%string ->
  lines_ok true body = true ->
  bol_after true body = true ->
  remove_start_end_lines (opening ++ String PyStr.nl (body ++ closing))
  = String PyStr.nl body.
Proof.
  intros Ho Hc Hb He. unfold remove_start_end_lines.
  assert (C : sub_framing O true closing = "").
  { cbn [In] in Hc.
    destruct Hc as [<- | [<- | [<- | [<- | []]]]]; reflexivity. }
  assert (O : forall rest,
             sub_framing O true (opening ++ String PyStr.nl rest)
             = String PyStr.nl (sub_framing O true rest)).
  { intros rest. cbn [In] in Ho.
    destruct Ho as [<- | [<- | [<- | [<- | []]]]]; reflexivity. }
  rewrite O, (sub_framing_keeps body closing true Hb), He, C, append_empty_r.
  reflexivity.
Qed.

Lemma sub_framing_shorter (skip : nat) (bol : bool) (s : string) :
  (String.length (sub_framing skip bol s) <= String.length s)%nat.
Proof.
  revert skip bol. induction s as [|c s IH]; intros skip bol; [simpl; lia|].
  cbn [sub_framing].
  destruct skip as [|k].
  - destruct (if bol then framing_match (String c s) else None) as [[|k]|];
      cbn [String.length].
    + specialize (IH O (Ascii.eqb c PyStr.nl)). lia.
    + specialize (IH k (Ascii.eqb c PyStr.nl)). lia.
    + specialize (IH O (Ascii.eqb c PyStr.nl)). lia.
  - cbn [String.length]. specialize (IH k (Ascii.eqb c PyStr.nl)). lia.
Qed.

(** X14: [remove_start_end_lines] only removes: its result is never
    longer than the text it was given. *)
Theorem remove_start_end_lines_never_longer (docstrings : string) :
  (String.length (remove_start_end_lines docstrings)
   <= String.length docstrings)%nat.
Proof. apply sub_framing_shorter. Qed.

End Cleaning.

(** ** What [create_docstrings] asks for, returns and writes *)

Section Generating.

Context {ext : Externals} {gen : Generation}.

Lemma count_calls_app (evs1 evs2 : list gen_event) :
  count_calls (evs1 ++ evs2) = (count_calls evs1 + count_calls evs2)%nat.
Proof.
  induction evs1 as [|e evs1 IH]; simpl; [reflexivity|].
  destruct e; simpl; rewrite IH; reflexivity.
Qed.

(** [split] and [join] at the line end are inverse. *)
Lemma join_split_nl (s : string) :
  PyStr.join PyStr.newline (PyStr.split_nl s) = s.
Proof.
  unfold PyStr.join. induction s as [|c s IH]; [reflexivity|].
  cbn [PyStr.split_nl].
  destruct (Ascii.eqb c PyStr.nl) eqn:E.
  - apply Ascii.eqb_eq in E. subst c.
    pose proof (split_nl_nonempty s) as N.
    destruct (PyStr.split_nl s) as [|h t] eqn:Hs; [contradiction|].
    change (String.concat PyStr.newline ("" :: h :: t))
      with (String PyStr.nl (String.concat PyStr.newline (h :: t))).
    rewrite IH. reflexivity.
  - pose proof (split_nl_nonempty s) as N.
    destruct (PyStr.split_nl s) as [|h t] eqn:Hs; [contradiction|].
    rewrite <- IH. destruct t; reflexivity.
Qed.

(** The two tests that lead to the branches that send the whole file. *)
Lemma create_docstrings_direct (code : string) (info : option string)
      (max_lno : Z) (Model cost : string) (wr : bool) :
  (cost = "cheap" /\ (no_lines code <= 300 \/ no_lines code <= max_lno))
  \/ (cost = "expensive" /\ no_lines code <= max_lno) ->
  create_docstrings code info max_lno Model cost wr =
  (present <- glift (class_or_func_present code) ;;
   if (present : bool)
   then (if no_lines code <=? 300
         then (if String.eqb cost "cheap"
               then generate_whole_code code info wr
               else generate_docstrings code info Model wr)
         else generate_docstrings code info Model wr)
   else gret (Some ""))%gen.
Proof.
  unfold create_docstrings, no_lines.
  set (n := PyList.len (PyStr.readlines code)).
  intros [[-> Hn] | [-> Hn]]; cbn [String.eqb Ascii.eqb Bool.eqb andb orb].
  - destruct (n <=? 300) eqn:H300; cbn [andb orb].
    + reflexivity.
    + assert (H1 : (300 <? n) = true) by lia.
      assert (H2 : (n <=? max_lno) = true) by lia.
      rewrite H1, H2. reflexivity.
  - rewrite Bool.andb_false_r.
    assert (H2 : (n <=? max_lno) = true) by lia.
    rewrite H2. cbn [andb orb].
    destruct (n <=? 300); reflexivity.
Qed.

(** X15: a file that is sent whole is sent only when a class or a function
    is found in it: when none is found the result is the empty text, when
    the text cannot be parsed the error of the parser leaves the function,
    and in both cases there is no call and nothing is written. *)
Theorem create_docstrings_sends_definitions_only (code : string)
        (info : option string) (max_lno : Z) (Model cost : string) (wr : bool)
        (w : gen_world) :
  (cost = "cheap" /\ (no_lines code <= 300 \/ no_lines code <= max_lno))
  \/ (cost = "expensive" /\ no_lines code <= max_lno) ->
  class_or_func_present code <> Ok true ->
  create_docstrings code info max_lno Model cost wr w =
  (match class_or_func_present code with
   | Ok _ => Ok (Some "")
   | Raise e => Raise e
   end, w).
Proof.
  intros Hd Hp. rewrite (create_docstrings_direct _ _ _ _ _ _ Hd).
  unfold gbind, glift, gret.
  destruct (class_or_func_present code) as [[|]|e];
    [congruence | reflexivity | reflexivity].
Qed.

(** X16: with the cost [cheap], a file of at most 300 lines is handled the
    same way whatever [max_lno] and [Model] are: it is sent whole also when
    it has more than [max_lno] lines. *)
Theorem cheap_small_file_ignores_max_lno_and_model (code : string)
        (info : option string) (max_lno max_lno' : Z) (Model Model' : string)
        (wr : bool) :
  no_lines code <= 300 ->
  create_docstrings code info max_lno Model "cheap" wr =
  create_docstrings code info max_lno' Model' "cheap" wr.
Proof.
  intros H. unfold create_docstrings. fold (no_lines code).
  assert (E : (no_lines code <=? 300) = true) by lia.
  rewrite E. reflexivity.
Qed.

Lemma generate_whole_code_some (code : string) (info : option string)
      (wr : bool) (w : gen_world) :
  fst (generate_whole_code code info wr w) <> Ok None.
Proof.
  unfold generate_whole_code, call_gptapi, gbind, glift, gret, write_gpt_file.
  repeat match goal with
         | |- context [match ?x with _ => _ end] => destruct x; cbn [fst]
         end; discriminate.
Qed.

Lemma generate_docstrings_some (code : string) (info : option string)
      (Model : string) (wr : bool) (w : gen_world) :
  fst (generate_docstrings code info Model wr w) <> Ok None.
Proof.
  unfold generate_docstrings, call_gptapi, gbind, glift, gret, write_gpt_file.
  repeat match goal with
         | |- context [match ?x with _ => _ end] => destruct x; cbn [fst]
         end; discriminate.
Qed.

Lemma generate_by_snippets_some (code : string) (info : option string)
      (max_lno : Z) (Model : string) (wr : bool) (w : gen_world) :
  fst (generate_by_snippets code info max_lno Model wr w) <> Ok None.
Proof.
  unfold generate_by_snippets, gbind, glift, gret.
  destruct (code_info code); cbn [fst]; [|discriminate].
  destruct (make_snippets code max_lno); cbn [fst]; [|discriminate].
  match goal with
  | |- context [snippet_loop ?a ?b ?c ?d ?e ?f] =>
      destruct (snippet_loop a b c d e f) as [[r|e'] w']
  end; cbn [fst]; discriminate.
Qed.

(** X17: [create_docstrings] ends without a result exactly when the file
    has at most [max_lno] lines and the cost is neither [cheap] nor
    [expensive]; a caller that uses the result as a text gets [None]
    there. *)
Theorem create_docstrings_no_result_iff (code : string) (info : option string)
        (max_lno : Z) (Model cost : string) (wr : bool) (w : gen_world) :
  fst (create_docstrings code info max_lno Model cost wr w) = Ok None
  <-> no_lines code <= max_lno /\ cost <> "cheap" /\ cost <> "expensive".
Proof.
  unfold create_docstrings. fold (no_lines code).
  set (n := no_lines code).
  destruct ((n <=? 300) && String.eqb cost "cheap") eqn:B1.
  - apply andb_true_iff in B1 as [_ Hc]. apply String.eqb_eq in Hc.
    split; [|intros (_ & N & _); contradiction].
    intros Habs. exfalso. revert Habs. unfold gbind, glift, gret.
    destruct (class_or_func_present code) as [[|]|e]; cbn [fst];
      try discriminate.
    apply generate_whole_code_some.
  - destruct (((n <=? max_lno) && String.eqb cost "expensive")
              || ((300 <? n) && (n <=? max_lno) && String.eqb cost "cheap")) eqn:B2.
    + split.
      * intros Habs. exfalso. revert Habs. unfold gbind, glift, gret.
        destruct (class_or_func_present code) as [[|]|e]; cbn [fst];
          try discriminate.
        apply generate_docstrings_some.
      * intros (_ & Nc & Ne). exfalso.
        apply orb_true_iff in B2 as [B2|B2];
          apply andb_true_iff in B2 as [_ B2]; apply String.eqb_eq in B2;
          contradiction.
    + destruct (max_lno <? n) eqn:B3.
      * split; [|lia].
        intros Habs. exfalso. revert Habs. apply generate_by_snippets_some.
      * split; [intros _ | reflexivity].
        split; [lia|].
        split; intros ->; cbn [String.eqb Ascii.eqb Bool.eqb] in B1, B2;
          rewrite ?andb_true_r, ?andb_false_r, ?orb_false_r in B1, B2;
          cbn [orb] in B2; try apply andb_false_iff in B2; lia.
Qed.

Lemma py_get_first (A : Type) (x : A) (l : list A) : py_get (x :: l) 0 = Ok x.
Proof.
  unfold py_get, PyList.len. cbn [length]. z_tests. reflexivity.
Qed.

Lemma py_get_last (A : Type) (l : list A) (x : A) : py_get (l ++ [x]) (-1) = Ok x.
Proof.
  unfold py_get, PyList.len. rewrite length_app. cbn [length]. z_tests.
  replace (Z.to_nat (-1 + Z.of_nat (length l + 1))) with (length l) by lia.
  rewrite nth_error_app2 by lia. rewrite Nat.sub_diag. reflexivity.
Qed.

Lemma py_get_empty (A : Type) (i : Z) : py_get (@nil A) i = Raise IndexError.
Proof.
  unfold py_get, PyList.len. cbn [length Z.of_nat]. z_tests; reflexivity.
Qed.

Lemma del_first (A : Type) (x : A) (l : list A) : PyList.del (x :: l) 0 = Ok l.
Proof.
  unfold PyList.del, PyList.len. cbn [length]. z_tests. reflexivity.
Qed.

Lemma del_last (A : Type) (l : list A) (x : A) : PyList.del (l ++ [x]) (-1) = Ok l.
Proof.
  unfold PyList.del, PyList.len. rewrite length_app. cbn [length]. z_tests.
  replace (Z.to_nat (-1 + Z.of_nat (length l + 1))) with (length l) by lia.
  rewrite firstn_app, firstn_all, Nat.sub_diag. cbn [firstn].
  rewrite skipn_all2 by (rewrite length_app; cbn [length]; lia).
  rewrite !app_nil_r. reflexivity.
Qed.

(** A list that is not empty ends with its last element. *)
Lemma list_ends (A : Type) (d : A) (l : list A) :
  l <> [] -> l = removelast l ++ [last l d].
Proof. intros N. apply app_removelast_last. exact N. Qed.

(** The first branch of [create_docstrings], once a class or a function is
    found. *)
Lemma create_docstrings_whole_code (code : string) (info : option string)
      (max_lno : Z) (Model : string) (wr : bool) (w : gen_world) :
  no_lines code <= 300 ->
  class_or_func_present code = Ok true ->
  create_docstrings code info max_lno Model "cheap" wr w =
  generate_whole_code code info wr w.
Proof.
  intros Hn Hp. unfold create_docstrings. fold (no_lines code).
  assert (E : (no_lines code <=? 300) = true) by lia.
  rewrite E. cbn [String.eqb Ascii.eqb Bool.eqb andb].
  unfold gbind at 1, glift at 1. rewrite Hp. reflexivity.
Qed.

(** X18: in the branch that asks for the whole code, an answer whose first
    line does not start with three single quotes and [python], and whose
    last line does not start with three single quotes, is returned and
    written as it is; so is, in particular, an answer between lines of
    three backquotes. *)
Theorem whole_code_answer_kept (code : string) (info : option string)
        (max_lno : Z) (Model : string) (wr : bool) (w : gen_world)
        (answer : string) :
  no_lines code <= 300 ->
  class_or_func_present code = Ok true ->
  gptapi (gen_trace w) (whole_code_call code info) = Ok answer ->
  startswith (hd "" (PyStr.split_nl answer)) fence_python = false ->
  startswith (last (PyStr.split_nl answer) "") fence = false ->
  create_docstrings code info max_lno Model "cheap" wr w =
  (Ok (Some answer),
   mk_gen_world (if wr then Some answer else gpt_output w)
                (gen_trace w ++ GenCall (whole_code_call code info)
                           :: (if wr then [GenWrite answer] else []))).
Proof.
  intros Hn Hp Hg Hfirst Hlast.
  rewrite (create_docstrings_whole_code _ _ _ _ _ _ Hn Hp).
  unfold generate_whole_code, call_gptapi. fold (whole_code_call code info).
  unfold gbind at 1. rewrite Hg.
  pose proof (split_nl_nonempty answer) as N.
  pose proof (join_split_nl answer) as J.
  destruct (PyStr.split_nl answer) as [|first rest] eqn:Hs; [contradiction|].
  unfold gbind at 1, glift at 1. rewrite py_get_first.
  cbn [hd] in Hfirst. rewrite Hfirst.
  unfold gbind at 1, glift at 1.
  rewrite (list_ends _ "" (first :: rest) N) at 1.
  unfold gbind at 1, glift at 1. rewrite py_get_last. rewrite Hlast.
  unfold gbind at 1, glift at 1.
  rewrite J.
  destruct wr; unfold gbind, write_gpt_file, gret; cbn [gen_trace gpt_output].
  - rewrite <- app_assoc. reflexivity.
  - reflexivity.
Qed.

(** X19: in the same branch, a first line that starts with three single
    quotes and [python] and a last line that starts with three single
    quotes are dropped, whatever follows on them; the lines between them
    are the result and, if asked for, the content of the file. *)
Theorem whole_code_fences_dropped (code : string) (info : option string)
        (max_lno : Z) (Model : string) (wr : bool) (w : gen_world)
        (answer first last_ : string) (middle : list string) :
  no_lines code <= 300 ->
  class_or_func_present code = Ok true ->
  gptapi (gen_trace w) (whole_code_call code info) = Ok answer ->
  PyStr.split_nl answer = first :: middle ++ [last_] ->
  startswith first fence_python = true ->
  startswith last_ fence = true ->
  let body := PyStr.join PyStr.newline middle in
  create_docstrings code info max_lno Model "cheap" wr w =
  (Ok (Some body),
   mk_gen_world (if wr then Some body else gpt_output w)
                (gen_trace w ++ GenCall (whole_code_call code info)
                           :: (if wr then [GenWrite body] else []))).
Proof.
  intros Hn Hp Hg Hs Hfirst Hlast body.
  rewrite (create_docstrings_whole_code _ _ _ _ _ _ Hn Hp).
  unfold generate_whole_code, call_gptapi. fold (whole_code_call code info).
  unfold gbind at 1. rewrite Hg. rewrite Hs.
  unfold gbind at 1, glift at 1. rewrite py_get_first. rewrite Hfirst.
  unfold gbind at 1, glift at 1. rewrite del_first.
  unfold gbind at 1, glift at 1. rewrite py_get_last. rewrite Hlast.
  unfold gbind at 1, glift at 1. rewrite del_last.
  fold body.
  destruct wr; unfold gbind, write_gpt_file, gret; cbn [gen_trace gpt_output].
  - rewrite <- app_assoc. reflexivity.
  - reflexivity.
Qed.

(** X20: in the same branch, an answer of one line that starts with three
    single quotes and [python] leaves no line to look at after the first
    is dropped: [IndexError] leaves the function after the call, and
    nothing is written. *)
Theorem whole_code_single_fence_line_fails (code : string)
        (info : option string) (max_lno : Z) (Model : string) (wr : bool)
        (w : gen_world) (answer first : string) :
  no_lines code <= 300 ->
  class_or_func_present code = Ok true ->
  gptapi (gen_trace w) (whole_code_call code info) = Ok answer ->
  PyStr.split_nl answer = [first] ->
  startswith first fence_python = true ->
  create_docstrings code info max_lno Model "cheap" wr w =
  (Raise IndexError,
   mk_gen_world (gpt_output w)
                (gen_trace w ++ [GenCall (whole_code_call code info)])).
Proof.
  intros Hn Hp Hg Hs Hfirst.
  rewrite (create_docstrings_whole_code _ _ _ _ _ _ Hn Hp).
  unfold generate_whole_code, call_gptapi. fold (whole_code_call code info).
  unfold gbind at 1. rewrite Hg. rewrite Hs.
  unfold gbind at 1, glift at 1. rewrite py_get_first. rewrite Hfirst.
  unfold gbind at 1, glift at 1. rewrite del_first.
  unfold gbind at 1, glift at 1. rewrite py_get_empty. reflexivity.
Qed.

Lemma generate_whole_code_written (code : string) (info : option string)
      (w w' : gen_world) (r : string) :
  generate_whole_code code info true w = (Ok (Some r), w') ->
  gpt_output w' = Some r
  /\ count_calls (gen_trace w') = S (count_calls (gen_trace w)).
Proof.
  unfold generate_whole_code, call_gptapi, gbind, glift, gret, write_gpt_file.
  repeat match goal with
         | |- context [match ?x with _ => _ end] => destruct x
         end; try discriminate;
    intros H; injection H as Hr Hw; subst w'; cbn [gpt_output gen_trace];
    rewrite Hr; (split; [reflexivity|]);
    rewrite !count_calls_app; simpl; lia.
Qed.

Lemma generate_docstrings_written (code : string) (info : option string)
      (Model : string) (w w' : gen_world) (r : string) :
  generate_docstrings code info Model true w = (Ok (Some r), w') ->
  gpt_output w' = Some r
  /\ count_calls (gen_trace w') = S (count_calls (gen_trace w)).
Proof.
  unfold generate_docstrings, call_gptapi, gbind, glift, gret, write_gpt_file.
  repeat match goal with
         | |- context [match ?x with _ => _ end] => destruct x
         end; try discriminate;
    intros H; injection H as Hr Hw; subst w'; cbn [gpt_output gen_trace];
    rewrite Hr; (split; [reflexivity|]);
    rewrite !count_calls_app; simpl; lia.
Qed.

(** X21: when a file with a class or a function is sent whole and the
    output is to be written, a result comes from exactly one call, and the
    file at [gpt_path] then holds the result and nothing else: what the
    file held before is lost. *)
Theorem direct_result_is_file_content (code : string) (info : option string)
        (max_lno : Z) (Model cost : string) (w w' : gen_world) (r : option string) :
  (cost = "cheap" /\ (no_lines code <= 300 \/ no_lines code <= max_lno))
  \/ (cost = "expensive" /\ no_lines code <= max_lno) ->
  class_or_func_present code = Ok true ->
  create_docstrings code info max_lno Model cost true w = (Ok r, w') ->
  gpt_output w' = r
  /\ count_calls (gen_trace w') = S (count_calls (gen_trace w)).
Proof.
  intros Hd Hp. rewrite (create_docstrings_direct _ _ _ _ _ _ Hd).
  unfold gbind at 1, glift at 1. rewrite Hp.
  destruct r as [r|].
  - destruct (no_lines code <=? 300); [destruct (String.eqb cost "cheap")|];
      first [ apply generate_whole_code_written
            | apply generate_docstrings_written ].
  - intros H. exfalso.
    destruct (no_lines code <=? 300); [destruct (String.eqb cost "cheap")|];
      first [ apply (generate_whole_code_some code info true w);
              rewrite H; reflexivity
            | apply (generate_docstrings_some code info Model true w);
              rewrite H; reflexivity ].
Qed.

(** What the loop over the snippets returns, writes and calls. *)
Lemma snippet_loop_answers (code_snippets : list snippet) (info : option string)
      (Model : string) (wr : bool) (docstrings : string) (w w' : gen_world)
      (r : string) :
  snippet_loop code_snippets info Model wr docstrings w = (Ok r, w') ->
  exists answers : list string,
    length answers = length (filter snippet_is_sent code_snippets)
    /\ count_calls (gen_trace w')
       = (count_calls (gen_trace w) + length answers)%nat
    /\ r = (docstrings
            ++ PyStr.join "" (map (fun a => a ++ PyStr.newline) answers))%string
    /\ gpt_text w'
       = (gpt_text w
          ++ (if wr
              then PyStr.join ""
                     (map (fun a => a ++ PyStr.newline ++ PyStr.newline) answers)
              else ""))%string.
Proof.
  revert docstrings w.
  induction code_snippets as [|s rest IH]; intros docstrings w H.
  - cbn [snippet_loop] in H. unfold gret in H. injection H as <- <-.
    exists []. destruct wr; unfold PyStr.join;
      cbn [length filter map String.concat]; rewrite ?append_empty_r;
      repeat split; (reflexivity || lia).
  - cbn [snippet_loop] in H. cbn [filter]. unfold snippet_is_sent at 1.
    assert (Hsent :
      forall (H' : (answer <- call_gptapi (snippet_code s) command_snippet info Model ;;
                    (if wr
                     then append_gpt_file ((answer ++ PyStr.newline) ++ PyStr.newline)%string
                     else gret tt) ;;;
                    snippet_loop rest info Model wr
                                 (docstrings ++ (answer ++ PyStr.newline))%string)%gen w
                   = (Ok r, w')),
      exists answers : list string,
        length answers = S (length (filter snippet_is_sent rest))
        /\ count_calls (gen_trace w')
           = (count_calls (gen_trace w) + length answers)%nat
        /\ r = (docstrings
                ++ PyStr.join "" (map (fun a => a ++ PyStr.newline) answers))%string
        /\ gpt_text w'
           = (gpt_text w
              ++ (if wr
                  then PyStr.join ""
                         (map (fun a => a ++ PyStr.newline ++ PyStr.newline) answers)
                  else ""))%string).
    { intros H'. unfold gbind at 1, call_gptapi in H'.
      destruct (gptapi (gen_trace w)
                       (mk_call (snippet_code s) command_snippet info Model))
        as [answer|e]; [|discriminate].
      unfold gbind at 1 in H'.
      destruct wr.
      - unfold append_gpt_file in H'. cbn [gpt_output gen_trace] in H'.
        apply IH in H'. destruct H' as (answers & Hl & Hc & Hr & Hf).
        exists (answer :: answers). cbn [length map].
        rewrite join_empty_cons.
        split; [lia|]. split.
        + rewrite Hc. cbn [gen_trace]. rewrite !count_calls_app. simpl. lia.
        + split.
          * rewrite Hr. rewrite !append_assoc. reflexivity.
          * rewrite Hf. unfold gpt_text at 1. cbn [gpt_output].
            rewrite join_empty_cons. fold (gpt_text w).
            rewrite !append_assoc. reflexivity.
      - unfold gret in H'.
        apply IH in H'. destruct H' as (answers & Hl & Hc & Hr & Hf).
        exists (answer :: answers). cbn [length map].
        rewrite join_empty_cons.
        split; [lia|]. split.
        + rewrite Hc. cbn [gen_trace]. rewrite !count_calls_app. simpl. lia.
        + split.
          * rewrite Hr. rewrite !append_assoc. reflexivity.
          * rewrite Hf. unfold gpt_text. cbn [gpt_output]. reflexivity. }
    destruct (class_or_func_present (snippet_code s)) as [[|]|e].
    + cbn [length]. apply Hsent. exact H.
    + apply IH. exact H.
    + cbn [length]. apply Hsent. exact H.
Qed.

(** The third branch of [create_docstrings]. *)
Lemma create_docstrings_by_snippets (code : string) (info : option string)
      (max_lno : Z) (Model cost : string) (wr : bool) :
  max_lno < no_lines code ->
  300 < no_lines code \/ cost <> "cheap" ->
  create_docstrings code info max_lno Model cost wr =
  generate_by_snippets code info max_lno Model wr.
Proof.
  intros Hm Hc. unfold create_docstrings. fold (no_lines code).
  assert (E1 : ((no_lines code <=? 300) && String.eqb cost "cheap") = false).
  { apply andb_false_iff. destruct Hc as [Hc|Hc]; [left; lia|].
    right. apply String.eqb_neq. exact Hc. }
  assert (E2 : (no_lines code <=? max_lno) = false) by lia.
  assert (E3 : (max_lno <? no_lines code) = true) by lia.
  rewrite E1, E2, E3. rewrite andb_false_r. reflexivity.
Qed.

(** X22: when the file is handled by snippets and a result comes back, the
    collaborator was called once for each snippet in which a class or a
    function is found or whose text cannot be parsed, and for no other;
    the result is the answers, each followed by a line end; and the file
    at [gpt_path], if it is to be written, keeps what it held and gets the
    answers after it, each followed by two line ends. *)
Theorem snippets_answers_appended (code : string) (info : option string)
        (max_lno : Z) (Model cost : string) (wr : bool) (w w' : gen_world)
        (code_snippets : list snippet) (r : option string) :
  max_lno < no_lines code ->
  300 < no_lines code \/ cost <> "cheap" ->
  make_snippets code max_lno = Ok code_snippets ->
  create_docstrings code info max_lno Model cost wr w = (Ok r, w') ->
  exists answers : list string,
    length answers = length (filter snippet_is_sent code_snippets)
    /\ count_calls (gen_trace w')
       = (count_calls (gen_trace w) + length answers)%nat
    /\ r = Some (PyStr.join "" (map (fun a => a ++ PyStr.newline)%string answers))
    /\ gpt_text w'
       = (gpt_text w
          ++ (if wr
              then PyStr.join ""
                     (map (fun a => a ++ PyStr.newline ++ PyStr.newline) answers)
              else ""))%string.
Proof.
  intros Hm Hc Hs. rewrite (create_docstrings_by_snippets _ _ _ _ _ _ Hm Hc).
  unfold generate_by_snippets. unfold gbind at 1, glift at 1.
  destruct (code_info code) as [file_info|e]; [|discriminate].
  unfold gbind at 1, glift at 1. rewrite Hs.
  unfold gbind at 1.
  match goal with
  | |- context [snippet_loop ?a ?b ?c ?d ?e ?f] =>
      destruct (snippet_loop a b c d e f) as [[r0|e0] w0] eqn:Hl
  end; [|discriminate].
  unfold gret. intros H. injection H as <- <-.
  apply snippet_loop_answers in Hl.
  destruct Hl as (answers & H1 & H2 & H3 & H4).
  exists answers. repeat split; try assumption.
  rewrite H3. reflexivity.
Qed.

End Generating.

(** ** The counts of the cost estimate *)

Section Counting.

Lemma count_lines_bounds (text : string) :
  0 <= count_lines text <= no_lines text.
Proof.
  unfold count_lines, no_lines, PyList.len.
  pose proof (filter_length_le
                (fun line => negb (String.eqb (PyStr.strip line) ""))
                (PyStr.readlines text)).
  lia.
Qed.

(** The words of the content of a file are the words of the text read
    from it. *)
Lemma count_runs_read (in_word after_cr : bool) (s : string) :
  (after_cr = true -> in_word = false) ->
  count_runs in_word (PyStr.universal_newlines_from after_cr s)
  = count_runs in_word s.
Proof.
  revert in_word after_cr.
  induction s as [|c s IH]; intros in_word after_cr H; [reflexivity|].
  cbn [PyStr.universal_newlines_from count_runs].
  destruct (Ascii.eqb c PyStr.cr) eqn:Ec.
  - apply Ascii.eqb_eq in Ec. subst c. cbn [count_runs].
    change (Regex.is_word PyStr.nl) with false.
    change (Regex.is_word PyStr.cr) with false.
    apply IH. reflexivity.
  - destruct (Ascii.eqb c PyStr.nl) eqn:En.
    + apply Ascii.eqb_eq in En. subst c.
      change (Regex.is_word PyStr.nl) with false.
      destruct after_cr; cbn [andb].
      * rewrite (H eq_refl). apply IH. discriminate.
      * cbn [count_runs]. change (Regex.is_word PyStr.nl) with false.
        apply IH. discriminate.
    + cbn [andb count_runs]. destruct (Regex.is_word c).
      * f_equal. apply IH. discriminate.
      * apply IH. discriminate.
Qed.

Lemma count_words_read (content : string) :
  count_words (PyStr.universal_newlines content) = count_words content.
Proof. apply count_runs_read. discriminate. Qed.

Lemma count_runs_nonneg (in_word : bool) (s : string) : 0 <= count_runs in_word s.
Proof.
  revert in_word. induction s as [|c s IH]; intros in_word; cbn [count_runs];
    [lia|].
  destruct (Regex.is_word c); [|apply IH].
  pose proof (IH true). destruct in_word; lia.
Qed.

Lemma count_file_bounded (max_lno : Z) (acc : counts) (file : walked_file) :
  counts_bounded max_lno acc -> counts_bounded max_lno (count_file max_lno acc file).
Proof.
  unfold counts_bounded, count_file. intros (H1 & H2 & H3 & H4).
  pose proof (count_lines_bounds (walked_text file)) as Hl.
  pose proof (count_runs_nonneg false (walked_text file)) as Hw.
  fold (count_words (walked_text file)) in Hw.
  destruct (endswith (walked_name file) ".py").
  - destruct (Z.ltb_spec max_lno (count_lines (walked_text file)));
      cbn [total_lines total_words num_files_above_max lines_above_max];
      repeat split; lia.
  - destruct (endswith (walked_name file) ".rst" || endswith (walked_name file) ".md");
      cbn [total_lines total_words num_files_above_max lines_above_max];
      repeat split; lia.
Qed.

Lemma fold_count_file_bounded (max_lno : Z) (files : list walked_file)
      (acc : counts) :
  counts_bounded max_lno acc ->
  counts_bounded max_lno (fold_left (count_file max_lno) files acc).
Proof.
  revert acc. induction files as [|f files IH]; intros acc H; cbn [fold_left];
    [exact H|].
  apply IH. apply count_file_bounded. exact H.
Qed.

(** X23: of the numbers [count_code_and_words] returns, the lines of the
    files above [max_lno] are between 0 and the lines of all files; every
    file counted as above [max_lno] brings more than [max_lno] lines; and
    no number is negative. *)
Theorem count_code_and_words_bounds (files : list walked_file) (max_lno : Z) :
  let c := count_code_and_words files max_lno in
  0 <= lines_above_max c <= total_lines c
  /\ 0 <= num_files_above_max c
  /\ num_files_above_max c * (max_lno + 1) <= lines_above_max c
  /\ 0 <= total_words c.
Proof.
  apply (fold_count_file_bounded max_lno files (mk_counts 0 0 0 0)).
  unfold counts_bounded.
  cbn [total_lines total_words num_files_above_max lines_above_max]. lia.
Qed.

Lemma count_file_swap (max_lno : Z) (acc : counts) (a b : walked_file) :
  count_file max_lno (count_file max_lno acc a) b
  = count_file max_lno (count_file max_lno acc b) a.
Proof.
  unfold count_file.
  destruct (endswith (walked_name a) ".py");
    destruct (endswith (walked_name b) ".py");
    destruct (max_lno <? count_lines (walked_text a));
    destruct (max_lno <? count_lines (walked_text b));
    destruct (endswith (walked_name a) ".rst" || endswith (walked_name a) ".md");
    destruct (endswith (walked_name b) ".rst" || endswith (walked_name b) ".md");
    cbn [total_lines total_words num_files_above_max lines_above_max];
    try reflexivity; f_equal; lia.
Qed.

Lemma fold_count_file_permutation (max_lno : Z) (files files' : list walked_file) :
  Permutation files files' ->
  forall acc, fold_left (count_file max_lno) files acc
              = fold_left (count_file max_lno) files' acc.
Proof.
  induction 1 as [| x l l' _ IH | x y l | l l' l'' _ IH1 _ IH2]; intros acc;
    cbn [fold_left].
  - reflexivity.
  - apply IH.
  - rewrite count_file_swap. reflexivity.
  - rewrite IH1. apply IH2.
Qed.

(** X24: the numbers of [count_code_and_words] do not depend on the order
    in which the files of the directory are met. *)
Theorem count_code_and_words_any_order (files files' : list walked_file)
        (max_lno : Z) :
  Permutation files files' ->
  count_code_and_words files max_lno = count_code_and_words files' max_lno.
Proof.
  intros H. unfold count_code_and_words.
  apply fold_count_file_permutation. exact H.
Qed.

End Counting.

Section EstimateAndSplit.

Context {ext : Externals} {gen : Generation}.

(** X25: the estimate counts the lines that are not blank and
    [create_docstrings] all lines, so a file that the estimate counts as
    above [max_lno], with [max_lno] at least 300, is one that
    [create_docstrings] handles by snippets, whatever the cost. *)
Theorem counted_above_max_is_split (code : string) (info : option string)
        (max_lno : Z) (Model cost : string) (wr : bool) :
  300 <= max_lno ->
  max_lno < count_lines code ->
  create_docstrings code info max_lno Model cost wr
  = generate_by_snippets code info max_lno Model wr.
Proof.
  intros H300 Hc. pose proof (count_lines_bounds code) as Hb.
  apply create_docstrings_by_snippets; [lia | left; lia].
Qed.

End EstimateAndSplit.

(** ** The properties on the texts of the cases *)

Lemma insert_docstrings_one_write_per_inserted_node_witness :
  @insert_docstrings Examples.twice_ext Examples.doc_text_f Examples.twice_world
  = (Ok Cases.twice_report, Cases.twice_after)
  /\ exists evs,
       trace Cases.twice_after = trace Examples.twice_world ++ evs
       /\ count_writes evs = length (numb_inserted_nodes Cases.twice_report).
Proof.
  assert (H : @insert_docstrings Examples.twice_ext Examples.doc_text_f
                Examples.twice_world
              = (Ok Cases.twice_report, Cases.twice_after))
    by (vm_compute; reflexivity).
  split; [exact H|].
  exact (@insert_docstrings_one_write_per_inserted_node Examples.twice_ext
           Examples.doc_text_f Cases.twice_report Examples.twice_world
           Cases.twice_after H).
Defined.

Lemma insert_docstrings_one_call_per_node_at_most_witness :
  @insert_docstrings Examples.twice_ext Examples.doc_text_f Examples.twice_world
  = (Ok Cases.twice_report, Cases.twice_after)
  /\ exists evs,
       trace Cases.twice_after = trace Examples.twice_world ++ evs
       /\ (count_gpt evs <= length (numb_node_doc Cases.twice_report))%nat.
Proof.
  assert (H : @insert_docstrings Examples.twice_ext Examples.doc_text_f
                Examples.twice_world
              = (Ok Cases.twice_report, Cases.twice_after))
    by (vm_compute; reflexivity).
  split; [exact H|].
  exact (@insert_docstrings_one_call_per_node_at_most Examples.twice_ext
           Examples.doc_text_f Cases.twice_report Examples.twice_world
           Cases.twice_after H).
Defined.

Lemma no_match_iff_no_definition_has_key_witness :
  @insert_1_docstring Examples.twice_ext ([], Examples.doc_add) Examples.twice_world
  = (Ok None, log (EvParse Examples.twice_text) Examples.twice_world)
  <-> forall c, In c (document_order Examples.twice_tree) ->
                is_class_or_func (snd c) = true ->
                @compute_key Examples.twice_ext c
                <> @compute_key Examples.twice_ext ([], Examples.doc_add).
Proof.
  apply (@no_match_iff_no_definition_has_key Examples.twice_ext
           ([], Examples.doc_add) Examples.twice_tree Examples.twice_world);
    reflexivity.
Defined.

Lemma class_or_func_present_at_any_depth_witness :
  @class_or_func_present Cases.under_if_ext Cases.under_if_text
  = Ok (existsb has_class_or_func (mod_body Cases.under_if_tree)).
Proof.
  apply (@class_or_func_present_at_any_depth Cases.under_if_ext
           Cases.under_if_text Cases.under_if_tree).
  reflexivity.
Defined.

Lemma find_end_of_definition_between_witness :
  lineno (pos_of Examples.f_lambda) < 3
  <= lineno (pos_of (Examples.simple_stmt 4 4))
  /\ 3 - 1 <= PyList.len Examples.lambda_lines.
Proof.
  apply (find_end_of_definition_between Examples.f_lambda
           (Examples.simple_stmt 4 4) Examples.lambda_lines 3).
  - reflexivity.
  - simpl. lia.
  - simpl. lia.
  - vm_compute. reflexivity.
Defined.

Lemma one_line_definition_stops_the_loop_witness :
  find_end_of_definition (PyStr.readlines Cases.one_line_text) Cases.f_one_line
  = Raise UnboundLocalError
  /\ @insert_loop Cases.one_line_ext [([], Examples.doc_f)] Cases.one_line_world
     = (Raise UnboundLocalError,
        log (EvParse Cases.one_line_text) Cases.one_line_world).
Proof.
  apply (@one_line_definition_stops_the_loop Cases.one_line_ext
           ([], Examples.doc_f) ([], Cases.f_one_line)
           (Examples.simple_stmt 1 9) [] Cases.one_line_tree
           Cases.one_line_world).
  - reflexivity.
  - vm_compute. reflexivity.
  - reflexivity.
  - reflexivity.
  - simpl. lia.
Defined.

Lemma missing_text_keeps_old_block_witness :
  @insert_1_docstring Cases.old_ext ([], Examples.f_first) Examples.old_world
  = (Raise AttributeError, log (EvParse Examples.old_text) Examples.old_world)
  /\ @insert_loop Cases.old_ext [([], Examples.f_first)] Examples.old_world
     = (Ok [false], log (EvParse Examples.old_text) Examples.old_world).
Proof.
  apply (@missing_text_keeps_old_block Cases.old_ext ([], Examples.f_first)
           ([], Examples.f_old) [] Examples.old_tree "old"%string
           Examples.old_world).
  - reflexivity.
  - vm_compute. reflexivity.
  - vm_compute. reflexivity.
  - reflexivity.
Defined.

Lemma missing_text_rewrites_same_file_witness :
  @insert_1_docstring Examples.twice_ext ([], Examples.f_first) Examples.twice_world
  = (Ok (Some ([], Examples.f_first)),
     mk_world Examples.twice_text
              [EvParse Examples.twice_text; EvWrite Examples.twice_text])
  /\ (PyStr.has_cr Examples.twice_text = false ->
      Examples.twice_text = Examples.twice_text)
  /\ (forall rest,
         @insert_loop Examples.twice_ext (([], Examples.f_first) :: rest)
                      Examples.twice_world =
         match @insert_loop Examples.twice_ext rest
                 (mk_world Examples.twice_text
                    [EvParse Examples.twice_text; EvWrite Examples.twice_text])
         with
         | (Ok flags, w2) => (Ok (true :: flags), w2)
         | (Raise e', w2) => (Raise e', w2)
         end).
Proof.
  apply (@missing_text_rewrites_same_file Examples.twice_ext
           ([], Examples.f_first) ([], Examples.f_first) Examples.twice_tree 2
           Examples.twice_world).
  - reflexivity.
  - vm_compute. reflexivity.
  - reflexivity.
  - reflexivity.
  - vm_compute. reflexivity.
  - reflexivity.
Defined.

Lemma remove_start_end_lines_keeps_headers_witness :
  remove_start_end_lines Examples.doc_text_f = Examples.doc_text_f.
Proof.
  apply (remove_start_end_lines_keeps_headers Examples.doc_text_f).
  vm_compute. reflexivity.
Defined.

Lemma remove_start_end_lines_strips_framing_witness :
  remove_start_end_lines
    ("start" ++ String PyStr.nl (Examples.doc_text_f ++ "end"))
  = String PyStr.nl Examples.doc_text_f.
Proof.
  apply (remove_start_end_lines_strips_framing "start" "end" Examples.doc_text_f).
  - simpl. auto.
  - simpl. auto.
  - vm_compute. reflexivity.
  - vm_compute. reflexivity.
Defined.

Lemma create_docstrings_sends_definitions_only_witness :
  @create_docstrings Examples.async_ext (Cases.fixed_gen "answer" [])
    Examples.async_text None 300 "gpt-4" "cheap" true Cases.no_output
  = (Ok (Some ""), Cases.no_output).
Proof.
  apply (@create_docstrings_sends_definitions_only Examples.async_ext
           (Cases.fixed_gen "answer" []) Examples.async_text None 300 "gpt-4"
           "cheap" true Cases.no_output).
  - left. split; [reflexivity|]. left. vm_compute. discriminate.
  - vm_compute. discriminate.
Defined.

Lemma cheap_small_file_ignores_max_lno_and_model_witness :
  @create_docstrings Examples.twice_ext (Cases.fixed_gen "answer" [])
    Examples.twice_text None 1 "gpt-4" "cheap" true
  = @create_docstrings Examples.twice_ext (Cases.fixed_gen "answer" [])
      Examples.twice_text None 300 "gpt-4-32k" "cheap" true.
Proof.
  apply (@cheap_small_file_ignores_max_lno_and_model Examples.twice_ext
           (Cases.fixed_gen "answer" []) Examples.twice_text None 1 300
           "gpt-4" "gpt-4-32k" true).
  vm_compute. discriminate.
Defined.

Lemma whole_code_answer_kept_witness :
  @create_docstrings Examples.twice_ext (Cases.fixed_gen Cases.backquoted_answer [])
    Examples.twice_text None 300 "gpt-4" "cheap" true Cases.no_output
  = (Ok (Some Cases.backquoted_answer),
     mk_gen_world (Some Cases.backquoted_answer)
                  [GenCall (whole_code_call Examples.twice_text None);
                   GenWrite Cases.backquoted_answer]).
Proof.
  apply (@whole_code_answer_kept Examples.twice_ext
           (Cases.fixed_gen Cases.backquoted_answer []) Examples.twice_text
           None 300 "gpt-4" true Cases.no_output Cases.backquoted_answer).
  - vm_compute. discriminate.
  - vm_compute. reflexivity.
  - reflexivity.
  - vm_compute. reflexivity.
  - vm_compute. reflexivity.
Defined.

Lemma whole_code_fences_dropped_witness :
  @create_docstrings Examples.twice_ext (Cases.fixed_gen Cases.quoted_answer [])
    Examples.twice_text None 300 "gpt-4" "cheap" true Cases.no_output
  = (Ok (Some (PyStr.join PyStr.newline Cases.answer_lines)),
     mk_gen_world (Some (PyStr.join PyStr.newline Cases.answer_lines))
                  [GenCall (whole_code_call Examples.twice_text None);
                   GenWrite (PyStr.join PyStr.newline Cases.answer_lines)]).
Proof.
  apply (@whole_code_fences_dropped Examples.twice_ext
           (Cases.fixed_gen Cases.quoted_answer []) Examples.twice_text
           None 300 "gpt-4" true Cases.no_output Cases.quoted_answer
           fence_python fence Cases.answer_lines).
  - vm_compute. discriminate.
  - vm_compute. reflexivity.
  - reflexivity.
  - vm_compute. reflexivity.
  - vm_compute. reflexivity.
  - vm_compute. reflexivity.
Defined.

Lemma whole_code_single_fence_line_fails_witness :
  @create_docstrings Examples.twice_ext (Cases.fixed_gen fence_python [])
    Examples.twice_text None 300 "gpt-4" "cheap" true Cases.no_output
  = (Raise IndexError,
     mk_gen_world None [GenCall (whole_code_call Examples.twice_text None)]).
Proof.
  apply (@whole_code_single_fence_line_fails Examples.twice_ext
           (Cases.fixed_gen fence_python []) Examples.twice_text
           None 300 "gpt-4" true Cases.no_output fence_python fence_python).
  - vm_compute. discriminate.
  - vm_compute. reflexivity.
  - reflexivity.
  - vm_compute. reflexivity.
  - vm_compute. reflexivity.
Defined.

Lemma direct_result_is_file_content_witness :
  gpt_output
    (mk_gen_world (Some "answer")
       [GenCall (mk_call Examples.twice_text command_docstrings_only None "gpt-4");
        GenWrite "answer"])
  = Some "answer"%string
  /\ count_calls
       [GenCall (mk_call Examples.twice_text command_docstrings_only None "gpt-4");
        GenWrite "answer"]
     = S (count_calls (gen_trace Cases.old_output)).
Proof.
  apply (@direct_result_is_file_content Examples.twice_ext
           (Cases.fixed_gen "answer" []) Examples.twice_text None 300 "gpt-4"
           "expensive" Cases.old_output
           (mk_gen_world (Some "answer")
              [GenCall (mk_call Examples.twice_text command_docstrings_only
                                None "gpt-4");
               GenWrite "answer"])
           (Some "answer"%string)).
  - right. split; [reflexivity|]. vm_compute. discriminate.
  - vm_compute. reflexivity.
  - vm_compute. reflexivity.
Defined.

Lemma snippets_answers_appended_witness :
  exists answers : list string,
    length answers = length (filter (@snippet_is_sent Cases.snippets_ext)
                                    Cases.three_snippets)
    /\ count_calls
         [GenCall (Cases.snippet_call Examples.twice_text);
          GenAppend (Examples.ln (Examples.ln "answer"));
          GenCall (Cases.snippet_call "def (");
          GenAppend (Examples.ln (Examples.ln "answer"))]
       = (count_calls (gen_trace Cases.old_output) + length answers)%nat
    /\ Some (Examples.ln "answer" ++ Examples.ln "answer")%string
       = Some (PyStr.join "" (map (fun a => a ++ PyStr.newline)%string answers))
    /\ ("old" ++ Examples.ln (Examples.ln "answer")
              ++ Examples.ln (Examples.ln "answer"))%string
       = (gpt_text Cases.old_output
          ++ PyStr.join ""
               (map (fun a => a ++ PyStr.newline ++ PyStr.newline) answers))%string.
Proof.
  apply (@snippets_answers_appended Cases.snippets_ext
           (Cases.fixed_gen "answer" Cases.three_snippets) Examples.twice_text
           None 1 "gpt-4" "expensive" true Cases.old_output
           (mk_gen_world
              (Some ("old" ++ Examples.ln (Examples.ln "answer")
                           ++ Examples.ln (Examples.ln "answer"))%string)
              [GenCall (Cases.snippet_call Examples.twice_text);
               GenAppend (Examples.ln (Examples.ln "answer"));
               GenCall (Cases.snippet_call "def (");
               GenAppend (Examples.ln (Examples.ln "answer"))])
           Cases.three_snippets
           (Some (Examples.ln "answer" ++ Examples.ln "answer")%string)).
  - vm_compute. reflexivity.
  - right. discriminate.
  - reflexivity.
  - vm_compute. reflexivity.
Defined.

Lemma count_code_and_words_any_order_witness :
  count_code_and_words [Cases.walked_code; Cases.walked_readme] 300
  = count_code_and_words [Cases.walked_readme; Cases.walked_code] 300.
Proof.
  apply (count_code_and_words_any_order
           [Cases.walked_code; Cases.walked_readme]
           [Cases.walked_readme; Cases.walked_code] 300).
  apply perm_swap.
Defined.

Lemma counted_above_max_is_split_witness :
  @create_docstrings Examples.twice_ext (Cases.fixed_gen "answer" [])
    Cases.long_text None 300 "gpt-4" "cheap" true
  = @generate_by_snippets Examples.twice_ext (Cases.fixed_gen "answer" [])
      Cases.long_text None 300 "gpt-4" true.
Proof.
  apply (@counted_above_max_is_split Examples.twice_ext
           (Cases.fixed_gen "answer" []) Cases.long_text None 300 "gpt-4"
           "cheap" true).
  - lia.
  - vm_compute. reflexivity.
Defined.
